(** * HummBot order tracker: a shallow embedding of [scripts/pk]

    The development follows the Python sources file by file:
    - [pk_triple_barrier.py], [tracked_order_details.py] and
      [take_profit_limit_order.py] give the records;
    - [pk_utils.py] gives the pure barrier predicates and helpers;
    - [pk_strategy.py] gives the class [PkStrategy], whose methods mutate the
      two registries and talk to the exchange.  They are written in a small
      state-and-exception monad over the fields of [self];
    - [savings.py] gives the class [ExcaliburStrategy], from
      [stop_actions_proposal] and [create_actions_proposal_savings] down.  Of
      the candles it keeps the column "close"; [update_processed_data], which
      fetches them, and the status display are not embedded.

    Numbers.  [Decimal] quantities (prices, amounts, deltas) and [float]
    timestamps are both represented by rationals [Q] with exact arithmetic;
    the rounding of Python's decimal context (28 significant digits) and of
    binary64 is not represented, with one exception.  The close price of
    [close_filled_order] is the product of a quote by the [Decimal] of a
    binary64 float, whose 50 digits or so always exceed the context: there the
    two float operations and the decimal product are rounded as Python rounds
    them ([binary64], [decimal_mul]).  The exponent ranges of binary64 and of
    the decimal context are not represented.  Equality of two numbers is
    [Qeq] ([==]), as [Decimal('102.00') == Decimal('102')] is in Python.

    Collaborators.  The clock, the market data provider and the exchange
    gateway are not part of the repository.  Their answers are read from a
    [World]: the n-th call made by the strategy to any of them gets the n-th
    answer, so that every theorem quantifies over all behaviours of the
    collaborators. *)

From Stdlib Require Import QArith Qround Qabs Qpower ZArith Lia Lqa.
From stdpp Require Import base option list strings.

Open Scope Q_scope.

(** ** Python values *)

(** [a < b] on numbers, as a boolean. *)
Definition Qltb (x y : Q) : bool := negb (Qle_bool y x).

(** Truth value of a number: zero is falsy ([bool(Decimal('0.00'))] and
    [bool(0.0)] are [False]). *)
Definition truthy (x : Q) : bool := negb (Qeq_bool x 0).

(** Truth value of an optional number: [None] and zero are falsy. *)
Definition truthy_opt (x : option Q) : bool :=
  match x with
  | Some v => truthy v
  | None => false
  end.

(** Truth value of a string or of [None]: [None] and the empty string are
    falsy. *)
Definition truthy_str (x : option string) : bool :=
  match x with
  | Some s => negb (String.eqb s EmptyString)
  | None => false
  end.

(** [x or y] where [x] is an optional number. *)
Definition py_or (x : option Q) (y : Q) : Q :=
  match x with
  | Some v => if truthy v then v else y
  | None => y
  end.

(** ** Rounding *)

(** The nearest integer, a tie going to the even one. *)
Definition round_half_even (q : Q) : Z :=
  let below := Qfloor q in
  match Qcompare (q - inject_Z below) (1 # 2) with
  | Lt => below
  | Gt => (below + 1)%Z
  | Eq => if Z.even below then below else (below + 1)%Z
  end.

(** The position of the leading digit of a positive number in a base: the
    greatest [k] with [base ^ k <= q].  The search goes up from a power that
    is below [q]; the fuel covers the distance to a power that is above. *)
Fixpoint leading_digit_from (fuel : nat) (base : Z) (q : Q) (k : Z) : Z :=
  match fuel with
  | O => k
  | S fuel' =>
    if Qle_bool (inject_Z base ^ (k + 1)) q then leading_digit_from fuel' base q (k + 1)
    else k
  end.

Definition leading_digit (base : Z) (q : Q) : Z :=
  let n := Z.log2 (Qnum q) in
  let d := Z.log2 (Z.pos (Qden q)) in
  leading_digit_from (Z.to_nat (n + d + 2)) base q (- (d + 1)).

(** [q] rounded to [precision] significant digits in a base, ties to even. *)
Definition round_to (base precision : Z) (q : Q) : Q :=
  if Qeq_bool q 0 then 0
  else
    let exponent := (leading_digit base (Qabs q) - (precision - 1))%Z in
    inject_Z (round_half_even (q / inject_Z base ^ exponent)) * inject_Z base ^ exponent.

(** The result of an operation on binary64 floats: the exact result rounded
    to 53 binary digits.  [a / b] on two integers is rounded once, from the
    exact quotient. *)
Definition binary64 (q : Q) : Q := round_to 2 53 q.

(** [x * y] on Decimals in the default context: the exact product rounded to
    28 decimal digits. *)
Definition decimal_mul (x y : Q) : Q := round_to 10 28 (x * y).

(** ** Enumerations of the hummingbot library *)

(** Modelled from the spec: the library's enumerations are not in the
    repository; the spec names their members (side buy|sell, order type
    market or limit, position action open or close, price type
    mid|bestBid|bestAsk, close types stop-loss, take-profit, time-limit,
    expired, early-stop). *)
Inductive TradeType := BUY | SELL.
Inductive OrderType := MARKET | LIMIT.
Inductive PositionAction := OPEN | CLOSE.
Inductive PriceType := MidPrice | BestBid | BestAsk.
Inductive CloseType := TIME_LIMIT | STOP_LOSS | TAKE_PROFIT | EXPIRED | EARLY_STOP.

(** [PositionAction.X.value], the string carried by the events. *)
Definition PositionAction_value (p : PositionAction) : string :=
  match p with
  | OPEN => "OPEN"
  | CLOSE => "CLOSE"
  end.

#[global] Instance TradeType_eq_dec : EqDecision TradeType.
Proof. solve_decision. Defined.
#[global] Instance OrderType_eq_dec : EqDecision OrderType.
Proof. solve_decision. Defined.
#[global] Instance PositionAction_eq_dec : EqDecision PositionAction.
Proof. solve_decision. Defined.
#[global] Instance CloseType_eq_dec : EqDecision CloseType.
Proof. solve_decision. Defined.

(** ** pk_triple_barrier.py *)

Record TripleBarrier := {
  stop_loss_delta : option Q;
  take_profit_delta : option Q;
  time_limit : option Z;
  open_order_type : OrderType;
  take_profit_order_type : OrderType;
  time_limit_order_type : OrderType
}.

(** ** tracked_order_details.py *)

Module TrackedOrderDetails.
Record t := mk {
    connector_name : string;
    trading_pair : string;
    side : TradeType;
    order_id : string;
    amount : Q;
    entry_price : Q;
    triple_barrier : TripleBarrier;
    ref : string;
    created_at : Q;
    filled_amount : Q;
    exchange_order_id : option string;
    last_filled_at : option Q;
    last_filled_price : option Q;
    terminated_at : option Q;
    close_type : option CloseType
  }.

  (** Attribute assignments [order.x = v]. *)
Definition set_filled_amount (v : Q) (o : t) : t :=
    mk (connector_name o) (trading_pair o) (side o) (order_id o) (amount o)
       (entry_price o) (triple_barrier o) (ref o) (created_at o)
       v (exchange_order_id o) (last_filled_at o) (last_filled_price o)
       (terminated_at o) (close_type o).
Definition set_exchange_order_id (v : option string) (o : t) : t :=
    mk (connector_name o) (trading_pair o) (side o) (order_id o) (amount o)
       (entry_price o) (triple_barrier o) (ref o) (created_at o)
       (filled_amount o) v (last_filled_at o) (last_filled_price o)
       (terminated_at o) (close_type o).
Definition set_last_filled_at (v : option Q) (o : t) : t :=
    mk (connector_name o) (trading_pair o) (side o) (order_id o) (amount o)
       (entry_price o) (triple_barrier o) (ref o) (created_at o)
       (filled_amount o) (exchange_order_id o) v (last_filled_price o)
       (terminated_at o) (close_type o).
Definition set_last_filled_price (v : option Q) (o : t) : t :=
    mk (connector_name o) (trading_pair o) (side o) (order_id o) (amount o)
       (entry_price o) (triple_barrier o) (ref o) (created_at o)
       (filled_amount o) (exchange_order_id o) (last_filled_at o) v
       (terminated_at o) (close_type o).
Definition set_terminated_at (v : option Q) (o : t) : t :=
    mk (connector_name o) (trading_pair o) (side o) (order_id o) (amount o)
       (entry_price o) (triple_barrier o) (ref o) (created_at o)
       (filled_amount o) (exchange_order_id o) (last_filled_at o)
       (last_filled_price o) v (close_type o).
Definition set_close_type (v : option CloseType) (o : t) : t :=
    mk (connector_name o) (trading_pair o) (side o) (order_id o) (amount o)
       (entry_price o) (triple_barrier o) (ref o) (created_at o)
       (filled_amount o) (exchange_order_id o) (last_filled_at o)
       (last_filled_price o) (terminated_at o) v.

  (** The dataclass constructor with its defaults. *)
Definition new (connector_name trading_pair : string) (side : TradeType)
      (order_id : string) (amount entry_price : Q)
      (triple_barrier : TripleBarrier) (ref : string) (created_at : Q) : t :=
    mk connector_name trading_pair side order_id amount entry_price
       triple_barrier ref created_at 0 None None None None None.
End TrackedOrderDetails.

(** ** take_profit_limit_order.py *)

Module TakeProfitLimitOrder.
  (** [tracked_order] is a reference to the parent object, which sits in
      [PkStrategy.tracked_orders].  That list is only ever appended to, so the
      position of the parent in it identifies the object: the reference is that
      position. *)
Record t := mk {
    order_id : string;
    tracked_order : nat;
    amount : Q;
    entry_price : Q;
    created_at : Q;
    filled_amount : Q;
    last_filled_at : option Q;
    last_filled_price : option Q
  }.

Definition set_filled_amount (v : Q) (o : t) : t :=
    mk (order_id o) (tracked_order o) (amount o) (entry_price o) (created_at o)
       v (last_filled_at o) (last_filled_price o).
Definition set_last_filled_at (v : option Q) (o : t) : t :=
    mk (order_id o) (tracked_order o) (amount o) (entry_price o) (created_at o)
       (filled_amount o) v (last_filled_price o).
Definition set_last_filled_price (v : option Q) (o : t) : t :=
    mk (order_id o) (tracked_order o) (amount o) (entry_price o) (created_at o)
       (filled_amount o) (last_filled_at o) v.

Definition new (order_id : string) (tracked_order : nat)
      (amount entry_price created_at : Q) : t :=
    mk order_id tracked_order amount entry_price created_at 0 None None.
End TakeProfitLimitOrder.

(** ** pk_utils.py *)

Definition compute_stop_loss_price (side : TradeType) (ref_price stop_loss_delta : Q) : Q :=
  if decide (side = SELL) then ref_price * (1 + stop_loss_delta)
  else ref_price * (1 - stop_loss_delta).

Definition compute_take_profit_price (side : TradeType) (ref_price take_profit_delta : Q) : Q :=
  if decide (side = SELL) then ref_price * (1 - take_profit_delta)
  else ref_price * (1 + take_profit_delta).

Definition has_current_price_reached_stop_loss
    (tracked_order : TrackedOrderDetails.t) (current_price : Q) : bool :=
  match stop_loss_delta (TrackedOrderDetails.triple_barrier tracked_order) with
  | None => false
  | Some stop_loss_delta =>
    if negb (truthy stop_loss_delta) then false
    else
      let side := TrackedOrderDetails.side tracked_order in
      let ref_price := py_or (TrackedOrderDetails.last_filled_price tracked_order)
                             (TrackedOrderDetails.entry_price tracked_order) in
      let stop_loss_price := compute_stop_loss_price side ref_price stop_loss_delta in
      if decide (side = SELL) then Qltb stop_loss_price current_price
      else Qltb current_price stop_loss_price
  end.

Definition has_current_price_reached_take_profit
    (tracked_order : TrackedOrderDetails.t) (current_price : Q) : bool :=
  match take_profit_delta (TrackedOrderDetails.triple_barrier tracked_order) with
  | None => false
  | Some take_profit_delta =>
    if negb (truthy take_profit_delta) then false
    else
      let side := TrackedOrderDetails.side tracked_order in
      let ref_price := py_or (TrackedOrderDetails.last_filled_price tracked_order)
                             (TrackedOrderDetails.entry_price tracked_order) in
      let take_profit_price := compute_take_profit_price side ref_price take_profit_delta in
      if decide (side = SELL) then Qltb current_price take_profit_price
      else Qltb take_profit_price current_price
  end.

Definition has_unfilled_order_expired
    (order : TrackedOrderDetails.t) (expiration : Z) (current_timestamp : Q) : bool :=
  let created_at := TrackedOrderDetails.created_at order in
  Qltb (created_at + inject_Z expiration) current_timestamp.

(** [filled_at + time_limit] raises [TypeError] when the order has no fill
    timestamp: the result is [None] then. *)
Definition has_filled_order_reached_time_limit
    (tracked_order : TrackedOrderDetails.t) (current_timestamp : Q) : option bool :=
  match time_limit (TrackedOrderDetails.triple_barrier tracked_order) with
  | None => Some false
  | Some time_limit =>
    if (time_limit =? 0)%Z then Some false
    else
      match TrackedOrderDetails.last_filled_at tracked_order with
      | None => None
      | Some filled_at => Some (Qltb (filled_at + inject_Z time_limit) current_timestamp)
      end
  end.

(** ** Collaborators of the strategy *)

(** Modelled from the spec: the events of the exchange gateway,
    [OrderCreated{orderId, exchangeOrderId, positionAction}],
    [OrderFilled{orderId, amount, price, timestamp, positionAction}] and
    [OrderCancelled{orderId}].  [position] is the string value of a
    [PositionAction], or [None]. *)
Module OrderCreatedEvent.
Record t := mk {
    order_id : string;
    exchange_order_id : option string;
    position : option string
  }.
End OrderCreatedEvent.

Module OrderFilledEvent.
Record t := mk {
    order_id : string;
    amount : Q;
    price : Q;
    timestamp : Q;
    position : option string
  }.
End OrderFilledEvent.

Module OrderCancelledEvent.
Record t := mk { order_id : string }.
End OrderCancelledEvent.

(** The fields of [ExcaliburConfig] (savings_config.py) that [PkStrategy]
    reads. *)
Module ExcaliburConfig.
Record t := mk {
    connector_name : string;
    trading_pair : string;
    leverage : Z;
    unfilled_order_expiration : Z;
    limit_take_profit_price_delta_bps : Z
  }.
End ExcaliburConfig.

(** Modelled from the spec: the fields of the library's
    [PositionExecutorConfig] that [get_executor_config] fills in. *)
Module PositionExecutorConfig.
Record t := mk {
    timestamp : Q;
    connector_name : string;
    trading_pair : string;
    side : TradeType;
    entry_price : Q;
    amount : Q;
    leverage : Z
  }.
End PositionExecutorConfig.

(** A call made to the exchange gateway: [self.buy], [self.sell] or
    [self.cancel] with its arguments. *)
Inductive Command :=
| Buy (connector_name trading_pair : string) (amount : Q)
      (order_type : OrderType) (price : Q) (position_action : PositionAction)
| Sell (connector_name trading_pair : string) (amount : Q)
       (order_type : OrderType) (price : Q) (position_action : PositionAction)
| Cancel (connector_name trading_pair order_id : string).

(** The answers of the collaborators, by the rank of the call among all the
    calls the strategy makes to them.  [place_order] is the order id that
    [buy] or [sell] returns, or [None] when the call raises. *)
Record World := {
  now : nat -> Q;
  get_price_by_type : nat -> PriceType -> Q;
  place_order : nat -> option string
}.

(** ** pk_strategy.py: the state of a [PkStrategy] *)

(** The attributes of [self], with the log of the calls made to the gateway
    (oldest first) and the number of calls made to the collaborators. *)
Record PkStrategy := {
  config : ExcaliburConfig.t;
  is_a_sell_order_being_created : bool;
  is_a_buy_order_being_created : bool;
  tracked_orders : list TrackedOrderDetails.t;
  take_profit_limit_orders : list TakeProfitLimitOrder.t;
  commands : list Command;
  calls : nat
}.

(** [PkStrategy.__init__]. *)
Definition init (config : ExcaliburConfig.t) : PkStrategy :=
  {| config := config;
     is_a_sell_order_being_created := false;
     is_a_buy_order_being_created := false;
     tracked_orders := [];
     take_profit_limit_orders := [];
     commands := [];
     calls := 0 |}.

Definition set_is_a_sell_order_being_created (v : bool) (self : PkStrategy) : PkStrategy :=
  {| config := config self;
     is_a_sell_order_being_created := v;
     is_a_buy_order_being_created := is_a_buy_order_being_created self;
     tracked_orders := tracked_orders self;
     take_profit_limit_orders := take_profit_limit_orders self;
     commands := commands self;
     calls := calls self |}.

Definition set_is_a_buy_order_being_created (v : bool) (self : PkStrategy) : PkStrategy :=
  {| config := config self;
     is_a_sell_order_being_created := is_a_sell_order_being_created self;
     is_a_buy_order_being_created := v;
     tracked_orders := tracked_orders self;
     take_profit_limit_orders := take_profit_limit_orders self;
     commands := commands self;
     calls := calls self |}.

Definition set_tracked_orders (v : list TrackedOrderDetails.t) (self : PkStrategy) : PkStrategy :=
  {| config := config self;
     is_a_sell_order_being_created := is_a_sell_order_being_created self;
     is_a_buy_order_being_created := is_a_buy_order_being_created self;
     tracked_orders := v;
     take_profit_limit_orders := take_profit_limit_orders self;
     commands := commands self;
     calls := calls self |}.

Definition set_take_profit_limit_orders (v : list TakeProfitLimitOrder.t) (self : PkStrategy) : PkStrategy :=
  {| config := config self;
     is_a_sell_order_being_created := is_a_sell_order_being_created self;
     is_a_buy_order_being_created := is_a_buy_order_being_created self;
     tracked_orders := tracked_orders self;
     take_profit_limit_orders := v;
     commands := commands self;
     calls := calls self |}.

(** One more call to a collaborator, [cmd] being logged when it is a call to
    the gateway. *)
Definition called (cmd : list Command) (self : PkStrategy) : PkStrategy :=
  {| config := config self;
     is_a_sell_order_being_created := is_a_sell_order_being_created self;
     is_a_buy_order_being_created := is_a_buy_order_being_created self;
     tracked_orders := tracked_orders self;
     take_profit_limit_orders := take_profit_limit_orders self;
     commands := commands self ++ cmd;
     calls := S (calls self) |}.

(** ** The monad of the methods *)

(** The exceptions that leave a method: a division by zero
    ([decimal.DivisionByZero] or [decimal.InvalidOperation]), a [TypeError] of
    an arithmetic operation on [None], an exception of [buy] or [sell], and the
    use of a reference that denotes no object. *)
Inductive Exn := ArithmeticError | TypeError | GatewayError | ReferenceError.

Inductive Outcome (A : Type) :=
| Returned (a : A)
| Raised (e : Exn).
Arguments Returned {A} a.
Arguments Raised {A} e.

(** A method runs in a world from a state of [self]; it returns or raises,
    and leaves [self] in a new state either way. *)
Definition M (A : Type) : Type := World → PkStrategy → Outcome A * PkStrategy.

#[global] Instance M_ret : MRet M := λ A a _ self, (Returned a, self).
#[global] Instance M_bind : MBind M := λ A B k m w self,
  match m w self with
  | (Returned a, self') => k a w self'
  | (Raised e, self') => (Raised e, self')
  end.

Definition raise {A} (e : Exn) : M A := λ _ self, (Raised e, self).
Definition get : M PkStrategy := λ _ self, (Returned self, self).
Definition modify (f : PkStrategy → PkStrategy) : M unit := λ _ self, (Returned tt, f self).

(** The state in which a method leaves [self]. *)
Definition exec {A} (m : M A) (w : World) (self : PkStrategy) : PkStrategy := snd (m w self).
(** What the method returned or raised. *)
Definition outcome {A} (m : M A) (w : World) (self : PkStrategy) : Outcome A := fst (m w self).

(** [for x in l: body x]. *)
Fixpoint for_each {A} (l : list A) (body : A → M unit) : M unit :=
  match l with
  | [] => mret tt
  | x :: l' => body x;; for_each l' body
  end.

(** ** pk_strategy.py: collaborators as seen from [self] *)

(** [datetime.now().timestamp()]. *)
Definition get_market_data_provider_time : M Q := λ w self,
  (Returned (now w (calls self)), called [] self).

(** [self.market_data_provider.get_price_by_type(connector_name, trading_pair, price_type)]. *)
Definition _get_best_ask_or_bid (price_type : PriceType) : M Q := λ w self,
  (Returned (get_price_by_type w (calls self) price_type), called [] self).

Definition get_mid_price : M Q := _get_best_ask_or_bid MidPrice.
Definition get_best_ask : M Q := _get_best_ask_or_bid BestAsk.
Definition get_best_bid : M Q := _get_best_ask_or_bid BestBid.

(** [self.buy(...)] and [self.sell(...)] of the base class: the call is
    logged, and returns the order id the gateway assigns or raises. *)
Definition place (cmd : Command) : M string := λ w self,
  match place_order w (calls self) with
  | Some order_id => (Returned order_id, called [cmd] self)
  | None => (Raised GatewayError, called [cmd] self)
  end.

Definition buy (connector_name trading_pair : string) (amount : Q)
    (order_type : OrderType) (price : Q) (position_action : PositionAction) : M string :=
  place (Buy connector_name trading_pair amount order_type price position_action).

Definition sell (connector_name trading_pair : string) (amount : Q)
    (order_type : OrderType) (price : Q) (position_action : PositionAction) : M string :=
  place (Sell connector_name trading_pair amount order_type price position_action).

(** [self.cancel(connector_name, trading_pair, order_id)]. *)
Definition cancel (connector_name trading_pair order_id : string) : M unit := λ _ self,
  (Returned tt, called [Cancel connector_name trading_pair order_id] self).

(** The object a reference denotes.  A position outside the registry denotes
    none; no method passes one: the only reference ever taken is the position
    at which [did_fill_order] has just found the order. *)
Definition deref (r : nat) : M TrackedOrderDetails.t := λ _ self,
  match tracked_orders self !! r with
  | Some o => (Returned o, self)
  | None => (Raised ReferenceError, self)
  end.

(** ** pk_strategy.py: queries *)

Definition get_executor_config (side : TradeType) (entry_price amount_quote : Q)
    : M PositionExecutorConfig.t :=
  self ← get;
  let connector_name := ExcaliburConfig.connector_name (config self) in
  let trading_pair := ExcaliburConfig.trading_pair (config self) in
  let leverage := ExcaliburConfig.leverage (config self) in
  if Qeq_bool entry_price 0 then raise ArithmeticError
  else
    let amount := amount_quote / entry_price in
    timestamp ← get_market_data_provider_time;
    mret (PositionExecutorConfig.mk timestamp connector_name trading_pair side
            entry_price amount leverage).


(** [max(x :: l, key=key)]: the first element whose key no other exceeds. *)
Fixpoint py_max {A} (key : A → Q) (x : A) (l : list A) : A :=
  match l with
  | [] => x
  | y :: l' => py_max key (if Qltb (key x) (key y) then y else x) l'
  end.

(** The key of [find_last_terminated_filled_order]; the orders it is applied
    to have a termination time. *)
Definition terminated_at_key (order : TrackedOrderDetails.t) : Q :=
  default 0 (TrackedOrderDetails.terminated_at order).

Definition is_terminated_filled (side : TradeType) (ref : string)
    (order : TrackedOrderDetails.t) : Prop :=
  TrackedOrderDetails.side order = side ∧
  TrackedOrderDetails.ref order = ref ∧
  truthy_opt (TrackedOrderDetails.last_filled_at order) ∧
  truthy_opt (TrackedOrderDetails.terminated_at order).

#[global] Instance is_terminated_filled_dec side ref order :
  Decision (is_terminated_filled side ref order).
Proof. unfold is_terminated_filled. apply _. Defined.

Definition find_last_terminated_filled_order (self : PkStrategy)
    (side : TradeType) (ref : string) : option TrackedOrderDetails.t :=
  let terminated_filled_orders :=
    filter (is_terminated_filled side ref) (tracked_orders self) in
  match terminated_filled_orders with
  | [] => None
  | order :: orders => Some (py_max terminated_at_key order orders)
  end.

Definition is_active (order : TrackedOrderDetails.t) : Prop :=
  truthy (TrackedOrderDetails.created_at order) ∧
  ¬ truthy_opt (TrackedOrderDetails.terminated_at order).

#[global] Instance is_active_dec order : Decision (is_active order).
Proof. unfold is_active. apply _. Defined.

Definition get_active_tracked_orders (self : PkStrategy) (ref : option string)
    : list TrackedOrderDetails.t :=
  let active_tracked_orders := filter is_active (tracked_orders self) in
  if truthy_str ref then
    filter (λ order, Some (TrackedOrderDetails.ref order) = ref) active_tracked_orders
  else active_tracked_orders.

Definition get_active_tracked_orders_by_side (self : PkStrategy) (ref : option string)
    : list TrackedOrderDetails.t * list TrackedOrderDetails.t :=
  let active_orders := get_active_tracked_orders self ref in
  let active_sell_orders := filter (λ order, TrackedOrderDetails.side order = SELL) active_orders in
  let active_buy_orders := filter (λ order, TrackedOrderDetails.side order = BUY) active_orders in
  (active_sell_orders, active_buy_orders).

Definition get_unfilled_tracked_orders_by_side (self : PkStrategy) (ref : option string)
    : list TrackedOrderDetails.t * list TrackedOrderDetails.t :=
  let '(active_sell_orders, active_buy_orders) := get_active_tracked_orders_by_side self ref in
  let unfilled_sell_orders :=
    filter (λ order, ¬ truthy_opt (TrackedOrderDetails.last_filled_at order)) active_sell_orders in
  let unfilled_buy_orders :=
    filter (λ order, ¬ truthy_opt (TrackedOrderDetails.last_filled_at order)) active_buy_orders in
  (unfilled_sell_orders, unfilled_buy_orders).

Definition get_filled_tracked_orders_by_side (self : PkStrategy) (ref : option string)
    : list TrackedOrderDetails.t * list TrackedOrderDetails.t :=
  let '(active_sell_orders, active_buy_orders) := get_active_tracked_orders_by_side self ref in
  let filled_sell_orders :=
    filter (λ order, truthy_opt (TrackedOrderDetails.last_filled_at order) : Prop) active_sell_orders in
  let filled_buy_orders :=
    filter (λ order, truthy_opt (TrackedOrderDetails.last_filled_at order) : Prop) active_buy_orders in
  (filled_sell_orders, filled_buy_orders).

Definition get_all_unfilled_tp_limit_orders (self : PkStrategy) : list TakeProfitLimitOrder.t :=
  filter (λ order, ¬ truthy_opt (TakeProfitLimitOrder.last_filled_at order))
         (take_profit_limit_orders self).

Definition get_all_filled_tp_limit_orders (self : PkStrategy) : list TakeProfitLimitOrder.t :=
  filter (λ order, truthy_opt (TakeProfitLimitOrder.last_filled_at order) : Prop)
         (take_profit_limit_orders self).

(** [order.tracked_order.order_id], read through the reference ([None] for a
    reference that denotes no order, which [references_valid_run] excludes). *)
Definition parent_order_id (self : PkStrategy) (order : TakeProfitLimitOrder.t) : option string :=
  TrackedOrderDetails.order_id <$> tracked_orders self !! TakeProfitLimitOrder.tracked_order order.

Definition get_unfilled_tp_limit_orders (self : PkStrategy)
    (tracked_order : TrackedOrderDetails.t) : list TakeProfitLimitOrder.t :=
  filter (λ order, parent_order_id self order = Some (TrackedOrderDetails.order_id tracked_order))
         (get_all_unfilled_tp_limit_orders self).

Definition get_latest_filled_tp_limit_order (self : PkStrategy) : option TakeProfitLimitOrder.t :=
  let filled_tp_orders := get_all_filled_tp_limit_orders self in
  last filled_tp_orders.

(** ** pk_strategy.py: order creation and closing *)

(** [self.tracked_orders.append(order)] and its take-profit twin. *)
Definition append_tracked_order (order : TrackedOrderDetails.t) : M unit :=
  modify (λ self, set_tracked_orders (tracked_orders self ++ [order]) self).

Definition append_take_profit_limit_order (order : TakeProfitLimitOrder.t) : M unit :=
  modify (λ self, set_take_profit_limit_orders (take_profit_limit_orders self ++ [order]) self).

(** Assignments to the attributes of the object at position [i] of a
    registry. *)
Definition update_tracked_order (i : nat) (f : TrackedOrderDetails.t → TrackedOrderDetails.t)
    : M unit :=
  modify (λ self, set_tracked_orders (alter f i (tracked_orders self)) self).

Definition update_take_profit_limit_order (i : nat)
    (f : TakeProfitLimitOrder.t → TakeProfitLimitOrder.t) : M unit :=
  modify (λ self, set_take_profit_limit_orders (alter f i (take_profit_limit_orders self)) self).

Definition create_individual_order (executor_config : PositionExecutorConfig.t)
    (triple_barrier : TripleBarrier) (ref : string) : M unit :=
  let connector_name := PositionExecutorConfig.connector_name executor_config in
  let trading_pair := PositionExecutorConfig.trading_pair executor_config in
  let amount := PositionExecutorConfig.amount executor_config in
  let entry_price := PositionExecutorConfig.entry_price executor_config in
  let open_order_type := open_order_type triple_barrier in
  if decide (PositionExecutorConfig.side executor_config = SELL) then
    modify (set_is_a_sell_order_being_created true);;
    order_id ← sell connector_name trading_pair amount open_order_type entry_price OPEN;
    created_at ← get_market_data_provider_time;
    append_tracked_order
      (TrackedOrderDetails.new connector_name trading_pair SELL order_id amount
         entry_price triple_barrier ref created_at);;
    modify (set_is_a_sell_order_being_created false)
  else
    modify (set_is_a_buy_order_being_created true);;
    order_id ← buy connector_name trading_pair amount open_order_type entry_price OPEN;
    created_at ← get_market_data_provider_time;
    append_tracked_order
      (TrackedOrderDetails.new connector_name trading_pair BUY order_id amount
         entry_price triple_barrier ref created_at);;
    modify (set_is_a_buy_order_being_created false).

Definition create_order (side : TradeType) (entry_price : Q) (triple_barrier : TripleBarrier)
    (amount_quote : Q) (ref : string) : M unit :=
  executor_config ← get_executor_config side entry_price amount_quote;
  create_individual_order executor_config triple_barrier ref.

(** [tracked_order] is the reference to the filled order, as the fill handler
    holds it. *)
Definition create_tp_limit_order (tracked_order : nat) (amount entry_price : Q) : M unit :=
  parent ← deref tracked_order;
  let side := if decide (TrackedOrderDetails.side parent = BUY) then SELL else BUY in
  let trading_pair := TrackedOrderDetails.trading_pair parent in
  executor_config ← get_executor_config side entry_price amount;
  let connector_name := PositionExecutorConfig.connector_name executor_config in
  if decide (PositionExecutorConfig.side executor_config = SELL) then
    order_id ← sell connector_name trading_pair amount LIMIT entry_price CLOSE;
    created_at ← get_market_data_provider_time;
    append_take_profit_limit_order
      (TakeProfitLimitOrder.new order_id tracked_order amount entry_price created_at)
  else
    order_id ← buy connector_name trading_pair amount LIMIT entry_price CLOSE;
    created_at ← get_market_data_provider_time;
    append_take_profit_limit_order
      (TakeProfitLimitOrder.new order_id tracked_order amount entry_price created_at).

(** [Decimal(1 - bps / 10000)] and [Decimal(1 + bps / 10000)]: the quotient
    of the two integers and the difference or sum with 1 are binary64 floats,
    each rounded; [Decimal] of a float is its exact value.  For a [bps] from
    [10000 * 2 ^ 1024] on, where the quotient raises an [OverflowError] in
    Python, the value here is that of an exponent without bound. *)
Definition close_price_sell_factor (config : ExcaliburConfig.t) : Q :=
  binary64
    (1 - binary64 (inject_Z (ExcaliburConfig.limit_take_profit_price_delta_bps config) / 10000)).
Definition close_price_buy_factor (config : ExcaliburConfig.t) : Q :=
  binary64
    (1 + binary64 (inject_Z (ExcaliburConfig.limit_take_profit_price_delta_bps config) / 10000)).

(** The assignments that terminate an order. *)
Definition terminate (terminated_at : Q) (close_type : CloseType)
    (order : TrackedOrderDetails.t) : TrackedOrderDetails.t :=
  TrackedOrderDetails.set_close_type (Some close_type)
    (TrackedOrderDetails.set_terminated_at (Some terminated_at) order).

Definition close_filled_order (filled_order : TrackedOrderDetails.t)
    (market_or_limit : OrderType) (close_type : CloseType) : M unit :=
  let connector_name := TrackedOrderDetails.connector_name filled_order in
  let trading_pair := TrackedOrderDetails.trading_pair filled_order in
  let filled_amount := TrackedOrderDetails.filled_amount filled_order in
  self ← get;
  best_bid ← get_best_bid;
  let close_price_sell := decimal_mul best_bid (close_price_sell_factor (config self)) in
  best_ask ← get_best_ask;
  let close_price_buy := decimal_mul best_ask (close_price_buy_factor (config self)) in
  (if decide (TrackedOrderDetails.side filled_order = SELL) then
     buy connector_name trading_pair filled_amount market_or_limit close_price_sell CLOSE
   else
     sell connector_name trading_pair filled_amount market_or_limit close_price_buy CLOSE);;
  self ← get;
  match list_find (λ order, TrackedOrderDetails.order_id order
                            = TrackedOrderDetails.order_id filled_order)
                  (tracked_orders self) with
  | Some (i, _) =>
    terminated_at ← get_market_data_provider_time;
    update_tracked_order i (terminate terminated_at close_type)
  | None => mret tt
  end.

Definition cancel_unfilled_order (tracked_order : TrackedOrderDetails.t) : M unit :=
  let connector_name := TrackedOrderDetails.connector_name tracked_order in
  let trading_pair := TrackedOrderDetails.trading_pair tracked_order in
  let order_id := TrackedOrderDetails.order_id tracked_order in
  cancel connector_name trading_pair order_id.

Definition cancel_take_profit_for_order (filled_order : TrackedOrderDetails.t) : M unit :=
  let connector_name := TrackedOrderDetails.connector_name filled_order in
  let trading_pair := TrackedOrderDetails.trading_pair filled_order in
  self ← get;
  for_each (get_unfilled_tp_limit_orders self filled_order) (λ tp_limit_order,
    let order_id := TakeProfitLimitOrder.order_id tp_limit_order in
    cancel connector_name trading_pair order_id).

Definition close_filled_orders (filled_orders : list TrackedOrderDetails.t)
    (market_or_limit : OrderType) (close_type : CloseType) : M unit :=
  for_each filled_orders (λ filled_order,
    close_filled_order filled_order market_or_limit close_type;;
    cancel_take_profit_for_order filled_order).

(** ** pk_strategy.py: event handlers *)

(** [not position or position == PositionAction.CLOSE.value]. *)
Definition is_close_position (position : option string) : bool :=
  negb (truthy_str position) || bool_decide (position = Some (PositionAction_value CLOSE)).

Definition did_create_sell_order (created_event : OrderCreatedEvent.t) : M unit :=
  let position := OrderCreatedEvent.position created_event in
  if is_close_position position then mret tt
  else
    self ← get;
    match list_find (λ tracked_order, TrackedOrderDetails.order_id tracked_order
                                      = OrderCreatedEvent.order_id created_event)
                    (tracked_orders self) with
    | Some (i, _) =>
      update_tracked_order i
        (TrackedOrderDetails.set_exchange_order_id
           (OrderCreatedEvent.exchange_order_id created_event))
    | None => mret tt
    end.

Definition did_create_buy_order (created_event : OrderCreatedEvent.t) : M unit :=
  let position := OrderCreatedEvent.position created_event in
  if is_close_position position then mret tt
  else
    self ← get;
    match list_find (λ tracked_order, TrackedOrderDetails.order_id tracked_order
                                      = OrderCreatedEvent.order_id created_event)
                    (tracked_orders self) with
    | Some (i, _) =>
      update_tracked_order i
        (TrackedOrderDetails.set_exchange_order_id
           (OrderCreatedEvent.exchange_order_id created_event))
    | None => mret tt
    end.

(** The assignments a take-profit fill makes to the take-profit order and to
    the tracked order it reduces. *)
Definition fill_take_profit (filled_event : OrderFilledEvent.t)
    (take_profit_limit_order : TakeProfitLimitOrder.t) : TakeProfitLimitOrder.t :=
  TakeProfitLimitOrder.set_last_filled_price (Some (OrderFilledEvent.price filled_event))
    (TakeProfitLimitOrder.set_last_filled_at (Some (OrderFilledEvent.timestamp filled_event))
       (TakeProfitLimitOrder.set_filled_amount
          (TakeProfitLimitOrder.filled_amount take_profit_limit_order
           + OrderFilledEvent.amount filled_event)
          take_profit_limit_order)).

Definition reduce_tracked_order (filled_event : OrderFilledEvent.t)
    (tracked_order : TrackedOrderDetails.t) : TrackedOrderDetails.t :=
  let tracked_order :=
    TrackedOrderDetails.set_filled_amount
      (TrackedOrderDetails.filled_amount tracked_order - OrderFilledEvent.amount filled_event)
      tracked_order in
  if Qeq_bool (TrackedOrderDetails.filled_amount tracked_order) 0 then
    terminate (OrderFilledEvent.timestamp filled_event) TAKE_PROFIT tracked_order
  else tracked_order.

(** The assignments an entry fill makes to the tracked order. *)
Definition fill_tracked_order (filled_event : OrderFilledEvent.t)
    (tracked_order : TrackedOrderDetails.t) : TrackedOrderDetails.t :=
  TrackedOrderDetails.set_last_filled_price (Some (OrderFilledEvent.price filled_event))
    (TrackedOrderDetails.set_last_filled_at (Some (OrderFilledEvent.timestamp filled_event))
       (TrackedOrderDetails.set_filled_amount
          (TrackedOrderDetails.filled_amount tracked_order
           + OrderFilledEvent.amount filled_event)
          tracked_order)).

Definition did_fill_order (filled_event : OrderFilledEvent.t) : M unit :=
  let position := OrderFilledEvent.position filled_event in
  if is_close_position position then
    self ← get;
    match list_find (λ take_profit_limit_order,
                       TakeProfitLimitOrder.order_id take_profit_limit_order
                       = OrderFilledEvent.order_id filled_event)
                    (take_profit_limit_orders self) with
    | Some (i, take_profit_limit_order) =>
      update_take_profit_limit_order i (fill_take_profit filled_event);;
      self ← get;
      match list_find (λ tracked_order,
                         Some (TrackedOrderDetails.order_id tracked_order)
                         = parent_order_id self take_profit_limit_order)
                      (tracked_orders self) with
      | Some (j, _) => update_tracked_order j (reduce_tracked_order filled_event)
      | None => mret tt
      end
    | None => mret tt
    end
  else
    self ← get;
    match list_find (λ tracked_order, TrackedOrderDetails.order_id tracked_order
                                      = OrderFilledEvent.order_id filled_event)
                    (tracked_orders self) with
    | Some (i, tracked_order) =>
      update_tracked_order i (fill_tracked_order filled_event);;
      let take_profit_delta := take_profit_delta (TrackedOrderDetails.triple_barrier tracked_order) in
      let tp_order_type := take_profit_order_type (TrackedOrderDetails.triple_barrier tracked_order) in
      match take_profit_delta with
      | Some take_profit_delta =>
        if truthy take_profit_delta && bool_decide (tp_order_type = LIMIT) then
          let take_profit_price :=
            compute_take_profit_price (TrackedOrderDetails.side tracked_order)
              (OrderFilledEvent.price filled_event) take_profit_delta in
          create_tp_limit_order i (OrderFilledEvent.amount filled_event) take_profit_price
        else mret tt
      | None => mret tt
      end
    | None => mret tt
    end.

Definition did_cancel_order (cancelled_event : OrderCancelledEvent.t) : M unit :=
  self ← get;
  match list_find (λ order, TrackedOrderDetails.order_id order
                            = OrderCancelledEvent.order_id cancelled_event)
                  (tracked_orders self) with
  | Some (i, _) =>
    terminated_at ← get_market_data_provider_time;
    update_tracked_order i (terminate terminated_at EXPIRED)
  | None => mret tt
  end;;
  self ← get;
  match list_find (λ order, TakeProfitLimitOrder.order_id order
                            = OrderCancelledEvent.order_id cancelled_event)
                  (take_profit_limit_orders self) with
  | Some (i, _) =>
    modify (λ self, set_take_profit_limit_orders (delete i (take_profit_limit_orders self)) self)
  | None => mret tt
  end.

(** ** pk_strategy.py: the creation guard and the periodic checks *)

Definition can_create_order (side : TradeType) (amount_quote : Q) (ref : string)
    (cooldown_time_min : Z) : M bool :=
  self ← get;
  if Qeq_bool amount_quote 0 then mret false
  else if bool_decide (side = SELL) && is_a_sell_order_being_created self then mret false
  else if bool_decide (side = BUY) && is_a_buy_order_being_created self then mret false
  else
    match find_last_terminated_filled_order self side ref with
    | None => mret true
    | Some last_terminated_filled_order =>
      current_timestamp ← get_market_data_provider_time;
      if Qltb current_timestamp
              (terminated_at_key last_terminated_filled_order
               + inject_Z (cooldown_time_min * 60))
      then mret false
      else mret true
    end.

Definition check_unfilled_orders : M unit :=
  self ← get;
  let unfilled_order_expiration := ExcaliburConfig.unfilled_order_expiration (config self) in
  if (unfilled_order_expiration =? 0)%Z then mret tt
  else
    let '(unfilled_sell_orders, unfilled_buy_orders) :=
      get_unfilled_tracked_orders_by_side self None in
    for_each (unfilled_sell_orders ++ unfilled_buy_orders) (λ unfilled_order,
      current_timestamp ← get_market_data_provider_time;
      if has_unfilled_order_expired unfilled_order unfilled_order_expiration current_timestamp
      then cancel_unfilled_order unfilled_order
      else mret tt).

(** A [TypeError] of a pure helper, raised in the method that calls it. *)
Definition or_type_error {A} (x : option A) : M A :=
  match x with
  | Some a => mret a
  | None => raise TypeError
  end.

(** The body of the loop of [check_trading_orders], for one filled order. *)
Definition check_trading_order (current_price : Q) (filled_order : TrackedOrderDetails.t)
    : M unit :=
  if has_current_price_reached_stop_loss filled_order current_price then
    close_filled_order filled_order MARKET STOP_LOSS;;
    cancel_take_profit_for_order filled_order
  else
    self ← get;
    if bool_decide (length (get_unfilled_tp_limit_orders self filled_order) = 0%nat)
       && has_current_price_reached_take_profit filled_order current_price then
      let take_profit_order_type :=
        take_profit_order_type (TrackedOrderDetails.triple_barrier filled_order) in
      close_filled_order filled_order take_profit_order_type TAKE_PROFIT
    else
      current_timestamp ← get_market_data_provider_time;
      reached ← or_type_error (has_filled_order_reached_time_limit filled_order current_timestamp);
      if reached : bool then
        let time_limit_order_type :=
          time_limit_order_type (TrackedOrderDetails.triple_barrier filled_order) in
        close_filled_order filled_order time_limit_order_type TIME_LIMIT;;
        cancel_take_profit_for_order filled_order
      else mret tt.

Definition check_trading_orders : M unit :=
  current_price ← get_mid_price;
  self ← get;
  let '(filled_sell_orders, filled_buy_orders) := get_filled_tracked_orders_by_side self None in
  for_each (filled_sell_orders ++ filled_buy_orders) (check_trading_order current_price).

Definition check_orders : M unit :=
  check_unfilled_orders;;
  check_trading_orders.

(** ** pk_utils.py: the other helpers *)

(** The exceptions of the helpers and of the code of the savings strategy:
    [min] or [max] of an empty sequence, an operation on [None], a division by
    zero, an index out of range, a column or an attribute that is missing. *)
Module Raises.
Inductive t := ValueError | TypeError | ArithmeticError | IndexError | KeyError | AttributeError.
End Raises.

(** [sum(args)]: from 0, left to right. *)
Definition py_sum (args : list Q) : Q := foldl Qplus 0 args.


(** [min(x :: l, key=key)] and [max(x :: l, key=key)] when the keys may be
    [None]: every element after the first is compared with the best so far,
    and a comparison with [None] raises a [TypeError] ([None] here). *)
Fixpoint py_min_by {A} (key : A → option Q) (x : A) (l : list A) : option A :=
  match l with
  | [] => Some x
  | y :: l' =>
    match key y, key x with
    | Some ky, Some kx => py_min_by key (if Qltb ky kx then y else x) l'
    | _, _ => None
    end
  end.

Fixpoint py_max_by {A} (key : A → option Q) (x : A) (l : list A) : option A :=
  match l with
  | [] => Some x
  | y :: l' =>
    match key y, key x with
    | Some ky, Some kx => py_max_by key (if Qltb kx ky then y else x) l'
    | _, _ => None
    end
  end.

(** [(a - b) / c * 100] on Decimals. *)
Definition pct_of (a b c : Q) : Raises.t + Q :=
  if Qeq_bool c 0 then inl Raises.ArithmeticError
  else inr ((a - b) / c * 100).

Definition compute_sell_orders_pnl_pct (filled_sell_orders : list TrackedOrderDetails.t)
    (current_price : Q) : Raises.t + Q :=
  match filled_sell_orders with
  | [] => inl Raises.ValueError
  | order :: orders =>
    match py_min_by TrackedOrderDetails.last_filled_price order orders with
    | None => inl Raises.TypeError
    | Some worst =>
      match TrackedOrderDetails.last_filled_price worst with
      | None => inl Raises.TypeError
      | Some worst_filled_price => pct_of worst_filled_price current_price worst_filled_price
      end
    end
  end.

Definition compute_buy_orders_pnl_pct (filled_buy_orders : list TrackedOrderDetails.t)
    (current_price : Q) : Raises.t + Q :=
  match filled_buy_orders with
  | [] => inl Raises.ValueError
  | order :: orders =>
    match py_max_by TrackedOrderDetails.last_filled_price order orders with
    | None => inl Raises.TypeError
    | Some worst =>
      match TrackedOrderDetails.last_filled_price worst with
      | None => inl Raises.TypeError
      | Some worst_filled_price => pct_of current_price worst_filled_price worst_filled_price
      end
    end
  end.

Definition was_an_order_recently_opened (tracked_orders : list TrackedOrderDetails.t)
    (seconds : Z) (current_timestamp : Q) : bool :=
  match tracked_orders with
  | [] => false
  | order :: orders =>
    let most_recent_created_at :=
      TrackedOrderDetails.created_at (py_max TrackedOrderDetails.created_at order orders) in
    Qltb current_timestamp (most_recent_created_at + inject_Z seconds)
  end.

(** [x // y] on Decimals, for a divisor that is not zero: the integer part of
    the quotient, truncated towards zero. *)
Definition Qtruncate (q : Q) : Z :=
  if Qle_bool 0 q then Qfloor q else (- Qfloor (- q))%Z.

Definition decimal_floordiv (x y : Q) : Q := inject_Z (Qtruncate (x / y)).

Definition compute_rsi_pullback_difference (rsi : Q) : Q :=
  if Qltb 50 rsi then
    if Qltb rsi 75 then 2
    else
      let decrement := decimal_floordiv (rsi - 75) 3 + 3 in
      decrement
  else if Qltb 25 rsi then 2
  else
    let increment := decimal_floordiv (25 - rsi) 3 + 3 in
    increment.

(** [//] on Python integers is the floor division, which is [Z.div]. *)
Definition compute_softened_leverage (leverage : Z) : Z :=
  let decrement := ((leverage - 3) / 2)%Z in
  (leverage - decrement)%Z.

(** ** savings_config.py: the order settings *)

(** The fields of [ExcaliburConfig] that only savings.py reads. *)
Module OrderSettings.
Record t := mk {
    amount_quote : Q;
    pyramiding : Z;
    dca_trigger_pct : Q;
    tp_pct : Q
  }.
End OrderSettings.

(** ** savings.py *)

Definition ORDER_REF : string := "Savings".

(** [ExcaliburStrategy(PkStrategy)]: the attributes of the base class, the
    order settings of [self.config], and the attributes of its own.
    [processed_data] is the column "close" of the data frame: [None] is the
    frame without columns that [__init__] assigns.  [saved_last_dca_price] and
    [buy_counter] are [None] until [reset_context] has assigned them. *)
Module ExcaliburStrategy.
Record t := mk {
    pk : PkStrategy;
    order_settings : OrderSettings.t;
    processed_data : option (list Q);
    saved_last_dca_price : option Q;
    buy_counter : option Z
  }.

Definition set_pk (v : PkStrategy) (self : t) : t :=
    mk v (order_settings self) (processed_data self) (saved_last_dca_price self)
       (buy_counter self).
Definition set_saved_last_dca_price (v : option Q) (self : t) : t :=
    mk (pk self) (order_settings self) (processed_data self) v (buy_counter self).
Definition set_buy_counter (v : option Z) (self : t) : t :=
    mk (pk self) (order_settings self) (processed_data self) (saved_last_dca_price self) v.
End ExcaliburStrategy.

(** What leaves a method of [ExcaliburStrategy]: an exception of a method of
    the base class, or one of its own code. *)
Inductive Failure :=
| Inherited (e : Exn)
| Own (e : Raises.t).

Inductive Result (A : Type) :=
| Done (a : A)
| Failed (e : Failure).
Arguments Done {A} a.
Arguments Failed {A} e.

Definition Method (A : Type) : Type :=
  World → ExcaliburStrategy.t → Result A * ExcaliburStrategy.t.

#[global] Instance Method_ret : MRet Method := λ A a _ self, (Done a, self).
#[global] Instance Method_bind : MBind Method := λ A B k m w self,
  match m w self with
  | (Done a, self') => k a w self'
  | (Failed e, self') => (Failed e, self')
  end.

Definition this : Method ExcaliburStrategy.t := λ _ self, (Done self, self).
Definition assign (f : ExcaliburStrategy.t → ExcaliburStrategy.t) : Method unit :=
  λ _ self, (Done tt, f self).
Definition throw {A} (e : Raises.t) : Method A := λ _ self, (Failed (Own e), self).

(** A call to a pure helper. *)
Definition own {A} (x : Raises.t + A) : Method A :=
  match x with
  | inr a => mret a
  | inl e => throw e
  end.

(** A call to a method of the base class, which runs on the attributes of the
    base class. *)
Definition inherited {A} (m : M A) : Method A := λ w self,
  match m w (ExcaliburStrategy.pk self) with
  | (Returned a, pk) => (Done a, ExcaliburStrategy.set_pk pk self)
  | (Raised e, pk) => (Failed (Inherited e), ExcaliburStrategy.set_pk pk self)
  end.

(** [TripleBarrier(open_order_type=OrderType.MARKET)], the other fields at
    their defaults. *)
Definition get_triple_barrier : TripleBarrier :=
  {| stop_loss_delta := None; take_profit_delta := None; time_limit := None;
     open_order_type := MARKET; take_profit_order_type := LIMIT;
     time_limit_order_type := MARKET |}.

(** [self.processed_data.shape[0]]. *)
Definition processed_data_num_rows (self : ExcaliburStrategy.t) : nat :=
  match ExcaliburStrategy.processed_data self with
  | None => 0
  | Some close_series => length close_series
  end.

(** [Decimal(close_series.iloc[-1])]. *)
Definition get_current_close : Method Q :=
  self ← this;
  match ExcaliburStrategy.processed_data self with
  | None => throw Raises.KeyError
  | Some close_series =>
    match last close_series with
    | None => throw Raises.IndexError
    | Some close => mret close
    end
  end.

Definition save_last_dca_price : Method unit :=
  current_price ← get_current_close;
  assign (ExcaliburStrategy.set_saved_last_dca_price (Some current_price)).

Definition reset_context : Method unit :=
  save_last_dca_price;;
  assign (ExcaliburStrategy.set_buy_counter (Some 0%Z)).





(** The two sums are taken first, the cost raising a [TypeError] at the first
    order without a fill price; the division comes last. *)
Definition compute_avg_position_price (filled_buy_orders : list TrackedOrderDetails.t)
    : Raises.t + Q :=
  let total_amount := py_sum (TrackedOrderDetails.filled_amount <$> filled_buy_orders) in
  match mapM (λ order, Qmult (TrackedOrderDetails.filled_amount order)
                       <$> TrackedOrderDetails.last_filled_price order)
             filled_buy_orders with
  | None => inl Raises.TypeError
  | Some costs =>
    let total_cost := py_sum costs in
    if Qeq_bool total_amount 0 then inl Raises.ArithmeticError
    else inr (total_cost / total_amount)
  end.

Definition has_avg_position_reached_tp (side : TradeType)
    (filled_buy_orders : list TrackedOrderDetails.t) : Method bool :=
  avg_position_price ← own (compute_avg_position_price filled_buy_orders);
  self ← this;
  let tp_price :=
    compute_take_profit_price side avg_position_price
      (OrderSettings.tp_pct (ExcaliburStrategy.order_settings self) / 100) in
  current_price ← get_current_close;
  let has_reached_tp := Qltb tp_price current_price in
  mret has_reached_tp.



(** The log line before the closing reads the current close. *)
Definition stop_actions_proposal_savings : Method unit :=
  self ← this;
  let '(_, filled_buy_orders) :=
    get_filled_tracked_orders_by_side (ExcaliburStrategy.pk self) (Some ORDER_REF) in
  if bool_decide (0 < length filled_buy_orders)%nat then
    has_reached_tp ← has_avg_position_reached_tp BUY filled_buy_orders;
    if has_reached_tp : bool then
      get_current_close;;
      inherited (close_filled_orders filled_buy_orders MARKET TAKE_PROFIT);;
      reset_context
    else mret tt
  else mret tt.

(** The executor actions, of which the strategy builds none. *)
Inductive StopExecutorAction := .

Definition stop_actions_proposal : Method (list StopExecutorAction) :=
  self ← this;
  if bool_decide (processed_data_num_rows self = 0%nat) then mret []
  else
    inherited check_orders;;
    stop_actions_proposal_savings;;
    mret [].

(** * Vocabulary of the properties *)

(** The in-flight latch of a side. *)
Definition latch (side : TradeType) (self : PkStrategy) : bool :=
  if decide (side = SELL) then is_a_sell_order_being_created self
  else is_a_buy_order_being_created self.

(** [cmd] closes the position of [order] with an order of type [order_type]:
    the opposite side, the whole filled amount, position action close. *)
Definition is_close_command (order : TrackedOrderDetails.t) (order_type : OrderType)
    (cmd : Command) : Prop :=
  match TrackedOrderDetails.side order with
  | SELL => ∃ price, cmd = Buy (TrackedOrderDetails.connector_name order)
                               (TrackedOrderDetails.trading_pair order)
                               (TrackedOrderDetails.filled_amount order)
                               order_type price CLOSE
  | BUY => ∃ price, cmd = Sell (TrackedOrderDetails.connector_name order)
                               (TrackedOrderDetails.trading_pair order)
                               (TrackedOrderDetails.filled_amount order)
                               order_type price CLOSE
  end.

(** The cancellations of the unfilled take-profit orders of [order]. *)
Definition cancel_commands (self : PkStrategy) (order : TrackedOrderDetails.t) : list Command :=
  (λ tp_limit_order,
     Cancel (TrackedOrderDetails.connector_name order)
            (TrackedOrderDetails.trading_pair order)
            (TakeProfitLimitOrder.order_id tp_limit_order))
  <$> get_unfilled_tp_limit_orders self order.

(** How many of the calls are orders placed ([buy] or [sell]). *)
Definition is_submission (cmd : Command) : bool :=
  match cmd with
  | Cancel _ _ _ => false
  | _ => true
  end.

Definition submissions (cmds : list Command) : nat :=
  length (filter (λ cmd, is_submission cmd : Prop) cmds).


(** The calls that the driving strategy, the exchange events and the tick make
    on a [PkStrategy]. *)
Inductive Operation :=
| CreateOrder (side : TradeType) (entry_price : Q) (triple_barrier : TripleBarrier)
              (amount_quote : Q) (ref : string)
| CanCreateOrder (side : TradeType) (amount_quote : Q) (ref : string) (cooldown_time_min : Z)
| CloseFilledOrder (filled_order : TrackedOrderDetails.t) (market_or_limit : OrderType)
                   (close_type : CloseType)
| CloseFilledOrders (filled_orders : list TrackedOrderDetails.t) (market_or_limit : OrderType)
                    (close_type : CloseType)
| CancelUnfilledOrder (tracked_order : TrackedOrderDetails.t)
| CancelTakeProfitForOrder (filled_order : TrackedOrderDetails.t)
| DidCreateSellOrder (created_event : OrderCreatedEvent.t)
| DidCreateBuyOrder (created_event : OrderCreatedEvent.t)
| DidFillOrder (filled_event : OrderFilledEvent.t)
| DidCancelOrder (cancelled_event : OrderCancelledEvent.t)
| CheckOrders.

Definition perform (op : Operation) : M unit :=
  match op with
  | CreateOrder side entry_price triple_barrier amount_quote ref =>
    create_order side entry_price triple_barrier amount_quote ref
  | CanCreateOrder side amount_quote ref cooldown_time_min =>
    can_create_order side amount_quote ref cooldown_time_min;; mret tt
  | CloseFilledOrder filled_order market_or_limit close_type =>
    close_filled_order filled_order market_or_limit close_type
  | CloseFilledOrders filled_orders market_or_limit close_type =>
    close_filled_orders filled_orders market_or_limit close_type
  | CancelUnfilledOrder tracked_order => cancel_unfilled_order tracked_order
  | CancelTakeProfitForOrder filled_order => cancel_take_profit_for_order filled_order
  | DidCreateSellOrder created_event => did_create_sell_order created_event
  | DidCreateBuyOrder created_event => did_create_buy_order created_event
  | DidFillOrder filled_event => did_fill_order filled_event
  | DidCancelOrder cancelled_event => did_cancel_order cancelled_event
  | CheckOrders => check_orders
  end.

(** The state after a sequence of operations; an operation that raises leaves
    the state it had reached, and the next one starts from it. *)
Fixpoint run (w : World) (ops : list Operation) (self : PkStrategy) : PkStrategy :=
  match ops with
  | [] => self
  | op :: ops' => run w ops' (exec (perform op) w self)
  end.

(** From [self] to [self'], every tracked order is still at its position with
    its id, and those that had a termination time still have one. *)
Definition stays_terminated (self self' : PkStrategy) : Prop :=
  ∀ j o, tracked_orders self !! j = Some o →
    ∃ o', tracked_orders self' !! j = Some o' ∧
          TrackedOrderDetails.order_id o' = TrackedOrderDetails.order_id o ∧
          (is_Some (TrackedOrderDetails.terminated_at o) →
           is_Some (TrackedOrderDetails.terminated_at o')).

(** The same, of every run of a method and of an assignment to an order. *)
Definition keeps_terminated {A} (m : M A) : Prop :=
  ∀ w self, stays_terminated self (exec m w self).

Definition keeps_termination (f : TrackedOrderDetails.t → TrackedOrderDetails.t) : Prop :=
  ∀ o, TrackedOrderDetails.order_id (f o) = TrackedOrderDetails.order_id o ∧
       (is_Some (TrackedOrderDetails.terminated_at o) →
        is_Some (TrackedOrderDetails.terminated_at (f o))).

(** Every take-profit order refers to an order of the registry. *)
Definition references_valid (self : PkStrategy) : Prop :=
  Forall (λ tp, (TakeProfitLimitOrder.tracked_order tp < length (tracked_orders self))%nat)
         (take_profit_limit_orders self).

Definition keeps_references {A} (m : M A) : Prop :=
  ∀ w self, references_valid self → references_valid (exec m w self).

(** * Scenarios

    Concrete orders, states and worlds on which the properties below are
    exercised. *)

(** A sell order filled at 100.00, entered at 99, with a stop-loss delta of
    0.020. *)
Definition sell_order_at_100 : TrackedOrderDetails.t :=
  TrackedOrderDetails.mk "binance" "BTC-USD" SELL "o1" 1 99
    {| stop_loss_delta := Some 0.020; take_profit_delta := None; time_limit := None;
       open_order_type := LIMIT; take_profit_order_type := LIMIT;
       time_limit_order_type := MARKET |}
    "R" 1000 1 None (Some 1001) (Some 100.00) None None.

(** The same order before any fill. *)
Definition sell_order_unfilled : TrackedOrderDetails.t :=
  TrackedOrderDetails.mk "binance" "BTC-USD" SELL "o1" 1 99
    {| stop_loss_delta := Some 0.020; take_profit_delta := None; time_limit := None;
       open_order_type := LIMIT; take_profit_order_type := LIMIT;
       time_limit_order_type := MARKET |}
    "R" 1000 0 None None None None None.

(** A buy order whose two deltas are the decimal 0.00, with the price far on
    the losing side of its entry. *)
Definition buy_order_zero_deltas : TrackedOrderDetails.t :=
  TrackedOrderDetails.mk "binance" "BTC-USD" BUY "o2" 1 100
    {| stop_loss_delta := Some 0.00; take_profit_delta := Some 0.00; time_limit := None;
       open_order_type := LIMIT; take_profit_order_type := LIMIT;
       time_limit_order_type := MARKET |}
    "R" 1000 1 None (Some 1001) (Some 100) None None.

Definition default_config : ExcaliburConfig.t :=
  ExcaliburConfig.mk "hyperliquid_perpetual" "BTC-USD" 2 60 0.

Definition limit_barrier : TripleBarrier :=
  {| stop_loss_delta := Some 0.02; take_profit_delta := Some 0.03; time_limit := Some 600%Z;
     open_order_type := LIMIT; take_profit_order_type := LIMIT;
     time_limit_order_type := MARKET |}.

(** A market quoting 99 / 100 / 101 (best bid, mid, best ask), whose clock
    reads 1000 + n at the n-th call. *)
Definition quotes (price_type : PriceType) : Q :=
  match price_type with
  | BestBid => 99
  | MidPrice => 100
  | BestAsk => 101
  end.

Definition ticking (n : nat) : Q := 1000 + inject_Z (Z.of_nat n).

(** The id the accepting gateway gives to the order placed by the n-th call:
    "o0", "o1", ... *)
Definition order_id_of_call (n : nat) : string :=
  "o" +:+ String (Ascii.ascii_of_nat (48 + n)) EmptyString.

(** A gateway that accepts every order, and one that rejects every order. *)
Definition accepting_world : World :=
  {| now := ticking; get_price_by_type := λ _, quotes;
     place_order := λ n, Some (order_id_of_call n) |}.

Definition rejecting_world : World :=
  {| now := ticking; get_price_by_type := λ _, quotes; place_order := λ _, None |}.

Definition sell_executor_config : PositionExecutorConfig.t :=
  PositionExecutorConfig.mk 1000 "hyperliquid_perpetual" "BTC-USD" SELL 100 (15 / 100) 2.

(** A filled sell order of 2 units, and a strategy that tracks it. *)
Definition filled_sell_order : TrackedOrderDetails.t :=
  TrackedOrderDetails.mk "hyperliquid_perpetual" "BTC-USD" SELL "s1" 2 100 limit_barrier
    "R" 1000 2 (Some "x1") (Some 1001) (Some 100) None None.

Definition tracking_filled_sell : PkStrategy :=
  set_tracked_orders [filled_sell_order] (init default_config).

(** Events about an order "zz" that the strategy never registered. *)
Definition unknown_fill (position : option string) : OrderFilledEvent.t :=
  OrderFilledEvent.mk "zz" 2 100 1010 position.

Definition unknown_creation : OrderCreatedEvent.t :=
  OrderCreatedEvent.mk "zz" (Some "x9") (Some "OPEN").

(** A take-profit order "t1" of 2 units resting for [filled_sell_order], and
    the fills of it that the exchange may report: the whole amount, or half. *)
Definition resting_take_profit : TakeProfitLimitOrder.t :=
  TakeProfitLimitOrder.new "t1" 0 2 97 1002.

Definition tracking_with_take_profit : PkStrategy :=
  set_take_profit_limit_orders [resting_take_profit] tracking_filled_sell.

Definition take_profit_fill (amount : Q) : OrderFilledEvent.t :=
  OrderFilledEvent.mk "t1" amount 97 1020 (Some "CLOSE").

(** A buy order for "R", filled and then terminated at 5000, and a strategy
    whose registry holds it; the clock of [clock_at t] always reads [t]. *)
Definition terminated_buy_order : TrackedOrderDetails.t :=
  TrackedOrderDetails.mk "hyperliquid_perpetual" "BTC-USD" BUY "b1" 2 100 limit_barrier
    "R" 4000 0 (Some "x2") (Some 4001) (Some 100) (Some 5000) (Some TAKE_PROFIT).

Definition after_terminated_buy : PkStrategy :=
  set_tracked_orders [terminated_buy_order] (init default_config).

Definition clock_at (t : Q) : World :=
  {| now := λ _, t; get_price_by_type := λ _, quotes;
     place_order := λ n, Some (order_id_of_call n) |}.

(** A sell order filled at 100 at time 1001, with a stop loss of 2%, a time
    limit of 600 s and one resting take-profit order; a market at 103 with a
    clock at 2000, where both the stop loss and the time limit are reached. *)
Definition stressed_quotes (price_type : PriceType) : Q :=
  match price_type with
  | BestBid => 102.9
  | MidPrice => 103
  | BestAsk => 103.1
  end.

Definition stressed_world : World :=
  {| now := λ _, 2000; get_price_by_type := λ _, stressed_quotes;
     place_order := λ n, Some (order_id_of_call n) |}.

(** The events of a round trip of a buy order of 15 quote units entered at
    100 under [accepting_world]: the order gets the id "o1" and its
    take-profit order the id "o4". *)
Definition round_trip_amount : Q := 15 / 100.

Definition round_trip_run : M unit :=
  create_order BUY 100 limit_barrier 15 "R";;
  did_create_buy_order (OrderCreatedEvent.mk "o1" (Some "x1") (Some "OPEN"));;
  did_fill_order (OrderFilledEvent.mk "o1" round_trip_amount 100 1010 (Some "OPEN"));;
  did_fill_order (OrderFilledEvent.mk "o4" round_trip_amount 103 1020 (Some "CLOSE")).

(** A sell order is created, filled, and closed by the stop loss of a tick
    while the market is at 103; the exchange then reports the cancellation of
    the same order. *)
Definition falling_world : World :=
  {| now := ticking; get_price_by_type := λ _, stressed_quotes;
     place_order := λ n, Some (order_id_of_call n) |}.

Definition stop_loss_story : list Operation :=
  [ CreateOrder SELL 100 limit_barrier 15 "R";
    DidFillOrder (OrderFilledEvent.mk "o1" (15 / 100) 100 1004 (Some "OPEN"));
    CheckOrders ].

Definition late_cancellation : list Operation :=
  [ DidCancelOrder (OrderCancelledEvent.mk "o1") ].

(** A filled buy order with both barriers, entered at 100 and filled at 101;
    the same order when the exchange reports a fill price of 0. *)
Definition filled_buy_order : TrackedOrderDetails.t :=
  TrackedOrderDetails.mk "hyperliquid_perpetual" "BTC-USD" BUY "b7" 2 100 limit_barrier
    "R" 1000 2 (Some "x7") (Some 1001) (Some 101) None None.

Definition filled_buy_order_at_zero : TrackedOrderDetails.t :=
  TrackedOrderDetails.set_last_filled_price (Some 0.00) filled_buy_order.

(** The rows of the docstrings of [compute_rsi_pullback_difference]
    (rsi, i) and of [compute_softened_leverage] (leverage, result). *)
Definition rsi_pullback_rows : list (Q * Q) :=
  [ (75, 3); (78, 4); (81, 5); (84, 6); (87, 7); (90, 8); (93, 9);
    (25, 3); (22, 4); (18, 5); (15, 6); (12, 7); (9, 8); (6, 9) ].

Definition softened_leverage_rows : list (Z * Z) :=
  [ (3, 3); (5, 4); (7, 5); (9, 6); (11, 7); (13, 8); (15, 9); (17, 10); (19, 11);
    (21, 12) ]%Z.

(** Three orders created at 1000, 1030 and 1010. *)
Definition order_created_at (created_at : Q) : TrackedOrderDetails.t :=
  TrackedOrderDetails.new "hyperliquid_perpetual" "BTC-USD" BUY "c" 1 100 limit_barrier
    "R" created_at.

Definition three_creations : list TrackedOrderDetails.t :=
  [order_created_at 1000; order_created_at 1030; order_created_at 1010].

(** Sell orders filled at 100, 90 and 110, and the same with one order that
    has no fill price. *)
Definition sell_filled_at (price : option Q) : TrackedOrderDetails.t :=
  TrackedOrderDetails.mk "hyperliquid_perpetual" "BTC-USD" SELL "s" 1 100 limit_barrier
    "R" 1000 1 None (Some 1001) price None None.


Definition sells_with_unfilled : list TrackedOrderDetails.t :=
  [sell_filled_at (Some 100); sell_filled_at None].

(** Two states agree on everything but the count of calls made to the
    collaborators. *)
Definition same_but_calls (self self' : PkStrategy) : Prop :=
  config self' = config self ∧
  is_a_sell_order_being_created self' = is_a_sell_order_being_created self ∧
  is_a_buy_order_being_created self' = is_a_buy_order_being_created self ∧
  tracked_orders self' = tracked_orders self ∧
  take_profit_limit_orders self' = take_profit_limit_orders self ∧
  commands self' = commands self.

(** A strategy in the middle of the creation of a sell order. *)
Definition creating_a_sell : PkStrategy :=
  set_is_a_sell_order_being_created true tracking_filled_sell.

(** The order that [create_order] places and the record it appends, for an
    order id and a creation time. *)
Definition open_command (self : PkStrategy) (side : TradeType) (entry_price : Q)
    (triple_barrier : TripleBarrier) (amount_quote : Q) : Command :=
  let connector_name := ExcaliburConfig.connector_name (config self) in
  let trading_pair := ExcaliburConfig.trading_pair (config self) in
  match side with
  | SELL => Sell connector_name trading_pair (amount_quote / entry_price)
                 (open_order_type triple_barrier) entry_price OPEN
  | BUY => Buy connector_name trading_pair (amount_quote / entry_price)
               (open_order_type triple_barrier) entry_price OPEN
  end.

Definition opened_order (self : PkStrategy) (side : TradeType) (entry_price : Q)
    (triple_barrier : TripleBarrier) (amount_quote : Q) (ref order_id : string)
    (created_at : Q) : TrackedOrderDetails.t :=
  TrackedOrderDetails.new (ExcaliburConfig.connector_name (config self))
    (ExcaliburConfig.trading_pair (config self)) side order_id
    (amount_quote / entry_price) entry_price triple_barrier ref created_at.

(** A registry with an unfilled buy, a filled sell, a terminated buy and a
    filled buy. *)
Definition mixed_registry : PkStrategy :=
  set_tracked_orders
    [order_created_at 1000; filled_sell_order; terminated_buy_order; filled_buy_order]
    (init default_config).

(** The exchange confirms the creation of "s1": as an opening order, and
    with the position action of a take-profit order. *)
Definition confirmation_of_s1 (position : option string) : OrderCreatedEvent.t :=
  OrderCreatedEvent.mk "s1" (Some "x5") position.

(** The limit order that an entry fill places to take the profit of [order],
    and the record that is appended for it. *)
Definition take_profit_command (self : PkStrategy) (order : TrackedOrderDetails.t)
    (amount price : Q) : Command :=
  match TrackedOrderDetails.side order with
  | BUY => Sell (ExcaliburConfig.connector_name (config self))
                (TrackedOrderDetails.trading_pair order) amount LIMIT price CLOSE
  | SELL => Buy (ExcaliburConfig.connector_name (config self))
                (TrackedOrderDetails.trading_pair order) amount LIMIT price CLOSE
  end.

(** Whether the barrier asks for a take-profit limit order. *)
Definition wants_take_profit_limit_order (triple_barrier : TripleBarrier) : bool :=
  truthy_opt (take_profit_delta triple_barrier)
  && bool_decide (take_profit_order_type triple_barrier = LIMIT).

(** An unfilled sell order "u1" whose barrier asks for a take-profit limit
    order, one whose barrier has the market take-profit type, and fills of
    it. *)
Definition market_barrier : TripleBarrier :=
  {| stop_loss_delta := Some 0.02; take_profit_delta := Some 0.03; time_limit := None;
     open_order_type := LIMIT; take_profit_order_type := MARKET;
     time_limit_order_type := MARKET |}.

Definition unfilled_sell (triple_barrier : TripleBarrier) : TrackedOrderDetails.t :=
  TrackedOrderDetails.new "hyperliquid_perpetual" "BTC-USD" SELL "u1" 2 100 triple_barrier
    "R" 1000.

Definition tracking_unfilled (triple_barrier : TripleBarrier) : PkStrategy :=
  set_tracked_orders [unfilled_sell triple_barrier] (init default_config).

Definition fill_of_u1 (amount : Q) : OrderFilledEvent.t :=
  OrderFilledEvent.mk "u1" amount 100 1010 (Some "OPEN").

(** The cancellation that [cancel_unfilled_order] sends for an order, and the
    active unfilled orders of a strategy that have expired at a time. *)
Definition cancel_command (order : TrackedOrderDetails.t) : Command :=
  Cancel (TrackedOrderDetails.connector_name order) (TrackedOrderDetails.trading_pair order)
         (TrackedOrderDetails.order_id order).

Definition expired_unfilled_orders (self : PkStrategy) (current_timestamp : Q)
    : list TrackedOrderDetails.t :=
  let unfilled := get_unfilled_tracked_orders_by_side self None in
  filter (λ order,
            has_unfilled_order_expired order
              (ExcaliburConfig.unfilled_order_expiration (config self)) current_timestamp : Prop)
         (unfilled.1 ++ unfilled.2).

(** A strategy without expiration of the unfilled orders. *)
Definition no_expiration_config : ExcaliburConfig.t :=
  ExcaliburConfig.mk "hyperliquid_perpetual" "BTC-USD" 2 0 0.

Definition mixed_registry_no_expiration : PkStrategy :=
  set_tracked_orders (tracked_orders mixed_registry) (init no_expiration_config).

(** A method whose every run leaves [self] in relation [R] with the state it
    found. *)
Definition respects (R : relation PkStrategy) {A} (m : M A) : Prop :=
  ∀ w self, R self (exec m w self).

(** A call that cancels an order or closes a position. *)
Definition is_exit_command (cmd : Command) : Prop :=
  match cmd with
  | Cancel _ _ _ => True
  | Buy _ _ _ _ _ position_action | Sell _ _ _ _ _ position_action => position_action = CLOSE
  end.

(** [order'] is [order] but for its termination time and close type. *)
Definition same_but_termination (order order' : TrackedOrderDetails.t) : Prop :=
  ∃ terminated_at close_type,
    order' = TrackedOrderDetails.set_close_type close_type
               (TrackedOrderDetails.set_terminated_at terminated_at order).

(** From [self] to [self']: the calls sent to the exchange are cancellations
    and closing orders, the tracked orders are the same but for their
    termination, and the take-profit orders, the latches and the configuration
    are as they were. *)
Definition only_exits (self self' : PkStrategy) : Prop :=
  (∃ issued, commands self' = commands self ++ issued ∧ Forall is_exit_command issued) ∧
  Forall2 same_but_termination (tracked_orders self) (tracked_orders self') ∧
  take_profit_limit_orders self' = take_profit_limit_orders self ∧
  is_a_sell_order_being_created self' = is_a_sell_order_being_created self ∧
  is_a_buy_order_being_created self' = is_a_buy_order_being_created self ∧
  config self' = config self.

(** A method that raises only when the exchange refuses an order. *)
Definition fails_at_gateway_only {A} (m : M A) : Prop :=
  ∀ w self e, outcome m w self = Raised e →
    e = GatewayError ∧ ∃ n, place_order w n = None.

(** The market of [stressed_world] with a gateway that refuses every order. *)
Definition rejecting_stressed_world : World :=
  {| now := λ _, 2000; get_price_by_type := λ _, stressed_quotes; place_order := λ _, None |}.

(** What [create_individual_order] writes on a tracked order, and no method
    assigns afterwards. *)
Definition same_identity (order order' : TrackedOrderDetails.t) : Prop :=
  TrackedOrderDetails.connector_name order' = TrackedOrderDetails.connector_name order ∧
  TrackedOrderDetails.trading_pair order' = TrackedOrderDetails.trading_pair order ∧
  TrackedOrderDetails.side order' = TrackedOrderDetails.side order ∧
  TrackedOrderDetails.order_id order' = TrackedOrderDetails.order_id order ∧
  TrackedOrderDetails.amount order' = TrackedOrderDetails.amount order ∧
  TrackedOrderDetails.entry_price order' = TrackedOrderDetails.entry_price order ∧
  TrackedOrderDetails.triple_barrier order' = TrackedOrderDetails.triple_barrier order ∧
  TrackedOrderDetails.ref order' = TrackedOrderDetails.ref order ∧
  TrackedOrderDetails.created_at order' = TrackedOrderDetails.created_at order.

(** From [self] to [self']: the configuration is the same, and every tracked
    order is still at its position, with the same identity and with a fill
    time if it had one. *)
Definition keeps_orders (self self' : PkStrategy) : Prop :=
  config self' = config self ∧
  ∀ j order, tracked_orders self !! j = Some order →
    ∃ order', tracked_orders self' !! j = Some order' ∧
              same_identity order order' ∧
              (is_Some (TrackedOrderDetails.last_filled_at order) →
               is_Some (TrackedOrderDetails.last_filled_at order')).

Definition keeps_order (f : TrackedOrderDetails.t → TrackedOrderDetails.t) : Prop :=
  ∀ order, same_identity order (f order) ∧
           (is_Some (TrackedOrderDetails.last_filled_at order) →
            is_Some (TrackedOrderDetails.last_filled_at (f order))).

(** The latch of [side] is the same in both states. *)
Definition same_latch (side : TradeType) (self self' : PkStrategy) : Prop :=
  latch side self' = latch side self.

(** [op] is a call to [create_order] for [side]. *)
Definition creates (side : TradeType) (op : Operation) : Prop :=
  match op with
  | CreateOrder side' _ _ _ _ => side' = side
  | _ => False
  end.

(** The exchange has refused a sell order; the strategy goes on with a tick, a
    buy order and a cancellation. *)
Definition after_refused_sell : PkStrategy :=
  exec (create_order SELL 100 limit_barrier 15 "R") rejecting_world (init default_config).

Definition life_goes_on : list Operation :=
  [ CheckOrders;
    CreateOrder BUY 100 limit_barrier 15 "R";
    DidFillOrder (OrderFilledEvent.mk "o1" (15 / 100) 100 1004 (Some "OPEN"));
    DidCancelOrder (OrderCancelledEvent.mk "o1");
    CheckOrders ].

(** The settings of the savings strategy as the configuration file has them,
    and a strategy with candles closing at 100, 99 and 98. *)
Definition default_order_settings : OrderSettings.t := OrderSettings.mk 15 25 0.4 1.

Definition savings_at (pk : PkStrategy) (close_series : list Q)
    (saved_last_dca_price : Q) (buy_counter : Z) : ExcaliburStrategy.t :=
  ExcaliburStrategy.mk pk default_order_settings (Some close_series)
    (Some saved_last_dca_price) (Some buy_counter).

(** Two buys of the savings strategy: 1 unit filled at 100 and 3 units filled
    at 96, the second without a fill price in [savings_buy_unpriced]. *)
Definition savings_buy (order_id : string) (amount price : Q) : TrackedOrderDetails.t :=
  TrackedOrderDetails.mk "hyperliquid_perpetual" "BTC-USD" BUY order_id amount price
    get_triple_barrier ORDER_REF 1000 amount (Some "x") (Some 1001) (Some price) None None.

Definition savings_buys : list TrackedOrderDetails.t :=
  [savings_buy "b1" 1 100; savings_buy "b2" 3 96].


(** The two sums of [compute_avg_position_price]: the amount held and what it
    has cost. *)
Definition total_amount (orders : list TrackedOrderDetails.t) : Q :=
  py_sum (TrackedOrderDetails.filled_amount <$> orders).

Definition total_cost (orders : list TrackedOrderDetails.t) : Q :=
  py_sum ((λ order, TrackedOrderDetails.filled_amount order
                    * default 0 (TrackedOrderDetails.last_filled_price order)) <$> orders).

(** The last close of the candles. *)
Definition current_close (self : ExcaliburStrategy.t) : option Q :=
  ExcaliburStrategy.processed_data self ≫= last.

(** A strategy that holds the two filled buys of [savings_buys]. *)
Definition holding_savings_buys : PkStrategy :=
  set_tracked_orders savings_buys (init default_config).

(** A configuration with a price delta of 5 basis points, and strategies that
    track a filled sell order and a filled buy order under it. *)
Definition buffered_config : ExcaliburConfig.t :=
  ExcaliburConfig.mk "hyperliquid_perpetual" "BTC-USD" 2 60 5.

Definition tracking_filled_sell_buffered : PkStrategy :=
  set_tracked_orders [filled_sell_order] (init buffered_config).

Definition tracking_filled_buy_buffered : PkStrategy :=
  set_tracked_orders [filled_buy_order] (init buffered_config).

(** * Properties *)

(** ** Numbers *)

Lemma Qltb_lt (x y : Q) : Qltb x y = true ↔ x < y.
Proof.
  unfold Qltb. rewrite negb_true_iff, <- not_true_iff_false, Qle_bool_iff.
  split; [apply Qnot_le_lt | apply Qlt_not_le].
Qed.

Lemma Qltb_ge (x y : Q) : Qltb x y = false ↔ y <= x.
Proof. unfold Qltb. rewrite negb_false_iff. apply Qle_bool_iff. Qed.

#[global] Instance Qltb_comp : Proper (Qeq ==> Qeq ==> eq) Qltb.
Proof. intros x x' Hx y y' Hy. unfold Qltb. now rewrite Hx, Hy. Qed.

#[global] Instance truthy_comp : Proper (Qeq ==> eq) truthy.
Proof. intros x x' Hx. unfold truthy. now rewrite Hx. Qed.

Lemma truthy_false (x : Q) : truthy x = false ↔ x == 0.
Proof. unfold truthy. rewrite negb_false_iff. apply Qeq_bool_iff. Qed.

Lemma truthy_true (x : Q) : truthy x = true ↔ ¬ x == 0.
Proof.
  unfold truthy. rewrite negb_true_iff, <- not_true_iff_false, Qeq_bool_iff. tauto.
Qed.

#[global] Instance compute_stop_loss_price_comp side :
  Proper (Qeq ==> Qeq ==> Qeq) (compute_stop_loss_price side).
Proof.
  intros p p' Hp d d' Hd. unfold compute_stop_loss_price.
  destruct (decide (side = SELL)); now rewrite Hp, Hd.
Qed.

(** ** Stop-loss and take-profit crossing (pk_utils.py) *)

(** What the stop-loss test computes once a delta is configured and not zero:
    the comparison of the current price with the stop-loss price derived from
    the reference price. *)
Lemma has_current_price_reached_stop_loss_eq o cp d :
  stop_loss_delta (TrackedOrderDetails.triple_barrier o) = Some d →
  truthy d = true →
  has_current_price_reached_stop_loss o cp =
    let ref_price := py_or (TrackedOrderDetails.last_filled_price o)
                           (TrackedOrderDetails.entry_price o) in
    match TrackedOrderDetails.side o with
    | SELL => Qltb (ref_price * (1 + d)) cp
    | BUY => Qltb cp (ref_price * (1 - d))
    end.
Proof.
  intros Hd Ht. unfold has_current_price_reached_stop_loss, compute_stop_loss_price.
  rewrite Hd, Ht. simpl. destruct (TrackedOrderDetails.side o); reflexivity.
Qed.

(** C9: a sell order filled at 100 with a stop-loss delta of 0.02 has its
    stop-loss price at 102, has reached it at 102.0001 and not at 101.9999;
    without a fill price the reference price is the entry price (a sell
    triggers strictly above the stop-loss price, a buy strictly below); without
    a delta the answer is false. *)
Theorem has_current_price_reached_stop_loss_spec :
  (∀ o p d,
     TrackedOrderDetails.side o = SELL →
     TrackedOrderDetails.last_filled_price o = Some p → p == 100 →
     stop_loss_delta (TrackedOrderDetails.triple_barrier o) = Some d → d == 0.02 →
     compute_stop_loss_price SELL p d == 102 ∧
     has_current_price_reached_stop_loss o 102.0001 = true ∧
     has_current_price_reached_stop_loss o 101.9999 = false) ∧
  (∀ o d cp,
     TrackedOrderDetails.last_filled_price o = None →
     stop_loss_delta (TrackedOrderDetails.triple_barrier o) = Some d → ¬ d == 0 →
     (has_current_price_reached_stop_loss o cp = true ↔
      match TrackedOrderDetails.side o with
      | SELL => TrackedOrderDetails.entry_price o * (1 + d) < cp
      | BUY => cp < TrackedOrderDetails.entry_price o * (1 - d)
      end)) ∧
  (∀ o cp,
     stop_loss_delta (TrackedOrderDetails.triple_barrier o) = None →
     has_current_price_reached_stop_loss o cp = false).
Proof.
  split; [|split].
  - intros o p d Hside Hp Hp100 Hd Hd002.
    assert (Hprice : compute_stop_loss_price SELL p d == 102).
    { rewrite Hp100, Hd002. reflexivity. }
    split; [exact Hprice|].
    assert (Ht : truthy d = true) by (rewrite Hd002; reflexivity).
    rewrite !(has_current_price_reached_stop_loss_eq o _ d Hd Ht).
    rewrite Hside, Hp. simpl.
    assert (Htp : truthy p = true) by (rewrite Hp100; reflexivity).
    rewrite Htp, Hp100, Hd002. split; reflexivity.
  - intros o d cp Hp Hd Hnz.
    apply truthy_true in Hnz.
    rewrite (has_current_price_reached_stop_loss_eq o cp d Hd Hnz), Hp. simpl.
    destruct (TrackedOrderDetails.side o); apply Qltb_lt.
  - intros o cp Hd. unfold has_current_price_reached_stop_loss. now rewrite Hd.
Qed.

Lemma has_current_price_reached_stop_loss_spec_witness :
  (compute_stop_loss_price SELL 100.00 0.020 == 102 ∧
   has_current_price_reached_stop_loss sell_order_at_100 102.0001 = true ∧
   has_current_price_reached_stop_loss sell_order_at_100 101.9999 = false) ∧
  (has_current_price_reached_stop_loss sell_order_unfilled 101 = true ↔
   99 * (1 + 0.020) < 101).
Proof.
  destruct has_current_price_reached_stop_loss_spec as (H1 & H2 & _).
  split.
  - apply (H1 sell_order_at_100 100.00 0.020); reflexivity.
  - apply (H2 sell_order_unfilled 0.020 101); [reflexivity | reflexivity | discriminate].
Defined.

(** C10: a stop-loss (take-profit) delta equal to zero disables the barrier,
    as an absent one does: the test is false at every price. *)
Theorem zero_delta_disables_barrier o d cp :
  d == 0 →
  (stop_loss_delta (TrackedOrderDetails.triple_barrier o) = Some d →
   has_current_price_reached_stop_loss o cp = false) ∧
  (take_profit_delta (TrackedOrderDetails.triple_barrier o) = Some d →
   has_current_price_reached_take_profit o cp = false).
Proof.
  intros Hd. apply truthy_false in Hd.
  split; intros Hb.
  - unfold has_current_price_reached_stop_loss. now rewrite Hb, Hd.
  - unfold has_current_price_reached_take_profit. now rewrite Hb, Hd.
Qed.

Lemma zero_delta_disables_barrier_witness :
  has_current_price_reached_stop_loss buy_order_zero_deltas 50 = false ∧
  has_current_price_reached_take_profit buy_order_zero_deltas 150 = false.
Proof.
  destruct (zero_delta_disables_barrier buy_order_zero_deltas 0.00 50) as [H1 _];
    [reflexivity|].
  destruct (zero_delta_disables_barrier buy_order_zero_deltas 0.00 150) as [_ H2];
    [reflexivity|].
  split; [apply H1 | apply H2]; reflexivity.
Defined.

(** ** Order creation (pk_strategy.py) *)

(** Unfolds the monad of the methods. *)
Ltac unfold_M :=
  unfold get_best_bid, get_best_ask, get_mid_price, _get_best_ask_or_bid,
    get_market_data_provider_time, buy, sell, place, cancel,
    append_tracked_order, append_take_profit_limit_order,
    update_tracked_order, update_take_profit_limit_order in *;
  unfold exec, outcome, mbind, M_bind, mret, M_ret, get, modify, raise in *.

(** C4, as the code has it: the latch of the side is back to false when the
    exchange create call returns; when that call raises, the exception leaves
    [create_individual_order] and the latch stays set. *)
Theorem create_individual_order_latch w self executor_config triple_barrier ref :
  let side := PositionExecutorConfig.side executor_config in
  let run := create_individual_order executor_config triple_barrier ref in
  match place_order w (calls self) with
  | Some _ => outcome run w self = Returned tt ∧ latch side (exec run w self) = false
  | None => outcome run w self = Raised GatewayError ∧ latch side (exec run w self) = true
  end.
Proof.
  unfold create_individual_order, latch. unfold_M.
  destruct (decide (PositionExecutorConfig.side executor_config = SELL)) as [Hs|Hs];
    simpl; destruct (place_order w (calls self)); simpl; auto.
Qed.

(** C4, as stated, fails: with a gateway that rejects the order, the call
    leaves the sell latch set. *)
Lemma create_individual_order_latch_not_reset :
  ¬ (∀ w self executor_config triple_barrier ref,
       latch (PositionExecutorConfig.side executor_config)
         (exec (create_individual_order executor_config triple_barrier ref) w self) = false).
Proof.
  intros H.
  specialize (H rejecting_world (init default_config) sell_executor_config limit_barrier "R").
  vm_compute in H. discriminate H.
Qed.

(** ** Closing a filled order (pk_strategy.py) *)

(** The first order of a registry that carries a given id is the one that
    the loops of the handlers find. *)
Lemma list_find_first_tracked (l : list TrackedOrderDetails.t) j order :
  l !! j = Some order →
  (∀ i o, (i < j)%nat → l !! i = Some o →
          TrackedOrderDetails.order_id o ≠ TrackedOrderDetails.order_id order) →
  list_find (λ o, TrackedOrderDetails.order_id o = TrackedOrderDetails.order_id order) l
  = Some (j, order).
Proof.
  intros Hj Hfirst. apply list_find_Some. split_and!; [done..|].
  intros i o Hi Hlt. by apply Hfirst with i.
Qed.

Lemma alter_lookup_insert {A} (f : A → A) (l : list A) i x :
  l !! i = Some x → alter f i l = <[i := f x]> l.
Proof.
  intros Hi. apply list_eq. intros k. destruct (decide (i = k)) as [->|Hne].
  - rewrite list_lookup_alter_eq, Hi, list_lookup_insert_eq; [done|].
    by eapply lookup_lt_Some.
  - by rewrite list_lookup_alter_ne, list_lookup_insert_ne.
Qed.

(** ** Rounding *)

(** [round_half_even] is a nearest integer, and [round_to] is a nearest number
    with [precision] digits in the base: a multiple of the unit of its last
    digit, at most half a unit away. *)
Lemma round_half_even_near (q : Q) :
  - (1 # 2) <= inject_Z (round_half_even q) - q ∧ inject_Z (round_half_even q) - q <= 1 # 2.
Proof.
  unfold round_half_even.
  pose proof (Qfloor_le q) as Hlo. pose proof (Qlt_floor q) as Hhi.
  rewrite inject_Z_plus in Hhi. change (inject_Z 1) with 1 in Hhi.
  destruct (Qcompare_spec (q - inject_Z (Qfloor q)) (1 # 2)) as [Heq|Hlt|Hgt].
  - destruct (Z.even (Qfloor q)); rewrite ?inject_Z_plus; change (inject_Z 1) with 1;
      split; lra.
  - split; lra.
  - rewrite inject_Z_plus. change (inject_Z 1) with 1. split; lra.
Qed.

Lemma round_half_even_integer (z : Z) : round_half_even (inject_Z z) = z.
Proof.
  unfold round_half_even. rewrite Qfloor_Z.
  destruct (Qcompare_spec (inject_Z z - inject_Z z) (1 # 2)) as [Heq|Hlt|Hgt]; [|done|]; lra.
Qed.

Lemma leading_digit_from_spec fuel base q k :
  inject_Z base ^ k <= q →
  q < inject_Z base ^ (k + Z.of_nat fuel) →
  inject_Z base ^ leading_digit_from fuel base q k <= q ∧
  q < inject_Z base ^ (leading_digit_from fuel base q k + 1).
Proof.
  revert k. induction fuel as [|fuel IH]; intros k Hlo Hhi; simpl.
  - rewrite Z.add_0_r in Hhi. lra.
  - destruct (Qle_bool (inject_Z base ^ (k + 1)) q) eqn:Hle.
    + apply IH; [by apply Qle_bool_iff|].
      by replace (k + 1 + Z.of_nat fuel)%Z with (k + Z.of_nat (S fuel))%Z by lia.
    + split; [done|]. apply Qnot_le_lt. intros H. apply Qle_bool_iff in H. congruence.
Qed.

Lemma Qpower_base_pos (base k : Z) : (2 <= base)%Z → 0 < inject_Z base ^ k.
Proof.
  intros Hb. apply Qpower_0_lt. change 0 with (inject_Z 0). rewrite <- Zlt_Qlt. lia.
Qed.

Lemma Qpower_above (base n : Z) :
  (2 <= base)%Z → (0 <= n)%Z → inject_Z (2 ^ n) <= inject_Z base ^ n.
Proof.
  intros Hb Hn. rewrite <- Zpower_Qpower by done. rewrite <- Zle_Qle.
  apply Z.pow_le_mono_l. lia.
Qed.

Lemma leading_digit_spec base q :
  (2 <= base)%Z → 0 < q →
  inject_Z base ^ leading_digit base q <= q ∧ q < inject_Z base ^ (leading_digit base q + 1).
Proof.
  intros Hb Hq. unfold leading_digit.
  destruct q as [n d]. cbn [Qnum Qden].
  assert (Hn : (0 < n)%Z) by (unfold Qlt in Hq; simpl in Hq; lia).
  pose proof (Z.log2_nonneg n) as Hln. pose proof (Z.log2_nonneg (Z.pos d)) as Hld.
  destruct (Z.log2_spec n Hn) as [_ Hnhi].
  destruct (Z.log2_spec (Z.pos d) (Pos2Z.is_pos d)) as [_ Hdhi].
  apply leading_digit_from_spec.
  - rewrite Qpower_opp.
    pose proof (Qpower_above base (Z.log2 (Z.pos d) + 1) Hb ltac:(lia)) as Habove.
    pose proof (Qpower_base_pos base (Z.log2 (Z.pos d) + 1) Hb) as Hpos.
    set (B := inject_Z base ^ (Z.log2 (Z.pos d) + 1)) in *.
    assert (Hd : inject_Z (Z.pos d) <= B).
    { eapply Qle_trans; [|exact Habove]. rewrite <- Zle_Qle.
      replace (Z.log2 (Z.pos d) + 1)%Z with (Z.succ (Z.log2 (Z.pos d))) by lia. lia. }
    apply Qle_shift_inv_r; [done|].
    assert (H1 : 1 <= inject_Z n) by (change 1 with (inject_Z 1); rewrite <- Zle_Qle; lia).
    assert (Hdpos : 0 < inject_Z (Z.pos d)) by (change 0 with (inject_Z 0); by rewrite <- Zlt_Qlt).
    assert (Heq : n # d == inject_Z n / inject_Z (Z.pos d)) by (rewrite (Qmake_Qdiv n d); reflexivity).
    rewrite Heq.
    assert (Hx : inject_Z n / inject_Z (Z.pos d) * B == inject_Z n * B / inject_Z (Z.pos d))
      by (field; lra).
    rewrite Hx. apply Qle_shift_div_l; [done|]. nra.
  - replace (- (Z.log2 (Z.pos d) + 1) + Z.of_nat (Z.to_nat (Z.log2 n + Z.log2 (Z.pos d) + 2)))%Z
      with (Z.log2 n + 1)%Z by lia.
    eapply Qlt_le_trans; [|apply Qpower_above; [done | lia]].
    assert (Hle : n # d <= inject_Z n).
    { unfold Qle. simpl. nia. }
    eapply Qle_lt_trans; [exact Hle|]. rewrite <- Zlt_Qlt.
    replace (Z.log2 n + 1)%Z with (Z.succ (Z.log2 n)) by lia. lia.
Qed.

Lemma round_to_spec base precision q :
  (2 <= base)%Z → ¬ q == 0 →
  let exponent := (leading_digit base (Qabs q) - (precision - 1))%Z in
  let unit := inject_Z base ^ exponent in
  round_to base precision q = inject_Z (round_half_even (q / unit)) * unit ∧
  inject_Z base ^ (precision - 1) * unit <= Qabs q ∧
  Qabs q < inject_Z base ^ precision * unit ∧
  Qabs (round_to base precision q - q) <= (1 # 2) * unit.
Proof.
  intros Hb Hq exponent unit.
  assert (Hround : round_to base precision q = inject_Z (round_half_even (q / unit)) * unit).
  { unfold round_to. fold exponent. fold unit.
    destruct (Qeq_bool q 0) eqn:Hz; [|done]. by apply Qeq_bool_iff in Hz. }
  assert (Habs : 0 < Qabs q).
  { apply Qabs_case; intros Hs.
    - apply Qle_lteq in Hs as [Hlt|Heq]; [done|]. destruct Hq. by symmetry.
    - apply Qle_lteq in Hs as [Hlt|Heq]; [lra|]. by destruct Hq. }
  assert (Hbase : ¬ inject_Z base == 0).
  { change 0 with (inject_Z 0). rewrite inject_Z_injective. lia. }
  destruct (leading_digit_spec base (Qabs q) Hb Habs) as [Hlo Hhi].
  pose proof (Qpower_base_pos base exponent Hb) as Hunit. fold unit in Hunit.
  split; [done|]. split_and!.
  - unfold unit. rewrite <- Qpower_plus by done. unfold exponent.
    by replace (precision - 1 + (leading_digit base (Qabs q) - (precision - 1)))%Z
      with (leading_digit base (Qabs q)) by lia.
  - unfold unit. rewrite <- Qpower_plus by done. unfold exponent.
    by replace (precision + (leading_digit base (Qabs q) - (precision - 1)))%Z
      with (leading_digit base (Qabs q) + 1)%Z by lia.
  - rewrite Hround.
    destruct (round_half_even_near (q / unit)) as [Hnlo Hnhi].
    set (m := inject_Z (round_half_even (q / unit))) in *.
    assert (Heq : m * unit - q == (m - q / unit) * unit) by (field; lra).
    rewrite Heq, Qabs_Qmult, (Qabs_pos unit) by lra.
    apply Qmult_le_compat_r; [|lra]. apply Qabs_Qle_condition. split; lra.
Qed.

(** C1, as the code has it: to close a filled sell order the strategy buys at
    the best bid times [Decimal(1 - bps/10000)], to close a filled buy order
    it sells at the best ask times [Decimal(1 + bps/10000)].  The factor is
    the [Decimal] of a float: the quotient [bps/10000] and its difference or
    sum with 1 are rounded to binary64, and the product with the quote is
    rounded to the 28 digits of the decimal context.  The command is for the
    whole filled amount with position action close; once the exchange call
    has returned, the first tracked order with the id of the closed one gets
    [terminated_at = now] and the close type.  The price delta is taken below
    [10 ^ 300] basis points, far from where the quotient overflows a float. *)
Theorem close_filled_order_spec w self filled_order market_or_limit close_type j id :
  tracked_orders self !! j = Some filled_order →
  (∀ i o, (i < j)%nat → tracked_orders self !! i = Some o →
          TrackedOrderDetails.order_id o ≠ TrackedOrderDetails.order_id filled_order) →
  place_order w (calls self + 2) = Some id →
  (Z.abs (ExcaliburConfig.limit_take_profit_price_delta_bps (config self)) < 10 ^ 300)%Z →
  let bps := inject_Z (ExcaliburConfig.limit_take_profit_price_delta_bps (config self)) in
  let best_bid := get_price_by_type w (calls self) BestBid in
  let best_ask := get_price_by_type w (calls self + 1) BestAsk in
  let connector_name := TrackedOrderDetails.connector_name filled_order in
  let trading_pair := TrackedOrderDetails.trading_pair filled_order in
  let filled_amount := TrackedOrderDetails.filled_amount filled_order in
  let run := close_filled_order filled_order market_or_limit close_type in
  outcome run w self = Returned tt ∧
  commands (exec run w self) = commands self ++ [
    match TrackedOrderDetails.side filled_order with
    | SELL => Buy connector_name trading_pair filled_amount market_or_limit
                  (decimal_mul best_bid (binary64 (1 - binary64 (bps / 10000)))) CLOSE
    | BUY => Sell connector_name trading_pair filled_amount market_or_limit
                  (decimal_mul best_ask (binary64 (1 + binary64 (bps / 10000)))) CLOSE
    end] ∧
  tracked_orders (exec run w self) =
    <[j := TrackedOrderDetails.set_close_type (Some close_type)
             (TrackedOrderDetails.set_terminated_at (Some (now w (calls self + 3)))
                filled_order)]> (tracked_orders self) ∧
  take_profit_limit_orders (exec run w self) = take_profit_limit_orders self.
Proof.
  intros Hj Hfirst Hplace _. simpl.
  pose proof (list_find_first_tracked _ _ _ Hj Hfirst) as Hfind.
  unfold close_filled_order, close_price_sell_factor, close_price_buy_factor. unfold_M.
  replace (calls self + 2)%nat with (S (S (calls self))) in Hplace by lia.
  replace (calls self + 1)%nat with (S (calls self)) by lia.
  replace (calls self + 3)%nat with (S (S (S (calls self)))) by lia.
  destruct (TrackedOrderDetails.side filled_order) eqn:Hside; simpl;
    rewrite Hplace; simpl; rewrite Hfind; simpl;
    rewrite (alter_lookup_insert _ _ _ _ Hj); unfold terminate;
    rewrite <- !app_assoc, !app_nil_r; auto.
Qed.

(** With a delta of 5 basis points and the market at 99 / 101: the factors are
    the floats [1 - 5/10000] and [1 + 5/10000], a sell order is closed by a buy
    at 98.95050000000000545163914012 and a buy order by a sell at
    101.0504999999999944382267358, as in Python. *)
Lemma close_filled_order_spec_witness :
  binary64 (1 - binary64 (5 / 10000)) == 4501347827556811 # 4503599627370496 ∧
  binary64 (1 + binary64 (5 / 10000)) == 4505851427184181 # 4503599627370496 ∧
  (∃ price,
     commands (exec (close_filled_order filled_sell_order LIMIT STOP_LOSS) accepting_world
                 tracking_filled_sell_buffered)
     = [Buy "hyperliquid_perpetual" "BTC-USD" 2 LIMIT price CLOSE] ∧
     price == 98.95050000000000545163914012) ∧
  (∃ price,
     commands (exec (close_filled_order filled_buy_order MARKET TAKE_PROFIT) accepting_world
                 tracking_filled_buy_buffered)
     = [Sell "hyperliquid_perpetual" "BTC-USD" 2 MARKET price CLOSE] ∧
     price == 101.0504999999999944382267358) ∧
  tracked_orders (exec (close_filled_order filled_sell_order LIMIT STOP_LOSS) accepting_world
                    tracking_filled_sell_buffered) =
    [TrackedOrderDetails.set_close_type (Some STOP_LOSS)
       (TrackedOrderDetails.set_terminated_at (Some (ticking 3)) filled_sell_order)].
Proof.
  destruct (close_filled_order_spec accepting_world tracking_filled_sell_buffered
              filled_sell_order LIMIT STOP_LOSS 0 "o2") as (_ & Hsell & Ht & _);
    [reflexivity | intros i o Hi; lia | reflexivity | by vm_compute |].
  destruct (close_filled_order_spec accepting_world tracking_filled_buy_buffered
              filled_buy_order MARKET TAKE_PROFIT 0 "o2") as (_ & Hbuy & _);
    [reflexivity | intros i o Hi; lia | reflexivity | by vm_compute |].
  split_and!.
  - by vm_compute.
  - by vm_compute.
  - eexists. split; [exact Hsell | by vm_compute].
  - eexists. split; [exact Hbuy | by vm_compute].
  - exact Ht.
Defined.

(** C1, as stated, fails: closing a filled sell order with the market at
    99 / 101 and no price delta, the strategy buys at 99, the best bid, and
    not at the best ask times [1 + bps/10000], which is 101. *)
Lemma close_filled_order_sell_not_at_best_ask :
  ¬ (∀ w self filled_order market_or_limit close_type id,
       TrackedOrderDetails.side filled_order = SELL →
       place_order w (calls self + 2) = Some id →
       let bps := inject_Z (ExcaliburConfig.limit_take_profit_price_delta_bps (config self)) in
       let best_ask := get_price_by_type w (calls self + 1) BestAsk in
       ∃ price,
         commands (exec (close_filled_order filled_order market_or_limit close_type) w self)
         = commands self ++ [Buy (TrackedOrderDetails.connector_name filled_order)
                                 (TrackedOrderDetails.trading_pair filled_order)
                                 (TrackedOrderDetails.filled_amount filled_order)
                                 market_or_limit price CLOSE] ∧
         price == best_ask * (1 + bps / 10000)).
Proof.
  intros H.
  destruct (H accepting_world tracking_filled_sell filled_sell_order LIMIT STOP_LOSS "o2")
    as (price & Hcmd & Hprice); [reflexivity..|].
  vm_compute in Hcmd. injection Hcmd as <-. vm_compute in Hprice. discriminate Hprice.
Qed.

(** ** Events that match no order (pk_strategy.py) *)

Lemma list_find_tracked_None (l : list TrackedOrderDetails.t) id :
  (∀ o, o ∈ l → TrackedOrderDetails.order_id o ≠ id) →
  list_find (λ o, TrackedOrderDetails.order_id o = id) l = None.
Proof. intros H. apply list_find_None, Forall_forall. exact H. Qed.

Lemma list_find_take_profit_None (l : list TakeProfitLimitOrder.t) id :
  (∀ o, o ∈ l → TakeProfitLimitOrder.order_id o ≠ id) →
  list_find (λ o, TakeProfitLimitOrder.order_id o = id) l = None.
Proof. intros H. apply list_find_None, Forall_forall. exact H. Qed.

(** C7: a fill, cancellation or creation event whose order id is that of no
    tracked order and of no take-profit order returns without raising and
    leaves the strategy as it was: both registries, every record in them, the
    latches and the log of exchange calls. *)
Theorem unmatched_event_ignored w self id :
  (∀ o, o ∈ tracked_orders self → TrackedOrderDetails.order_id o ≠ id) →
  (∀ o, o ∈ take_profit_limit_orders self → TakeProfitLimitOrder.order_id o ≠ id) →
  (∀ ev, OrderFilledEvent.order_id ev = id → did_fill_order ev w self = (Returned tt, self)) ∧
  (∀ ev, OrderCancelledEvent.order_id ev = id →
         did_cancel_order ev w self = (Returned tt, self)) ∧
  (∀ ev, OrderCreatedEvent.order_id ev = id →
         did_create_sell_order ev w self = (Returned tt, self) ∧
         did_create_buy_order ev w self = (Returned tt, self)).
Proof.
  intros Ht Htp.
  pose proof (list_find_tracked_None _ _ Ht) as Hft.
  pose proof (list_find_take_profit_None _ _ Htp) as Hftp.
  split_and!.
  - intros ev <-. unfold did_fill_order. unfold_M.
    destruct (is_close_position _); simpl; [by rewrite Hftp | by rewrite Hft].
  - intros ev <-. unfold did_cancel_order. unfold_M. simpl.
    rewrite Hft. simpl. by rewrite Hftp.
  - intros ev <-. unfold did_create_sell_order, did_create_buy_order. unfold_M.
    destruct (is_close_position _); simpl; [done | by rewrite Hft].
Qed.

Lemma unmatched_event_ignored_witness :
  did_fill_order (unknown_fill (Some "OPEN")) accepting_world tracking_filled_sell
    = (Returned tt, tracking_filled_sell) ∧
  did_fill_order (unknown_fill (Some "CLOSE")) accepting_world tracking_filled_sell
    = (Returned tt, tracking_filled_sell) ∧
  did_cancel_order (OrderCancelledEvent.mk "zz") accepting_world tracking_filled_sell
    = (Returned tt, tracking_filled_sell) ∧
  did_create_sell_order unknown_creation accepting_world tracking_filled_sell
    = (Returned tt, tracking_filled_sell).
Proof.
  destruct (unmatched_event_ignored accepting_world tracking_filled_sell "zz")
    as (Hfill & Hcancel & Hcreate).
  - intros o [->|[]%elem_of_nil]%elem_of_cons. discriminate.
  - intros o []%elem_of_nil.
  - split_and!.
    + apply Hfill. reflexivity.
    + apply Hfill. reflexivity.
    + apply Hcancel. reflexivity.
    + apply (Hcreate unknown_creation). reflexivity.
Defined.

(** ** Fills of a take-profit order (pk_strategy.py) *)

Lemma list_find_first_take_profit (l : list TakeProfitLimitOrder.t) i tp id :
  l !! i = Some tp →
  TakeProfitLimitOrder.order_id tp = id →
  (∀ k o, (k < i)%nat → l !! k = Some o → TakeProfitLimitOrder.order_id o ≠ id) →
  list_find (λ o, TakeProfitLimitOrder.order_id o = id) l = Some (i, tp).
Proof.
  intros Hi Hid Hfirst. apply list_find_Some. split_and!; [done..|].
  intros k o Hk Hlt. by apply Hfirst with k.
Qed.

Lemma list_find_parent (l : list TrackedOrderDetails.t) j parent :
  l !! j = Some parent →
  (∀ k o, (k < j)%nat → l !! k = Some o →
          TrackedOrderDetails.order_id o ≠ TrackedOrderDetails.order_id parent) →
  list_find (λ o, Some (TrackedOrderDetails.order_id o)
                  = Some (TrackedOrderDetails.order_id parent)) l
  = Some (j, parent).
Proof.
  intros Hj Hfirst. apply list_find_Some. split_and!; [done..|].
  intros k o Hk Hlt [= Heq]. by apply (Hfirst k o).
Qed.

(** What a take-profit fill does to the strategy, when the event is for the
    take-profit order at position [i] and the order that order refers to is at
    position [j] and is the first with its id. *)
Lemma did_fill_order_take_profit w self ev i tp j parent :
  is_close_position (OrderFilledEvent.position ev) = true →
  take_profit_limit_orders self !! i = Some tp →
  TakeProfitLimitOrder.order_id tp = OrderFilledEvent.order_id ev →
  (∀ k o, (k < i)%nat → take_profit_limit_orders self !! k = Some o →
          TakeProfitLimitOrder.order_id o ≠ OrderFilledEvent.order_id ev) →
  TakeProfitLimitOrder.tracked_order tp = j →
  tracked_orders self !! j = Some parent →
  (∀ k o, (k < j)%nat → tracked_orders self !! k = Some o →
          TrackedOrderDetails.order_id o ≠ TrackedOrderDetails.order_id parent) →
  did_fill_order ev w self =
    (Returned tt,
     set_tracked_orders (<[j := reduce_tracked_order ev parent]> (tracked_orders self))
       (set_take_profit_limit_orders
          (<[i := fill_take_profit ev tp]> (take_profit_limit_orders self)) self)).
Proof.
  intros Hpos Hi Hid Hfirst Hj Hparent Hpfirst.
  pose proof (list_find_first_take_profit _ _ _ _ Hi Hid Hfirst) as Hfind.
  pose proof (list_find_parent _ _ _ Hparent Hpfirst) as Hfindp.
  unfold did_fill_order. rewrite Hpos. unfold_M. simpl.
  rewrite Hfind. simpl. unfold parent_order_id. simpl.
  rewrite Hj, Hparent. simpl. rewrite Hfindp. simpl.
  by rewrite (alter_lookup_insert _ _ _ _ Hi), (alter_lookup_insert _ _ _ _ Hparent).
Qed.

(** C3: a fill with position action close for a take-profit order subtracts
    the filled amount from the filled amount of the parent order, whatever the
    result (partial fill, or below zero); it terminates the parent exactly
    when the result is 0, with [close_type = TAKE_PROFIT] and the timestamp of
    the fill; the take-profit order records the fill and stays in the
    registry. *)
Theorem take_profit_fill_spec w self ev i tp j parent :
  OrderFilledEvent.position ev = Some (PositionAction_value CLOSE) →
  take_profit_limit_orders self !! i = Some tp →
  TakeProfitLimitOrder.order_id tp = OrderFilledEvent.order_id ev →
  (∀ k o, (k < i)%nat → take_profit_limit_orders self !! k = Some o →
          TakeProfitLimitOrder.order_id o ≠ OrderFilledEvent.order_id ev) →
  TakeProfitLimitOrder.tracked_order tp = j →
  tracked_orders self !! j = Some parent →
  (∀ k o, (k < j)%nat → tracked_orders self !! k = Some o →
          TrackedOrderDetails.order_id o ≠ TrackedOrderDetails.order_id parent) →
  let remaining := TrackedOrderDetails.filled_amount parent - OrderFilledEvent.amount ev in
  let run := did_fill_order ev in
  outcome run w self = Returned tt ∧
  ∃ parent' tp',
    tracked_orders (exec run w self) = <[j := parent']> (tracked_orders self) ∧
    take_profit_limit_orders (exec run w self)
      = <[i := tp']> (take_profit_limit_orders self) ∧
    TrackedOrderDetails.filled_amount parent' = remaining ∧
    (remaining == 0 →
       TrackedOrderDetails.terminated_at parent' = Some (OrderFilledEvent.timestamp ev) ∧
       TrackedOrderDetails.close_type parent' = Some TAKE_PROFIT) ∧
    (¬ remaining == 0 →
       TrackedOrderDetails.terminated_at parent' = TrackedOrderDetails.terminated_at parent ∧
       TrackedOrderDetails.close_type parent' = TrackedOrderDetails.close_type parent) ∧
    TakeProfitLimitOrder.order_id tp' = TakeProfitLimitOrder.order_id tp ∧
    TakeProfitLimitOrder.filled_amount tp'
      = TakeProfitLimitOrder.filled_amount tp + OrderFilledEvent.amount ev ∧
    TakeProfitLimitOrder.last_filled_at tp' = Some (OrderFilledEvent.timestamp ev) ∧
    length (take_profit_limit_orders (exec run w self))
      = length (take_profit_limit_orders self).
Proof.
  intros Hpos Hi Hid Hfirst Hj Hparent Hpfirst remaining run.
  assert (Hclose : is_close_position (OrderFilledEvent.position ev) = true)
    by (rewrite Hpos; reflexivity).
  unfold run, outcome, exec.
  rewrite (did_fill_order_take_profit w self ev i tp j parent) by done. simpl.
  split; [done|].
  exists (reduce_tracked_order ev parent), (fill_take_profit ev tp).
  split_and!; try done.
  - unfold reduce_tracked_order. simpl. by destruct (Qeq_bool _ 0).
  - intros Hz. apply Qeq_bool_iff in Hz. unfold reduce_tracked_order. simpl.
    fold remaining. by rewrite Hz.
  - intros Hnz. unfold reduce_tracked_order. simpl. fold remaining.
    destruct (Qeq_bool remaining 0) eqn:Hz; [|done].
    by apply Qeq_bool_iff in Hz.
  - apply length_insert.
Qed.

Lemma take_profit_fill_spec_witness :
  let full := exec (did_fill_order (take_profit_fill 2)) accepting_world
                tracking_with_take_profit in
  let half := exec (did_fill_order (take_profit_fill 1)) accepting_world
                tracking_with_take_profit in
  (TrackedOrderDetails.terminated_at <$> tracked_orders full = [Some 1020] ∧
   TrackedOrderDetails.close_type <$> tracked_orders full = [Some TAKE_PROFIT] ∧
   length (take_profit_limit_orders full) = 1%nat) ∧
  (TrackedOrderDetails.terminated_at <$> tracked_orders half = [None] ∧
   TrackedOrderDetails.filled_amount <$> tracked_orders half = [2 - 1] ∧
   length (take_profit_limit_orders half) = 1%nat).
Proof.
  split.
  - destruct (take_profit_fill_spec accepting_world tracking_with_take_profit
                (take_profit_fill 2) 0 resting_take_profit 0 filled_sell_order)
      as (_ & parent' & tp' & Ht & Htp & _ & Hz & _ & _ & _ & _ & Hlen);
      [reflexivity | reflexivity | reflexivity | intros k o Hk; lia | reflexivity
      | reflexivity | intros k o Hk; lia |].
    destruct Hz as [Hat Hct]; [reflexivity|].
    rewrite Ht. simpl. rewrite Hat, Hct. split_and!; [reflexivity..|exact Hlen].
  - destruct (take_profit_fill_spec accepting_world tracking_with_take_profit
                (take_profit_fill 1) 0 resting_take_profit 0 filled_sell_order)
      as (_ & parent' & tp' & Ht & Htp & Hamt & _ & Hnz & _ & _ & _ & Hlen);
      [reflexivity | reflexivity | reflexivity | intros k o Hk; lia | reflexivity
      | reflexivity | intros k o Hk; lia |].
    destruct Hnz as [Hat Hct]; [discriminate|].
    rewrite Ht. simpl. rewrite Hat, Hamt. split_and!; [reflexivity..|exact Hlen].
Defined.

(** ** The creation guard and its cooldown (pk_strategy.py) *)

Lemma py_max_elem_of {A} (key : A → Q) x l : py_max key x l ∈ x :: l.
Proof.
  revert x. induction l as [|y l IH]; intros x; simpl.
  - apply list_elem_of_here.
  - specialize (IH (if Qltb (key x) (key y) then y else x)).
    apply elem_of_cons in IH as [->|IH].
    + destruct (Qltb (key x) (key y));
        [apply list_elem_of_further, list_elem_of_here | apply list_elem_of_here].
    + by do 2 apply list_elem_of_further.
Qed.

Lemma py_max_ge {A} (key : A → Q) x l y : y ∈ x :: l → key y <= key (py_max key x l).
Proof.
  revert x y. induction l as [|z l IH]; intros x y Hy; simpl.
  - apply elem_of_cons in Hy as [->|Hy%elem_of_nil]; [apply Qle_refl | done].
  - assert (Hx : key x <= key (if Qltb (key x) (key z) then z else x) ∧
                 key z <= key (if Qltb (key x) (key z) then z else x)).
    { destruct (Qltb (key x) (key z)) eqn:Hlt.
      - apply Qltb_lt in Hlt. split; [by apply Qlt_le_weak | apply Qle_refl].
      - apply Qltb_ge in Hlt. split; [apply Qle_refl | done]. }
    destruct Hx as [Hx Hz].
    apply elem_of_cons in Hy as [->|Hy].
    + eapply Qle_trans; [exact Hx|]. apply IH, list_elem_of_here.
    + apply elem_of_cons in Hy as [->|Hy].
      * eapply Qle_trans; [exact Hz|]. apply IH, list_elem_of_here.
      * apply IH. by apply list_elem_of_further.
Qed.

(** The order the cooldown looks at has the latest termination time among the
    terminated and filled orders of the side and ref. *)
Lemma find_last_terminated_filled_order_latest self side ref last T :
  last ∈ tracked_orders self →
  is_terminated_filled side ref last →
  TrackedOrderDetails.terminated_at last = Some T →
  (∀ o T', o ∈ tracked_orders self → is_terminated_filled side ref o →
           TrackedOrderDetails.terminated_at o = Some T' → T' <= T) →
  ∃ found, find_last_terminated_filled_order self side ref = Some found ∧
           terminated_at_key found == T.
Proof.
  intros Hin Htf HT Hmax. unfold find_last_terminated_filled_order.
  assert (Hlast : last ∈ filter (is_terminated_filled side ref) (tracked_orders self))
    by (by apply list_elem_of_filter).
  destruct (filter (is_terminated_filled side ref) (tracked_orders self))
    as [|x l] eqn:Hf; [by apply elem_of_nil in Hlast|].
  eexists. split; [reflexivity|].
  pose proof (py_max_elem_of terminated_at_key x l) as Hfound.
  rewrite <- Hf in Hfound. apply list_elem_of_filter in Hfound as [Hftf Hfin].
  apply Qle_antisym.
  - pose proof Hftf as (_ & _ & _ & Hterm).
    destruct (TrackedOrderDetails.terminated_at (py_max terminated_at_key x l))
      as [T'|] eqn:HT'; [|done].
    assert (Hk : terminated_at_key (py_max terminated_at_key x l) = T')
      by (unfold terminated_at_key at 1; by rewrite HT').
    rewrite Hk. by eapply Hmax.
  - pose proof (py_max_ge terminated_at_key x l last Hlast) as Hge.
    unfold terminated_at_key at 1 in Hge. by rewrite HT in Hge.
Qed.

Lemma find_last_terminated_filled_order_None self side ref :
  (∀ o, o ∈ tracked_orders self → ¬ is_terminated_filled side ref o) →
  find_last_terminated_filled_order self side ref = None.
Proof.
  intros Hnone. unfold find_last_terminated_filled_order.
  destruct (filter (is_terminated_filled side ref) (tracked_orders self))
    as [|x l] eqn:Hf; [done|].
  assert (Hx : x ∈ filter (is_terminated_filled side ref) (tracked_orders self))
    by (rewrite Hf; apply list_elem_of_here).
  apply list_elem_of_filter in Hx as [Hx Hin]. by destruct (Hnone x Hin).
Qed.

(** The answer of the guard for a nonzero amount and no creation in flight,
    when the latest terminated and filled order of the side and ref was
    terminated at [T]. *)
Lemma can_create_order_after_termination w self side ref cooldown q last T :
  ¬ q == 0 →
  latch side self = false →
  last ∈ tracked_orders self →
  is_terminated_filled side ref last →
  TrackedOrderDetails.terminated_at last = Some T →
  (∀ o T', o ∈ tracked_orders self → is_terminated_filled side ref o →
           TrackedOrderDetails.terminated_at o = Some T' → T' <= T) →
  outcome (can_create_order side q ref cooldown) w self =
    Returned (negb (Qltb (now w (calls self)) (T + inject_Z (cooldown * 60)))).
Proof.
  intros Hq Hlatch Hin Htf HT Hmax.
  destruct (find_last_terminated_filled_order_latest self side ref last T)
    as (found & Hfound & Hkey); [done..|].
  apply truthy_true in Hq. unfold truthy in Hq. apply negb_true_iff in Hq.
  unfold can_create_order. unfold_M. simpl. rewrite Hq.
  unfold latch in Hlatch.
  assert (Hlt : Qltb (now w (calls self))
                  (terminated_at_key found + inject_Z (cooldown * 60))
                = Qltb (now w (calls self)) (T + inject_Z (cooldown * 60)))
    by (by rewrite Hkey).
  destruct side; simpl in *; rewrite Hlatch; simpl; rewrite ?andb_false_r;
    rewrite Hfound, Hlt; clear Hlt; destruct (Qltb _ (T + _)); reflexivity.
Qed.

(** C5: with a buy order for the ref terminated and filled at [T] and none
    later, a nonzero amount and no buy creation in flight, the guard with a
    cooldown of 5 minutes answers false at every time in [T, T+300) and true
    at every time from [T+300] on, [T+300] included; with no terminated and
    filled buy order for the ref it answers true. *)
Theorem can_create_order_cooldown w self ref q :
  ¬ q == 0 →
  is_a_buy_order_being_created self = false →
  let current := now w (calls self) in
  let answer := outcome (can_create_order BUY q ref 5) w self in
  (∀ last T,
     last ∈ tracked_orders self →
     is_terminated_filled BUY ref last →
     TrackedOrderDetails.terminated_at last = Some T →
     (∀ o T', o ∈ tracked_orders self → is_terminated_filled BUY ref o →
              TrackedOrderDetails.terminated_at o = Some T' → T' <= T) →
     (T <= current → current < T + 300 → answer = Returned false) ∧
     (T + 300 <= current → answer = Returned true)) ∧
  ((∀ o, o ∈ tracked_orders self → ¬ is_terminated_filled BUY ref o) →
   answer = Returned true).
Proof.
  intros Hq Hlatch current answer. split.
  - intros last T Hin Htf HT Hmax.
    assert (Hanswer : answer = Returned (negb (Qltb current (T + 300)))).
    { unfold answer, current.
      by rewrite (can_create_order_after_termination w self BUY ref 5 q last T). }
    split.
    + intros _ Hlt. apply Qltb_lt in Hlt. by rewrite Hanswer, Hlt.
    + intros Hge. apply Qltb_ge in Hge. by rewrite Hanswer, Hge.
  - intros Hnone. unfold answer, can_create_order. unfold_M. simpl.
    apply truthy_true in Hq. unfold truthy in Hq. apply negb_true_iff in Hq.
    rewrite Hq, Hlatch. simpl.
    by rewrite (find_last_terminated_filled_order_None self BUY ref Hnone).
Qed.

Lemma can_create_order_cooldown_witness :
  outcome (can_create_order BUY 15 "R" 5) (clock_at 5000) after_terminated_buy
    = Returned false ∧
  outcome (can_create_order BUY 15 "R" 5) (clock_at 5299.999) after_terminated_buy
    = Returned false ∧
  outcome (can_create_order BUY 15 "R" 5) (clock_at 5300) after_terminated_buy
    = Returned true ∧
  outcome (can_create_order BUY 15 "other" 5) (clock_at 5000) after_terminated_buy
    = Returned true.
Proof.
  assert (Hmax : ∀ o T', o ∈ tracked_orders after_terminated_buy →
            is_terminated_filled BUY "R" o →
            TrackedOrderDetails.terminated_at o = Some T' → T' <= 5000).
  { intros o T' [->|[]%elem_of_nil]%elem_of_cons _ [= <-]. apply Qle_refl. }
  assert (Hin : terminated_buy_order ∈ tracked_orders after_terminated_buy)
    by apply list_elem_of_here.
  assert (Htf : is_terminated_filled BUY "R" terminated_buy_order)
    by (repeat split; exact I).
  split_and!.
  - destruct (can_create_order_cooldown (clock_at 5000) after_terminated_buy "R" 15)
      as [H _]; [discriminate | reflexivity |].
    destruct (H terminated_buy_order 5000 Hin Htf eq_refl Hmax) as [Hfalse _].
    apply Hfalse; [apply Qle_refl | reflexivity].
  - destruct (can_create_order_cooldown (clock_at 5299.999) after_terminated_buy "R" 15)
      as [H _]; [discriminate | reflexivity |].
    destruct (H terminated_buy_order 5000 Hin Htf eq_refl Hmax) as [Hfalse _].
    apply Hfalse; [discriminate | reflexivity].
  - destruct (can_create_order_cooldown (clock_at 5300) after_terminated_buy "R" 15)
      as [H _]; [discriminate | reflexivity |].
    destruct (H terminated_buy_order 5000 Hin Htf eq_refl Hmax) as [_ Htrue].
    apply Htrue. discriminate.
  - destruct (can_create_order_cooldown (clock_at 5000) after_terminated_buy "other" 15)
      as [_ H]; [discriminate | reflexivity |].
    apply H. intros o [->|[]%elem_of_nil]%elem_of_cons (_ & Href & _). discriminate Href.
Defined.

(** ** The exit checks of a tick (pk_strategy.py) *)

(** The run of [close_filled_order] when the gateway accepts the order and the
    closed order is at position [j] of the registry, the first with its id. *)
Lemma close_filled_order_returns w self o order_type close_type j id :
  tracked_orders self !! j = Some o →
  (∀ i o', (i < j)%nat → tracked_orders self !! i = Some o' →
           TrackedOrderDetails.order_id o' ≠ TrackedOrderDetails.order_id o) →
  place_order w (S (S (calls self))) = Some id →
  ∃ cmd,
    is_close_command o order_type cmd ∧
    close_filled_order o order_type close_type w self =
      (Returned tt,
       set_tracked_orders
         (<[j := terminate (now w (S (S (S (calls self))))) close_type o]>
            (tracked_orders self))
         (called [] (called [cmd] (called [] (called [] self))))).
Proof.
  intros Hj Hfirst Hplace.
  pose proof (list_find_first_tracked _ _ _ Hj Hfirst) as Hfind.
  unfold close_filled_order, is_close_command. unfold_M.
  destruct (TrackedOrderDetails.side o) eqn:Hside; simpl; rewrite Hplace; simpl;
    rewrite Hfind; simpl; rewrite (alter_lookup_insert _ _ _ _ Hj);
    eexists; (split; [eexists; reflexivity | reflexivity]).
Qed.

(** A loop of cancellations logs them and changes nothing else. *)
Lemma for_each_cancel w connector_name trading_pair (l : list TakeProfitLimitOrder.t) self :
  ∃ self',
    for_each l (λ tp_limit_order,
      cancel connector_name trading_pair (TakeProfitLimitOrder.order_id tp_limit_order))
      w self = (Returned tt, self') ∧
    commands self' = commands self
      ++ ((λ tp_limit_order, Cancel connector_name trading_pair
                               (TakeProfitLimitOrder.order_id tp_limit_order)) <$> l) ∧
    tracked_orders self' = tracked_orders self ∧
    take_profit_limit_orders self' = take_profit_limit_orders self.
Proof.
  revert self. induction l as [|tp l IH]; intros self; simpl.
  - exists self. unfold_M. by rewrite app_nil_r.
  - unfold_M. simpl.
    destruct (IH (called [Cancel connector_name trading_pair
                            (TakeProfitLimitOrder.order_id tp)] self))
      as (self' & Hrun & Hc & Ht & Htp).
    exists self'. rewrite Hrun, Hc, Ht, Htp. simpl.
    by rewrite <- app_assoc.
Qed.

Lemma cancel_take_profit_for_order_returns w self o :
  ∃ self',
    cancel_take_profit_for_order o w self = (Returned tt, self') ∧
    commands self' = commands self ++ cancel_commands self o ∧
    tracked_orders self' = tracked_orders self ∧
    take_profit_limit_orders self' = take_profit_limit_orders self.
Proof.
  unfold cancel_take_profit_for_order, cancel_commands.
  unfold mbind, M_bind, get.
  apply for_each_cancel.
Qed.


Lemma terminate_order_id t close_type o :
  TrackedOrderDetails.order_id (terminate t close_type o) = TrackedOrderDetails.order_id o.
Proof. reflexivity. Qed.



Lemma submissions_cancel_commands self o : submissions (cancel_commands self o) = 0%nat.
Proof.
  unfold submissions, cancel_commands.
  induction (get_unfilled_tp_limit_orders self o) as [|tp l IH]; [done|].
  rewrite fmap_cons, filter_cons_False; [exact IH | simpl; tauto].
Qed.

Lemma submissions_close_command o order_type cmd cmds :
  is_close_command o order_type cmd → submissions (cmd :: cmds) = S (submissions cmds).
Proof.
  unfold is_close_command, submissions. intros Hcmd.
  rewrite filter_cons_True; [done|].
  destruct (TrackedOrderDetails.side o), Hcmd as [price ->]; exact I.
Qed.



(** Whatever the gateway answers and whatever the registry holds, closing an
    order makes one call to the gateway. *)
Lemma close_filled_order_commands w self o order_type close_type :
  ∃ cmd, is_close_command o order_type cmd ∧
         commands (exec (close_filled_order o order_type close_type) w self)
         = commands self ++ [cmd].
Proof.
  unfold close_filled_order, is_close_command. unfold_M.
  destruct (TrackedOrderDetails.side o); simpl;
    (eexists; split; [eexists; reflexivity|]);
    destruct (place_order w (S (S (calls self)))); simpl;
    try destruct (list_find _ (tracked_orders self)) as [[i x]|]; simpl;
    by rewrite ?app_nil_r.
Qed.

Lemma submissions_app cmds cmds' :
  submissions (cmds ++ cmds') = (submissions cmds + submissions cmds')%nat.
Proof. unfold submissions. by rewrite filter_app, length_app. Qed.

(** The checks of one order place at most one order, in every world and
    state. *)
Lemma check_trading_order_submissions w self current_price o :
  ∃ issued,
    commands (exec (check_trading_order current_price o) w self) = commands self ++ issued ∧
    (submissions issued ≤ 1)%nat.
Proof.
  assert (Hclose : ∀ order_type close_type self,
            ∃ issued,
              commands (exec (close_filled_order o order_type close_type) w self)
              = commands self ++ issued ∧ (submissions issued ≤ 1)%nat).
  { intros order_type close_type s.
    destruct (close_filled_order_commands w s o order_type close_type) as (cmd & Hcmd & Hc).
    exists [cmd]. split; [done|].
    by rewrite (submissions_close_command o order_type). }
  assert (Hboth : ∀ order_type close_type self,
            ∃ issued,
              commands (exec (close_filled_order o order_type close_type;;
                              cancel_take_profit_for_order o) w self)
              = commands self ++ issued ∧ (submissions issued ≤ 1)%nat).
  { intros order_type close_type s.
    destruct (close_filled_order_commands w s o order_type close_type) as (cmd & Hcmd & Hc).
    unfold exec, mbind, M_bind in *.
    destruct (close_filled_order o order_type close_type w s) as [[[]|e] s1]; simpl in *.
    - destruct (cancel_take_profit_for_order_returns w s1 o) as (s2 & Hrun & Hc2 & _).
      rewrite Hrun. simpl. exists (cmd :: cancel_commands s1 o).
      rewrite Hc2, Hc, <- app_assoc. split; [done|].
      by rewrite (submissions_close_command o order_type), submissions_cancel_commands.
    - exists [cmd]. split; [done|]. by rewrite (submissions_close_command o order_type). }
  unfold check_trading_order.
  destruct (has_current_price_reached_stop_loss o current_price); [apply Hboth|].
  unfold exec. unfold mbind at 1, M_bind at 1, get at 1.
  destruct (_ && _); [apply Hclose|].
  unfold mbind at 1, M_bind at 1, get_market_data_provider_time at 1.
  unfold mbind at 1, M_bind at 1.
  destruct (has_filled_order_reached_time_limit o (now w (calls self))) as [[|]|]; simpl.
  - destruct (Hboth (time_limit_order_type (TrackedOrderDetails.triple_barrier o))
                TIME_LIMIT (called [] self)) as (issued & Hc & Hle).
    exists issued. unfold exec in Hc. rewrite Hc. simpl. by rewrite app_nil_r.
  - exists []. split; [done|]. unfold submissions. simpl. lia.
  - exists []. split; [done|]. unfold submissions. simpl. lia.
Qed.

(** A tick places at most as many closing orders as there are active filled
    orders. *)
Lemma check_trading_orders_submissions w self :
  ∃ issued,
    commands (exec check_trading_orders w self) = commands self ++ issued ∧
    (submissions issued ≤ length ((get_filled_tracked_orders_by_side self None).1
                                  ++ (get_filled_tracked_orders_by_side self None).2))%nat.
Proof.
  unfold check_trading_orders, exec.
  unfold mbind at 1, M_bind at 1, get_mid_price at 1, _get_best_ask_or_bid at 1.
  unfold mbind at 1, M_bind at 1, get at 1.
  change (get_filled_tracked_orders_by_side (called [] self) None)
    with (get_filled_tracked_orders_by_side self None).
  destruct (get_filled_tracked_orders_by_side self None) as [sells buys]. simpl.
  generalize (get_price_by_type w (calls self) MidPrice). intros current_price.
  assert (Hloop : ∀ l s, ∃ issued,
            commands (for_each l (check_trading_order current_price) w s).2
            = commands s ++ issued ∧ (submissions issued ≤ length l)%nat).
  { induction l as [|o l IH]; intros s; simpl.
    - exists []. split; [by rewrite app_nil_r|]. unfold submissions. simpl. lia.
    - destruct (check_trading_order_submissions w s current_price o) as (first & Hc & Hle).
      unfold exec, mbind, M_bind in *.
      destruct (check_trading_order current_price o w s) as [[[]|e] s1]; simpl in *.
      + destruct (IH s1) as (rest & Hc' & Hle').
        exists (first ++ rest). rewrite Hc', Hc, app_assoc. split; [done|].
        rewrite submissions_app. lia.
      + exists first. split; [done|]. lia. }
  destruct (Hloop (sells ++ buys) (called [] self)) as (issued & Hc & Hle).
  exists issued. rewrite Hc. simpl. by rewrite app_nil_r.
Qed.

(** ** Round trip of an order (pk_strategy.py) *)

Lemma Qeq_bool_false (x : Q) : ¬ x == 0 → Qeq_bool x 0 = false.
Proof. intros H. apply not_true_iff_false. by rewrite Qeq_bool_iff. Qed.

(** An order filled by [amount] from nothing and then reduced by [amount] is
    terminated as a take profit at the time of the second fill. *)
Lemma reduce_after_fill entry_fill take_profit_fill o :
  TrackedOrderDetails.filled_amount o == 0 →
  OrderFilledEvent.amount take_profit_fill == OrderFilledEvent.amount entry_fill →
  let o' := reduce_tracked_order take_profit_fill (fill_tracked_order entry_fill o) in
  TrackedOrderDetails.terminated_at o' = Some (OrderFilledEvent.timestamp take_profit_fill) ∧
  TrackedOrderDetails.close_type o' = Some TAKE_PROFIT ∧
  TrackedOrderDetails.exchange_order_id o' = TrackedOrderDetails.exchange_order_id o ∧
  TrackedOrderDetails.order_id o' = TrackedOrderDetails.order_id o.
Proof.
  intros Hzero Hsame. unfold reduce_tracked_order, fill_tracked_order.
  cbn -[Qplus Qminus Qeq_bool].
  assert (Hz : Qeq_bool (TrackedOrderDetails.filled_amount o
                         + OrderFilledEvent.amount entry_fill
                         - OrderFilledEvent.amount take_profit_fill) 0 = true).
  { apply Qeq_bool_iff. rewrite Hzero, Hsame. ring. }
  by rewrite Hz.
Qed.

Lemma filter_is_active_terminated o :
  truthy_opt (TrackedOrderDetails.terminated_at o) = true → filter is_active [o] = [].
Proof.
  intros Ht. rewrite filter_cons_False; [done|].
  unfold is_active. rewrite Ht. intros [_ H]. by apply H.
Qed.

#[local] Arguments reduce_tracked_order : simpl never.
#[local] Arguments fill_tracked_order : simpl never.
#[local] Arguments fill_take_profit : simpl never.

(** C8: from an empty strategy, creating an order whose barrier has a
    take-profit delta and the limit take-profit order type, confirming its
    creation, filling it in one fill, and filling the take-profit order that
    fill created, leaves one tracked order, terminated as a take profit, one
    take-profit order, filled for its whole amount, and no active tracked
    order. *)
Theorem round_trip w config side entry_price barrier amount_quote ref delta
    id1 id2 exchange_id fill_price t1 tp_fill_price t2 :
  take_profit_delta barrier = Some delta →
  ¬ delta == 0 →
  take_profit_order_type barrier = LIMIT →
  ¬ entry_price == 0 →
  ¬ compute_take_profit_price side fill_price delta == 0 →
  ¬ t2 == 0 →
  place_order w 1 = Some id1 →
  place_order w 4 = Some id2 →
  let amount := amount_quote / entry_price in
  let confirmation :=
    OrderCreatedEvent.mk id1 (Some exchange_id) (Some (PositionAction_value OPEN)) in
  let entry_fill :=
    OrderFilledEvent.mk id1 amount fill_price t1 (Some (PositionAction_value OPEN)) in
  let take_profit_fill :=
    OrderFilledEvent.mk id2 amount tp_fill_price t2 (Some (PositionAction_value CLOSE)) in
  let run :=
    create_order side entry_price barrier amount_quote ref;;
    (if decide (side = SELL) then did_create_sell_order confirmation
     else did_create_buy_order confirmation);;
    did_fill_order entry_fill;;
    did_fill_order take_profit_fill in
  outcome run w (init config) = Returned tt ∧
  ∃ order tp,
    tracked_orders (exec run w (init config)) = [order] ∧
    take_profit_limit_orders (exec run w (init config)) = [tp] ∧
    TrackedOrderDetails.order_id order = id1 ∧
    TrackedOrderDetails.exchange_order_id order = Some exchange_id ∧
    TrackedOrderDetails.terminated_at order = Some t2 ∧
    TrackedOrderDetails.close_type order = Some TAKE_PROFIT ∧
    TakeProfitLimitOrder.order_id tp = id2 ∧
    TakeProfitLimitOrder.tracked_order tp = 0%nat ∧
    TakeProfitLimitOrder.amount tp = amount ∧
    TakeProfitLimitOrder.filled_amount tp == TakeProfitLimitOrder.amount tp ∧
    get_active_tracked_orders (exec run w (init config)) None = [].
Proof.
  intros Hdelta Hnz Hlimit Hentry Htp Ht2 Hid1 Hid2. cbv zeta.
  apply Qeq_bool_false in Hentry, Htp.
  apply truthy_true in Hnz, Ht2.
  set (run := (create_order _ _ _ _ _;; _)).
  destruct (run w (init config)) as [out final] eqn:Hrun.
  unfold outcome, exec. rewrite Hrun. simpl.
  unfold run in Hrun. clear run.
  unfold create_order, get_executor_config, create_individual_order in Hrun.
  unfold_M. simpl in Hrun. rewrite Hentry in Hrun.
  destruct side; simpl in Hrun; rewrite Hid1 in Hrun; simpl in Hrun;
    unfold did_create_buy_order, did_create_sell_order, did_fill_order in Hrun;
    unfold_M; simpl in Hrun;
    rewrite !decide_True in Hrun by done; simpl in Hrun;
    rewrite !decide_True in Hrun by done; simpl in Hrun;
    rewrite Hdelta, Hnz, Hlimit in Hrun; simpl in Hrun;
    unfold create_tp_limit_order, deref, get_executor_config in Hrun; unfold_M;
    simpl in Hrun; rewrite Htp in Hrun; simpl in Hrun; rewrite Hid2 in Hrun;
    simpl in Hrun;
    rewrite !decide_True in Hrun by done; simpl in Hrun;
    unfold parent_order_id in Hrun; simpl in Hrun;
    rewrite !decide_True in Hrun by done; simpl in Hrun;
    injection Hrun as <- <-; simpl;
    (split; [done|]); eexists _, _;
    (split; [reflexivity|]); (split; [reflexivity|]);
    match goal with
    | |- context [reduce_tracked_order ?ev2 (fill_tracked_order ?ev1 ?o)] =>
      destruct (reduce_after_fill ev1 ev2 o) as (Hat & Hct & Hx & Hoid);
        [reflexivity | reflexivity |]
    end;
    simpl in Hat, Hct, Hx, Hoid; rewrite Hat, Hct, Hx, Hoid;
    (split_and!;
     [ reflexivity ..
     | unfold fill_take_profit; cbn -[Qplus Qdiv]; ring
     | unfold get_active_tracked_orders; simpl;
       apply filter_is_active_terminated; by rewrite Hat ]).
Qed.

Lemma round_trip_witness :
  outcome round_trip_run accepting_world (init default_config) = Returned tt ∧
  ∃ order tp,
    tracked_orders (exec round_trip_run accepting_world (init default_config)) = [order] ∧
    take_profit_limit_orders (exec round_trip_run accepting_world (init default_config))
      = [tp] ∧
    TrackedOrderDetails.close_type order = Some TAKE_PROFIT ∧
    TakeProfitLimitOrder.filled_amount tp == TakeProfitLimitOrder.amount tp ∧
    get_active_tracked_orders (exec round_trip_run accepting_world (init default_config)) None
      = [].
Proof.
  destruct (round_trip accepting_world default_config BUY 100 limit_barrier 15 "R" 0.03
              "o1" "o4" "x1" 100 1010 103 1020)
    as (Hout & order & tp & Ht & Htp & _ & _ & _ & Hct & _ & _ & _ & Hfull & Hactive);
    [reflexivity | discriminate | reflexivity | discriminate | discriminate | discriminate
    | reflexivity | reflexivity |].
  split; [exact Hout|]. exists order, tp. split_and!; assumption.
Defined.

(** ** Termination times over sequences of operations (pk_strategy.py) *)

Lemma stays_terminated_refl self : stays_terminated self self.
Proof. intros j o Hj. by exists o. Qed.

Lemma stays_terminated_trans self1 self2 self3 :
  stays_terminated self1 self2 → stays_terminated self2 self3 →
  stays_terminated self1 self3.
Proof.
  intros H12 H23 j o Hj.
  destruct (H12 j o Hj) as (o2 & Hj2 & Hid2 & Ht2).
  destruct (H23 j o2 Hj2) as (o3 & Hj3 & Hid3 & Ht3).
  exists o3. split_and!; [done | congruence | auto].
Qed.

Lemma stays_terminated_same self self' :
  tracked_orders self' = tracked_orders self → stays_terminated self self'.
Proof. intros Heq j o Hj. exists o. by rewrite Heq. Qed.

Lemma keeps_terminated_ret {A} (a : A) : keeps_terminated (mret a).
Proof. intros w self. apply stays_terminated_refl. Qed.

Lemma keeps_terminated_raise {A} e : keeps_terminated (raise e : M A).
Proof. intros w self. apply stays_terminated_refl. Qed.

Lemma keeps_terminated_bind {A B} (m : M A) (k : A → M B) :
  keeps_terminated m → (∀ a, keeps_terminated (k a)) → keeps_terminated (m ≫= k).
Proof.
  intros Hm Hk w self. specialize (Hm w self).
  unfold exec, mbind, M_bind in *.
  destruct (m w self) as [[a|e] self1]; simpl in *; [|done].
  eapply stays_terminated_trans; [exact Hm | apply Hk].
Qed.

Lemma keeps_terminated_get_bind {B} (k : PkStrategy → M B) :
  (∀ self, keeps_terminated (k self)) → keeps_terminated (get ≫= k).
Proof. intros Hk w self. apply (Hk self w self). Qed.

Lemma keeps_terminated_same {A} (m : M A) :
  (∀ w self, tracked_orders (exec m w self) = tracked_orders self) →
  keeps_terminated m.
Proof. intros H w self. apply stays_terminated_same, H. Qed.

Lemma keeps_terminated_for_each {A} (l : list A) (body : A → M unit) :
  (∀ x, keeps_terminated (body x)) → keeps_terminated (for_each l body).
Proof.
  intros Hbody. induction l as [|x l IH]; simpl.
  - apply keeps_terminated_ret.
  - apply keeps_terminated_bind; [apply Hbody | intros _; exact IH].
Qed.

Lemma keeps_terminated_update i f :
  keeps_termination f → keeps_terminated (update_tracked_order i f).
Proof.
  intros Hf w self j o Hj. unfold update_tracked_order, modify, exec. simpl.
  destruct (decide (i = j)) as [->|Hne].
  - exists (f o). rewrite list_lookup_alter_eq, Hj. destruct (Hf o). by split_and!.
  - exists o. by rewrite list_lookup_alter_ne.
Qed.

Lemma keeps_terminated_append o : keeps_terminated (append_tracked_order o).
Proof.
  intros w self j o' Hj. unfold append_tracked_order, modify, exec. simpl.
  exists o'. split_and!; [|done..]. by apply lookup_app_l_Some.
Qed.

Lemma keeps_termination_terminate t close_type : keeps_termination (terminate t close_type).
Proof. intros o. split; [done|]. intros _. by eexists. Qed.

Lemma keeps_termination_set_exchange_order_id x :
  keeps_termination (TrackedOrderDetails.set_exchange_order_id x).
Proof. by intros o. Qed.

Lemma keeps_termination_fill ev : keeps_termination (fill_tracked_order ev).
Proof. by intros o. Qed.

Lemma keeps_termination_reduce ev : keeps_termination (reduce_tracked_order ev).
Proof.
  intros o. unfold reduce_tracked_order.
  destruct (Qeq_bool _ 0); [|done]. split; [done|]. intros _. by eexists.
Qed.

Create HintDb keeps discriminated.

#[local] Hint Resolve keeps_terminated_ret keeps_terminated_raise keeps_terminated_update
  keeps_terminated_append keeps_termination_terminate
  keeps_termination_set_exchange_order_id keeps_termination_fill
  keeps_termination_reduce : keeps.

(** Calls to the collaborators and assignments to the other attributes of
    [self] leave the tracked orders alone. *)
Lemma keeps_terminated_time : keeps_terminated get_market_data_provider_time.
Proof. by apply keeps_terminated_same. Qed.

Lemma keeps_terminated_price price_type : keeps_terminated (_get_best_ask_or_bid price_type).
Proof. by apply keeps_terminated_same. Qed.

Lemma keeps_terminated_place cmd : keeps_terminated (place cmd).
Proof.
  apply keeps_terminated_same. intros w self. unfold place, exec.
  by destruct (place_order w (calls self)).
Qed.

Lemma keeps_terminated_cancel connector_name trading_pair order_id :
  keeps_terminated (cancel connector_name trading_pair order_id).
Proof. by apply keeps_terminated_same. Qed.

Lemma keeps_terminated_deref r : keeps_terminated (deref r).
Proof.
  apply keeps_terminated_same. intros w self. unfold deref, exec.
  by destruct (tracked_orders self !! r).
Qed.

Lemma keeps_terminated_modify f :
  (∀ self, tracked_orders (f self) = tracked_orders self) → keeps_terminated (modify f).
Proof. intros Hf. apply keeps_terminated_same. intros w self. apply Hf. Qed.

#[local] Hint Resolve keeps_terminated_time keeps_terminated_price keeps_terminated_place
  keeps_terminated_cancel keeps_terminated_deref : keeps.

(** Goes through a method: binds, branches and loops. *)
Ltac solve_keeps :=
  repeat first
    [ assumption
    | match goal with
      | |- keeps_terminated (mbind _ get) => apply keeps_terminated_get_bind; intros ?
      | |- keeps_terminated (mbind _ _) => apply keeps_terminated_bind; [|intros ?]
      | |- keeps_terminated (for_each _ _) => apply keeps_terminated_for_each; intros ?
      | |- keeps_terminated (modify _) =>
        apply keeps_terminated_modify; intros ?; reflexivity
      | |- keeps_terminated (if ?c then _ else _) => destruct c
      | |- keeps_terminated (match ?x with _ => _ end) => destruct x
      | |- keeps_terminated _ => solve [auto with keeps]
      | |- keeps_termination _ => solve [auto with keeps]
      | H : ∀ _, _ |- keeps_terminated _ => apply H
      end ].

Lemma keeps_terminated_get_executor_config side entry_price amount_quote :
  keeps_terminated (get_executor_config side entry_price amount_quote).
Proof. unfold get_executor_config. solve_keeps. Qed.

Lemma keeps_terminated_create_order side entry_price triple_barrier amount_quote ref :
  keeps_terminated (create_order side entry_price triple_barrier amount_quote ref).
Proof.
  unfold create_order, create_individual_order, buy, sell.
  pose proof keeps_terminated_get_executor_config. solve_keeps.
Qed.

Lemma keeps_terminated_create_tp_limit_order tracked_order amount entry_price :
  keeps_terminated (create_tp_limit_order tracked_order amount entry_price).
Proof.
  unfold create_tp_limit_order, append_take_profit_limit_order, buy, sell.
  pose proof keeps_terminated_get_executor_config. solve_keeps.
Qed.

Lemma keeps_terminated_close_filled_order filled_order market_or_limit close_type :
  keeps_terminated (close_filled_order filled_order market_or_limit close_type).
Proof.
  unfold close_filled_order, get_best_bid, get_best_ask, buy, sell. solve_keeps.
Qed.

Lemma keeps_terminated_cancel_take_profit_for_order filled_order :
  keeps_terminated (cancel_take_profit_for_order filled_order).
Proof. unfold cancel_take_profit_for_order. solve_keeps. Qed.

Lemma keeps_terminated_did_create created_event :
  keeps_terminated (did_create_sell_order created_event) ∧
  keeps_terminated (did_create_buy_order created_event).
Proof. unfold did_create_sell_order, did_create_buy_order. split; solve_keeps. Qed.

Lemma keeps_terminated_did_fill_order filled_event :
  keeps_terminated (did_fill_order filled_event).
Proof.
  unfold did_fill_order, update_take_profit_limit_order.
  pose proof keeps_terminated_create_tp_limit_order. solve_keeps.
Qed.

Lemma keeps_terminated_did_cancel_order cancelled_event :
  keeps_terminated (did_cancel_order cancelled_event).
Proof. unfold did_cancel_order. solve_keeps. Qed.

Lemma keeps_terminated_can_create_order side amount_quote ref cooldown_time_min :
  keeps_terminated (can_create_order side amount_quote ref cooldown_time_min).
Proof. unfold can_create_order. solve_keeps. Qed.

Lemma keeps_terminated_check_orders : keeps_terminated check_orders.
Proof.
  unfold check_orders, check_unfilled_orders, check_trading_orders, check_trading_order,
    cancel_unfilled_order, or_type_error, get_mid_price.
  pose proof keeps_terminated_close_filled_order.
  pose proof keeps_terminated_cancel_take_profit_for_order.
  solve_keeps.
Qed.

Lemma keeps_terminated_perform op : keeps_terminated (perform op).
Proof.
  destruct op; simpl.
  - apply keeps_terminated_create_order.
  - apply keeps_terminated_bind; [apply keeps_terminated_can_create_order|].
    intros ?. apply keeps_terminated_ret.
  - apply keeps_terminated_close_filled_order.
  - unfold close_filled_orders.
    pose proof keeps_terminated_close_filled_order.
    pose proof keeps_terminated_cancel_take_profit_for_order.
    solve_keeps.
  - unfold cancel_unfilled_order. solve_keeps.
  - apply keeps_terminated_cancel_take_profit_for_order.
  - apply keeps_terminated_did_create.
  - apply keeps_terminated_did_create.
  - apply keeps_terminated_did_fill_order.
  - apply keeps_terminated_did_cancel_order.
  - apply keeps_terminated_check_orders.
Qed.

(** C2, as the code has it: over every sequence of operations a tracked order
    stays at its position with its id, and a [terminated_at] that is set stays
    set; its value may be assigned again. *)
Theorem terminated_at_stays_set w ops self j o t :
  tracked_orders self !! j = Some o →
  TrackedOrderDetails.terminated_at o = Some t →
  ∃ o' t',
    tracked_orders (run w ops self) !! j = Some o' ∧
    TrackedOrderDetails.order_id o' = TrackedOrderDetails.order_id o ∧
    TrackedOrderDetails.terminated_at o' = Some t'.
Proof.
  revert self o t. induction ops as [|op ops IH]; intros self o t Hj Ht; simpl.
  - by exists o, t.
  - destruct (keeps_terminated_perform op w self j o Hj) as (o1 & Hj1 & Hid1 & Ht1).
    destruct Ht1 as [t1 Ht1]; [by rewrite Ht|].
    destruct (IH _ o1 t1 Hj1 Ht1) as (o' & t' & Hj' & Hid' & Ht').
    exists o', t'. split_and!; [done | congruence | done].
Qed.

(** What the story leads to: the tick terminates the order at 1010 as a stop
    loss, the cancellation event then terminates it again at 1012 as
    expired. *)
Lemma stop_loss_story_then_cancellation :
  let closed := run falling_world stop_loss_story (init default_config) in
  let cancelled := run falling_world late_cancellation closed in
  (TrackedOrderDetails.terminated_at <$> tracked_orders closed = [Some 1010] ∧
   TrackedOrderDetails.close_type <$> tracked_orders closed = [Some STOP_LOSS]) ∧
  (TrackedOrderDetails.terminated_at <$> tracked_orders cancelled = [Some 1012] ∧
   TrackedOrderDetails.close_type <$> tracked_orders cancelled = [Some EXPIRED]).
Proof. vm_compute. repeat split. Qed.

(** C2, as stated, fails: a termination time that is set is assigned again by
    a later operation that matches the order. *)
Lemma terminated_at_not_set_once :
  ¬ (∀ w config ops ops' j o t,
       tracked_orders (run w ops (init config)) !! j = Some o →
       TrackedOrderDetails.terminated_at o = Some t →
       ∃ o' t',
         tracked_orders (run w ops' (run w ops (init config))) !! j = Some o' ∧
         TrackedOrderDetails.terminated_at o' = Some t' ∧
         t' == t).
Proof.
  intros H.
  assert (∃ o, tracked_orders (run falling_world stop_loss_story (init default_config))
                 !! 0%nat = Some o ∧
               TrackedOrderDetails.terminated_at o = Some 1010) as (o & Hj0 & Ht0).
  { vm_compute. eexists. split; reflexivity. }
  destruct (H falling_world default_config stop_loss_story late_cancellation 0%nat
              o 1010 Hj0 Ht0) as (o' & t' & Hj & Ht & Heq).
  vm_compute in Hj. injection Hj as <-.
  vm_compute in Ht. injection Ht as <-.
  vm_compute in Heq. discriminate Heq.
Qed.

Lemma terminated_at_stays_set_witness :
  ∃ o' t',
    tracked_orders (run falling_world late_cancellation
                      (run falling_world stop_loss_story (init default_config))) !! 0%nat
      = Some o' ∧
    TrackedOrderDetails.order_id o' = "o1" ∧
    TrackedOrderDetails.terminated_at o' = Some t'.
Proof.
  assert (∃ o, tracked_orders (run falling_world stop_loss_story (init default_config))
                 !! 0%nat = Some o ∧
               TrackedOrderDetails.terminated_at o = Some 1010 ∧
               TrackedOrderDetails.order_id o = "o1") as (o & Hj0 & Ht0 & Hid0).
  { vm_compute. eexists. split_and!; reflexivity. }
  destruct (terminated_at_stays_set falling_world late_cancellation
              (run falling_world stop_loss_story (init default_config)) 0%nat o 1010
              Hj0 Ht0) as (o' & t' & Hj & Hid & Ht).
  exists o', t'. rewrite <- Hid0. split_and!; assumption.
Defined.

(** ** References to parent orders (pk_strategy.py) *)

Lemma references_valid_same self self' :
  tracked_orders self' = tracked_orders self →
  take_profit_limit_orders self' = take_profit_limit_orders self →
  references_valid self → references_valid self'.
Proof. unfold references_valid. by intros -> ->. Qed.

Lemma keeps_references_ret {A} (a : A) : keeps_references (mret a).
Proof. by intros w self. Qed.

Lemma keeps_references_raise {A} e : keeps_references (raise e : M A).
Proof. by intros w self. Qed.

Lemma keeps_references_bind {A B} (m : M A) (k : A → M B) :
  keeps_references m → (∀ a, keeps_references (k a)) → keeps_references (m ≫= k).
Proof.
  intros Hm Hk w self Hv. specialize (Hm w self Hv).
  unfold exec, mbind, M_bind in *.
  destruct (m w self) as [[a|e] self1]; simpl in *; [|done].
  by apply Hk.
Qed.

Lemma keeps_references_get_bind {B} (k : PkStrategy → M B) :
  (∀ self, keeps_references (k self)) → keeps_references (get ≫= k).
Proof. intros Hk w self. apply (Hk self w self). Qed.

Lemma keeps_references_same {A} (m : M A) :
  (∀ w self, tracked_orders (exec m w self) = tracked_orders self ∧
             take_profit_limit_orders (exec m w self) = take_profit_limit_orders self) →
  keeps_references m.
Proof. intros H w self. destruct (H w self). by apply references_valid_same. Qed.

Lemma keeps_references_for_each {A} (l : list A) (body : A → M unit) :
  (∀ x, keeps_references (body x)) → keeps_references (for_each l body).
Proof.
  intros Hbody. induction l as [|x l IH]; simpl.
  - apply keeps_references_ret.
  - apply keeps_references_bind; [apply Hbody | intros _; exact IH].
Qed.

Lemma keeps_references_update i f : keeps_references (update_tracked_order i f).
Proof.
  intros w self Hv. unfold references_valid, update_tracked_order, modify, exec in *.
  simpl. by rewrite length_alter.
Qed.

Lemma keeps_references_append o : keeps_references (append_tracked_order o).
Proof.
  intros w self Hv. unfold references_valid, append_tracked_order, modify, exec in *.
  simpl. eapply Forall_impl; [exact Hv|]. intros tp Hlt. simpl in *. rewrite length_app. simpl. lia.
Qed.

Lemma keeps_references_fill i ev :
  keeps_references (update_take_profit_limit_order i (fill_take_profit ev)).
Proof.
  intros w self Hv. unfold references_valid, update_take_profit_limit_order, modify, exec in *.
  simpl. by apply Forall_alter.
Qed.

Lemma keeps_references_delete i :
  keeps_references
    (modify (λ self, set_take_profit_limit_orders (delete i (take_profit_limit_orders self)) self)).
Proof.
  intros w self Hv. unfold references_valid, modify, exec in *. simpl.
  by apply Forall_delete.
Qed.

Lemma keeps_references_time : keeps_references get_market_data_provider_time.
Proof. by apply keeps_references_same. Qed.

Lemma keeps_references_price price_type : keeps_references (_get_best_ask_or_bid price_type).
Proof. by apply keeps_references_same. Qed.

Lemma keeps_references_place cmd : keeps_references (place cmd).
Proof.
  apply keeps_references_same. intros w self. unfold place, exec.
  by destruct (place_order w (calls self)).
Qed.

Lemma keeps_references_cancel connector_name trading_pair order_id :
  keeps_references (cancel connector_name trading_pair order_id).
Proof. by apply keeps_references_same. Qed.

Lemma keeps_references_latch f :
  (∀ self, tracked_orders (f self) = tracked_orders self ∧
           take_profit_limit_orders (f self) = take_profit_limit_orders self) →
  keeps_references (modify f).
Proof. intros Hf. apply keeps_references_same. intros w self. apply Hf. Qed.

#[local] Hint Resolve keeps_references_ret keeps_references_raise keeps_references_update
  keeps_references_append keeps_references_fill keeps_references_delete
  keeps_references_time keeps_references_price keeps_references_place
  keeps_references_cancel : keeps.

Ltac solve_references :=
  repeat first
    [ assumption
    | match goal with
      | |- keeps_references (mbind _ get) => apply keeps_references_get_bind; intros ?
      | |- keeps_references (mbind _ _) => apply keeps_references_bind; [|intros ?]
      | |- keeps_references (for_each _ _) => apply keeps_references_for_each; intros ?
      | |- keeps_references (if ?c then _ else _) => destruct c
      | |- keeps_references (match ?x with _ => _ end) => destruct x
      | |- keeps_references _ => solve [auto with keeps]
      | |- keeps_references (modify _) =>
        apply keeps_references_latch; intros ?; split; reflexivity
      | H : ∀ _, _ |- keeps_references _ => apply H
      end ].

Lemma keeps_references_get_executor_config side entry_price amount_quote :
  keeps_references (get_executor_config side entry_price amount_quote).
Proof. unfold get_executor_config. solve_references. Qed.

(** The take-profit order that [create_tp_limit_order] appends refers to the
    order that [deref] has just found. *)
Lemma keeps_references_create_tp_limit_order tracked_order amount entry_price :
  keeps_references (create_tp_limit_order tracked_order amount entry_price).
Proof.
  intros w self Hv. unfold create_tp_limit_order, exec.
  unfold mbind at 1, M_bind at 1, deref at 1.
  destruct (tracked_orders self !! tracked_order) as [parent|] eqn:Hparent; [|done].
  apply lookup_lt_Some in Hparent.
  unfold get_executor_config, buy, sell, place. unfold_M. simpl.
  destruct (Qeq_bool entry_price 0); simpl; [done|].
  destruct (decide _); simpl;
    destruct (place_order w (S (calls self))); simpl; try done;
    unfold references_valid in *; simpl;
    (apply Forall_app; split; [done|]); by apply Forall_singleton.
Qed.

Lemma keeps_references_perform op : keeps_references (perform op).
Proof.
  pose proof keeps_references_get_executor_config.
  pose proof keeps_references_create_tp_limit_order.
  destruct op; simpl;
    unfold create_order, create_individual_order, can_create_order,
      did_create_sell_order, did_create_buy_order, did_fill_order, did_cancel_order,
      check_orders, check_unfilled_orders, check_trading_orders, check_trading_order,
      close_filled_orders, close_filled_order, cancel_unfilled_order,
      cancel_take_profit_for_order, or_type_error, get_mid_price, get_best_bid,
      get_best_ask, buy, sell;
    solve_references.
Qed.

(** From its creation on, a strategy never holds a take-profit order whose
    reference denotes no tracked order. *)
Lemma references_valid_run w ops self :
  references_valid self → references_valid (run w ops self).
Proof.
  revert self. induction ops as [|op ops IH]; intros self Hv; simpl; [done|].
  apply IH. by apply keeps_references_perform.
Qed.

Lemma references_valid_init config : references_valid (init config).
Proof. apply Forall_nil_2. Qed.

(** The fill handler takes its reference at the position where it has found
    the order: it never raises a [ReferenceError]. *)
Lemma did_fill_order_references w self filled_event :
  outcome (did_fill_order filled_event) w self ≠ Raised ReferenceError.
Proof.
  unfold did_fill_order, outcome.
  destruct (is_close_position _).
  - unfold_M. simpl.
    destruct (list_find _ (take_profit_limit_orders self)) as [[i tp]|]; simpl; [|done].
    by destruct (list_find _ (tracked_orders self)) as [[j o]|].
  - unfold mbind at 1, M_bind at 1, get at 1.
    destruct (list_find _ (tracked_orders self)) as [[i o]|] eqn:Hfind; [|done].
    apply list_find_Some in Hfind as (Hi & _).
    unfold_M. simpl.
    destruct (take_profit_delta _) as [delta|]; [|done].
    destruct (_ && _); [|done].
    unfold create_tp_limit_order, deref, get_executor_config. unfold_M. simpl.
    rewrite list_lookup_alter_eq, Hi. simpl.
    destruct (Qeq_bool _ 0); simpl; [done|].
    destruct (decide _); simpl; by destruct (place_order w (S (calls self))).
Qed.

(** * Further properties *)

(** ** Barrier tests (pk_utils.py) *)

(** The two barrier tests once their delta is configured and not zero. *)
Lemma has_current_price_reached_take_profit_eq o cp d :
  take_profit_delta (TrackedOrderDetails.triple_barrier o) = Some d →
  truthy d = true →
  has_current_price_reached_take_profit o cp =
    let ref_price := py_or (TrackedOrderDetails.last_filled_price o)
                           (TrackedOrderDetails.entry_price o) in
    match TrackedOrderDetails.side o with
    | SELL => Qltb cp (ref_price * (1 - d))
    | BUY => Qltb (ref_price * (1 + d)) cp
    end.
Proof.
  intros Hd Ht. unfold has_current_price_reached_take_profit, compute_take_profit_price.
  rewrite Hd, Ht. simpl. destruct (TrackedOrderDetails.side o); reflexivity.
Qed.

Lemma has_current_price_reached_stop_loss_delta o cp :
  has_current_price_reached_stop_loss o cp = true →
  ∃ d, stop_loss_delta (TrackedOrderDetails.triple_barrier o) = Some d ∧ truthy d = true.
Proof.
  unfold has_current_price_reached_stop_loss.
  destruct (stop_loss_delta _) as [d|]; [|done].
  destruct (truthy d) eqn:Ht; [|done]. intros _. by exists d.
Qed.

Lemma has_current_price_reached_take_profit_delta o cp :
  has_current_price_reached_take_profit o cp = true →
  ∃ d, take_profit_delta (TrackedOrderDetails.triple_barrier o) = Some d ∧ truthy d = true.
Proof.
  unfold has_current_price_reached_take_profit.
  destruct (take_profit_delta _) as [d|]; [|done].
  destruct (truthy d) eqn:Ht; [|done]. intros _. by exists d.
Qed.

(** X1: with a reference price and deltas that are not negative, no price
    reaches the stop loss and the take profit of an order at once. *)
Theorem barriers_exclusive o cp dsl dtp :
  stop_loss_delta (TrackedOrderDetails.triple_barrier o) = Some dsl →
  take_profit_delta (TrackedOrderDetails.triple_barrier o) = Some dtp →
  0 <= dsl → 0 <= dtp →
  0 <= py_or (TrackedOrderDetails.last_filled_price o) (TrackedOrderDetails.entry_price o) →
  has_current_price_reached_stop_loss o cp && has_current_price_reached_take_profit o cp
  = false.
Proof.
  intros Hsl Htp Hdsl Hdtp Href.
  destruct (has_current_price_reached_stop_loss o cp) eqn:Hs; [|done].
  destruct (has_current_price_reached_take_profit o cp) eqn:Ht; [|done].
  exfalso.
  destruct (has_current_price_reached_stop_loss_delta o cp Hs) as (d1 & Hd1 & Ht1).
  destruct (has_current_price_reached_take_profit_delta o cp Ht) as (d2 & Hd2 & Ht2).
  rewrite Hsl in Hd1. rewrite Htp in Hd2. injection Hd1 as <-. injection Hd2 as <-.
  rewrite (has_current_price_reached_stop_loss_eq o cp dsl Hsl Ht1) in Hs.
  rewrite (has_current_price_reached_take_profit_eq o cp dtp Htp Ht2) in Ht.
  cbv zeta in Hs, Ht.
  set (ref_price := py_or _ _) in *.
  destruct (TrackedOrderDetails.side o); apply Qltb_lt in Hs, Ht; nra.
Qed.

Lemma barriers_exclusive_witness :
  has_current_price_reached_stop_loss filled_buy_order 98
  && has_current_price_reached_take_profit filled_buy_order 98 = false ∧
  has_current_price_reached_stop_loss filled_buy_order 105
  && has_current_price_reached_take_profit filled_buy_order 105 = false.
Proof.
  split; apply (barriers_exclusive filled_buy_order _ 0.02 0.03);
    try reflexivity; discriminate.
Defined.

(** X2: crossing is monotone in the price.  A sell order that has reached its
    stop loss at a price has reached it at every higher price, and its take
    profit at every lower price than one where it is reached; a buy order the
    other way round. *)
Theorem barrier_crossing_monotone o cp cp' :
  cp <= cp' →
  match TrackedOrderDetails.side o with
  | SELL =>
    (has_current_price_reached_stop_loss o cp = true →
     has_current_price_reached_stop_loss o cp' = true) ∧
    (has_current_price_reached_take_profit o cp' = true →
     has_current_price_reached_take_profit o cp = true)
  | BUY =>
    (has_current_price_reached_stop_loss o cp' = true →
     has_current_price_reached_stop_loss o cp = true) ∧
    (has_current_price_reached_take_profit o cp = true →
     has_current_price_reached_take_profit o cp' = true)
  end.
Proof.
  intros Hle.
  assert (Hsl : ∀ a b, has_current_price_reached_stop_loss o a = true →
            match TrackedOrderDetails.side o with SELL => a <= b | BUY => b <= a end →
            has_current_price_reached_stop_loss o b = true).
  { intros a b Ha Hab.
    destruct (has_current_price_reached_stop_loss_delta o a Ha) as (d & Hd & Ht).
    rewrite (has_current_price_reached_stop_loss_eq o a d Hd Ht) in Ha.
    rewrite (has_current_price_reached_stop_loss_eq o b d Hd Ht). cbv zeta in *.
    destruct (TrackedOrderDetails.side o); apply Qltb_lt; apply Qltb_lt in Ha; lra. }
  assert (Htp : ∀ a b, has_current_price_reached_take_profit o a = true →
            match TrackedOrderDetails.side o with SELL => b <= a | BUY => a <= b end →
            has_current_price_reached_take_profit o b = true).
  { intros a b Ha Hab.
    destruct (has_current_price_reached_take_profit_delta o a Ha) as (d & Hd & Ht).
    rewrite (has_current_price_reached_take_profit_eq o a d Hd Ht) in Ha.
    rewrite (has_current_price_reached_take_profit_eq o b d Hd Ht). cbv zeta in *.
    destruct (TrackedOrderDetails.side o); apply Qltb_lt; apply Qltb_lt in Ha; lra. }
  destruct (TrackedOrderDetails.side o) eqn:Hside; split; intros H.
  - apply (Hsl cp' cp H). by rewrite ?Hside.
  - apply (Htp cp cp' H). by rewrite ?Hside.
  - apply (Hsl cp cp' H). by rewrite ?Hside.
  - apply (Htp cp' cp H). by rewrite ?Hside.
Qed.

Lemma barrier_crossing_monotone_witness :
  (has_current_price_reached_stop_loss filled_buy_order 98 = true →
   has_current_price_reached_stop_loss filled_buy_order 97 = true) ∧
  (has_current_price_reached_take_profit filled_buy_order 105 = true →
   has_current_price_reached_take_profit filled_buy_order 106 = true).
Proof.
  split.
  - apply (barrier_crossing_monotone filled_buy_order 97 98). discriminate.
  - apply (barrier_crossing_monotone filled_buy_order 105 106). discriminate.
Defined.

(** X3: a fill price equal to zero counts as no fill price: both barrier tests
    then take the entry price as their reference, and answer as they do for
    the order without fill price. *)
Theorem zero_fill_price_falls_back_to_entry_price o p cp :
  TrackedOrderDetails.last_filled_price o = Some p →
  p == 0 →
  has_current_price_reached_stop_loss o cp
  = has_current_price_reached_stop_loss (TrackedOrderDetails.set_last_filled_price None o) cp ∧
  has_current_price_reached_take_profit o cp
  = has_current_price_reached_take_profit (TrackedOrderDetails.set_last_filled_price None o) cp.
Proof.
  intros Hp Hz. apply truthy_false in Hz.
  unfold has_current_price_reached_stop_loss, has_current_price_reached_take_profit.
  simpl. rewrite Hp. simpl. by rewrite Hz.
Qed.

Lemma zero_fill_price_falls_back_to_entry_price_witness :
  has_current_price_reached_stop_loss filled_buy_order_at_zero 97 = true ∧
  has_current_price_reached_take_profit filled_buy_order_at_zero 104 = true.
Proof.
  destruct (zero_fill_price_falls_back_to_entry_price filled_buy_order_at_zero 0.00 97)
    as [-> _]; [reflexivity..|].
  destruct (zero_fill_price_falls_back_to_entry_price filled_buy_order_at_zero 0.00 104)
    as [_ ->]; [reflexivity..|].
  split; reflexivity.
Defined.

(** ** Recently opened orders (pk_utils.py) *)

(** X4: [was_an_order_recently_opened] answers whether some order of the list
    was created less than [seconds] ago; it is false of the empty list. *)
Theorem was_an_order_recently_opened_spec tracked seconds current_timestamp :
  was_an_order_recently_opened tracked seconds current_timestamp = true ↔
  ∃ order, order ∈ tracked ∧
           current_timestamp < TrackedOrderDetails.created_at order + inject_Z seconds.
Proof.
  unfold was_an_order_recently_opened. destruct tracked as [|order orders].
  - split; [done|]. intros (o & []%elem_of_nil & _).
  - rewrite Qltb_lt. split.
    + intros Hlt. eexists. split; [apply py_max_elem_of | exact Hlt].
    + intros (o & Hin & Hlt).
      pose proof (py_max_ge TrackedOrderDetails.created_at order orders o Hin). lra.
Qed.

(** ** Softened leverage and RSI pullback (pk_utils.py) *)

(** X5: the softened leverage follows its docstring: an odd leverage [3 + 2i]
    is softened to [3 + i]; from 3 on the result stays between 3 and the
    leverage, and it never decreases when the leverage grows. *)
Theorem compute_softened_leverage_spec :
  (∀ i, compute_softened_leverage (3 + 2 * i) = 3 + i)%Z ∧
  (∀ leverage, 3 ≤ leverage →
     3 ≤ compute_softened_leverage leverage ≤ leverage)%Z ∧
  (∀ leverage leverage', leverage ≤ leverage' →
     compute_softened_leverage leverage ≤ compute_softened_leverage leverage')%Z ∧
  Forall (λ row, compute_softened_leverage row.1 = row.2) softened_leverage_rows.
Proof.
  unfold compute_softened_leverage. split_and!.
  - intros i. replace (3 + 2 * i - 3)%Z with (i * 2)%Z by lia.
    rewrite Z.div_mul by done. lia.
  - intros leverage Hle.
    pose proof (Z.div_mod (leverage - 3) 2). pose proof (Z.mod_pos_bound (leverage - 3) 2).
    lia.
  - intros leverage leverage' Hle.
    pose proof (Z.div_mod (leverage - 3) 2). pose proof (Z.mod_pos_bound (leverage - 3) 2).
    pose proof (Z.div_mod (leverage' - 3) 2). pose proof (Z.mod_pos_bound (leverage' - 3) 2).
    lia.
  - repeat constructor.
Qed.

Lemma compute_softened_leverage_spec_witness :
  (3 ≤ compute_softened_leverage 20 ≤ 20)%Z ∧
  (compute_softened_leverage 10 ≤ compute_softened_leverage 20)%Z.
Proof.
  destruct compute_softened_leverage_spec as (_ & Hbounds & Hmono & _).
  split; [apply Hbounds | apply Hmono]; lia.
Defined.

Lemma was_an_order_recently_opened_spec_witness :
  was_an_order_recently_opened three_creations 60 1080 = true.
Proof.
  apply was_an_order_recently_opened_spec. exists (order_created_at 1030).
  split; [|reflexivity]. apply list_elem_of_further, list_elem_of_here.
Defined.

#[global] Instance Qtruncate_comp : Proper (Qeq ==> eq) Qtruncate.
Proof.
  intros q q' Hq. unfold Qtruncate.
  assert (Qle_bool 0 q = Qle_bool 0 q') as -> by (by rewrite Hq).
  assert (Qfloor q = Qfloor q') as -> by (by rewrite Hq).
  assert (Qfloor (- q) = Qfloor (- q')) as -> by (by rewrite Hq).
  done.
Qed.

#[global] Instance decimal_floordiv_comp : Proper (Qeq ==> Qeq ==> eq) decimal_floordiv.
Proof.
  intros x x' Hx y y' Hy. unfold decimal_floordiv.
  assert (x / y == x' / y') as Hq by (by rewrite Hx, Hy). by rewrite Hq.
Qed.

Lemma Qtruncate_nonneg q : 0 <= q → (0 ≤ Qtruncate q)%Z.
Proof.
  intros Hq. unfold Qtruncate. apply Qle_bool_iff in Hq as Hb. rewrite Hb.
  change 0%Z with (Qfloor 0). by apply Qfloor_resp_le.
Qed.

(** The quotient by 3 of a multiple of 3. *)
Lemma decimal_floordiv_multiple k : (0 ≤ k)%Z → decimal_floordiv (inject_Z (3 * k)) 3 = inject_Z k.
Proof.
  intros Hk. unfold decimal_floordiv. f_equal.
  assert (Hq : inject_Z (3 * k) / 3 == inject_Z k).
  { rewrite inject_Z_mult. field. }
  rewrite Hq. unfold Qtruncate.
  assert (Hb : Qle_bool 0 (inject_Z k) = true).
  { apply Qle_bool_iff. change 0 with (inject_Z 0). rewrite <- Zle_Qle. exact Hk. }
  rewrite Hb. apply Qfloor_Z.
Qed.

(** X6: the RSI pullback difference is symmetric around 50, is a whole number
    and is at least 2; its values follow the docstring: [3 + k] at the RSI
    [75 + 3k], and the listed rows. *)
Theorem compute_rsi_pullback_difference_spec :
  (∀ rsi, compute_rsi_pullback_difference (100 - rsi)
          = compute_rsi_pullback_difference rsi) ∧
  (∀ rsi, ∃ n, (2 ≤ n)%Z ∧ compute_rsi_pullback_difference rsi = inject_Z n) ∧
  (∀ k, (0 ≤ k)%Z →
        compute_rsi_pullback_difference (75 + inject_Z (3 * k)) == 3 + inject_Z k) ∧
  Forall (λ row, compute_rsi_pullback_difference row.1 == row.2) rsi_pullback_rows.
Proof.
  split_and!.
  - intros rsi. unfold compute_rsi_pullback_difference.
    destruct (Qltb 50 rsi) eqn:H50; [apply Qltb_lt in H50 | apply Qltb_ge in H50].
    + assert (Qltb 50 (100 - rsi) = false) as -> by (apply Qltb_ge; lra).
      destruct (Qltb rsi 75) eqn:H75; [apply Qltb_lt in H75 | apply Qltb_ge in H75].
      * by assert (Qltb 25 (100 - rsi) = true) as -> by (apply Qltb_lt; lra).
      * assert (Qltb 25 (100 - rsi) = false) as -> by (apply Qltb_ge; lra).
        assert (25 - (100 - rsi) == rsi - 75) as -> by ring. done.
    + destruct (Qltb 25 rsi) eqn:H25; [apply Qltb_lt in H25 | apply Qltb_ge in H25].
      * destruct (Qltb 50 (100 - rsi)) eqn:H50'; [|by
          assert (Qltb 25 (100 - rsi) = true) as -> by (apply Qltb_lt; lra)].
        by assert (Qltb (100 - rsi) 75 = true) as -> by (apply Qltb_lt; lra).
      * assert (Qltb 50 (100 - rsi) = true) as -> by (apply Qltb_lt; lra).
        assert (Qltb (100 - rsi) 75 = false) as -> by (apply Qltb_ge; lra).
        assert (100 - rsi - 75 == 25 - rsi) as -> by ring. done.
  - intros rsi. unfold compute_rsi_pullback_difference.
    assert (Hdiv : ∀ x, 0 <= x →
              ∃ n, (2 ≤ n)%Z ∧ decimal_floordiv x 3 + 3 = inject_Z n).
    { intros x Hx. exists (Qtruncate (x / 3) + 3)%Z. split.
      - assert (0 <= x / 3) as Hq by (apply Qle_shift_div_l; lra).
        pose proof (Qtruncate_nonneg _ Hq). lia.
      - unfold decimal_floordiv, inject_Z, Qplus. simpl. f_equal. lia. }
    destruct (Qltb 50 rsi) eqn:H50.
    + destruct (Qltb rsi 75) eqn:H75; [by exists 2%Z|].
      apply Qltb_ge in H75. apply Hdiv. lra.
    + destruct (Qltb 25 rsi) eqn:H25; [by exists 2%Z|].
      apply Qltb_ge in H25. apply Hdiv. lra.
  - intros k Hk. unfold compute_rsi_pullback_difference.
    assert (H0 : 0 <= inject_Z (3 * k)).
    { change 0 with (inject_Z 0). rewrite <- Zle_Qle. lia. }
    assert (Qltb 50 (75 + inject_Z (3 * k)) = true) as -> by (apply Qltb_lt; lra).
    assert (Qltb (75 + inject_Z (3 * k)) 75 = false) as -> by (apply Qltb_ge; lra).
    assert (75 + inject_Z (3 * k) - 75 == inject_Z (3 * k)) as -> by ring.
    rewrite decimal_floordiv_multiple by done. ring.
  - repeat constructor.
Qed.

Lemma compute_rsi_pullback_difference_spec_witness :
  compute_rsi_pullback_difference (75 + inject_Z (3 * 2)) == 3 + inject_Z 2.
Proof.
  destruct compute_rsi_pullback_difference_spec as (_ & _ & Hrow & _).
  apply Hrow. lia.
Defined.

(** ** Averages and profit of a set of orders (pk_utils.py) *)




(** [min] and [max] with a key raise as soon as a key is [None]. *)
Lemma py_min_by_None {A} (key : A → option Q) x l :
  key x = None ∨ (∃ y, y ∈ l ∧ key y = None) →
  match py_min_by key x l with
  | Some m => key m = None
  | None => True
  end.
Proof.
  revert x. induction l as [|y l IH]; intros x Hnone; simpl.
  - destruct Hnone as [Hx|(y & []%elem_of_nil & _)]. exact Hx.
  - destruct (key y) as [ky|] eqn:Hy; [|done].
    destruct (key x) as [kx|] eqn:Hx; [|done].
    apply IH. right. destruct Hnone as [?|(z & Hz & Hkz)]; [done|].
    apply elem_of_cons in Hz as [->|Hz]; [congruence|]. by exists z.
Qed.

Lemma py_max_by_None {A} (key : A → option Q) x l :
  key x = None ∨ (∃ y, y ∈ l ∧ key y = None) →
  match py_max_by key x l with
  | Some m => key m = None
  | None => True
  end.
Proof.
  revert x. induction l as [|y l IH]; intros x Hnone; simpl.
  - destruct Hnone as [Hx|(y & []%elem_of_nil & _)]. exact Hx.
  - destruct (key y) as [ky|] eqn:Hy; [|done].
    destruct (key x) as [kx|] eqn:Hx; [|done].
    apply IH. right. destruct Hnone as [?|(z & Hz & Hkz)]; [done|].
    apply elem_of_cons in Hz as [->|Hz]; [congruence|]. by exists z.
Qed.



(** X8: the profit helpers raise on the inputs they cannot handle: a
    [ValueError] on an empty list, a [TypeError] when an order of the list has
    no fill price. *)
Theorem compute_orders_pnl_pct_errors current_price :
  compute_sell_orders_pnl_pct [] current_price = inl Raises.ValueError ∧
  compute_buy_orders_pnl_pct [] current_price = inl Raises.ValueError ∧
  ∀ orders order,
    order ∈ orders →
    TrackedOrderDetails.last_filled_price order = None →
    compute_sell_orders_pnl_pct orders current_price = inl Raises.TypeError ∧
    compute_buy_orders_pnl_pct orders current_price = inl Raises.TypeError.
Proof.
  split_and!; [done..|]. intros orders order Hin Hnone.
  destruct orders as [|x l]; [by apply elem_of_nil in Hin|].
  assert (Hcase : TrackedOrderDetails.last_filled_price x = None ∨
                  ∃ y, y ∈ l ∧ TrackedOrderDetails.last_filled_price y = None).
  { apply elem_of_cons in Hin as [<-|Hin]; [by left | right; by exists order]. }
  unfold compute_sell_orders_pnl_pct, compute_buy_orders_pnl_pct.
  pose proof (py_min_by_None TrackedOrderDetails.last_filled_price x l Hcase) as Hmin.
  pose proof (py_max_by_None TrackedOrderDetails.last_filled_price x l Hcase) as Hmax.
  destruct (py_min_by _ x l) as [m|]; [rewrite Hmin|];
    (destruct (py_max_by _ x l) as [m'|]; [rewrite Hmax|]); done.
Qed.

Lemma compute_orders_pnl_pct_errors_witness :
  compute_sell_orders_pnl_pct sells_with_unfilled 95 = inl Raises.TypeError ∧
  compute_buy_orders_pnl_pct sells_with_unfilled 95 = inl Raises.TypeError.
Proof.
  destruct (compute_orders_pnl_pct_errors 95) as (_ & _ & H).
  apply (H sells_with_unfilled (sell_filled_at None)); [|reflexivity].
  apply list_elem_of_further, list_elem_of_here.
Defined.





(** ** The creation guard (pk_strategy.py) *)

(** X10: the guard refuses a zero amount, and refuses a side whose creation is
    in flight, in every state and without reading the clock; whatever it
    answers, it returns, and it changes neither the registries, nor the
    latches, nor the log of exchange calls. *)
Theorem can_create_order_refusals w self side amount_quote ref cooldown_time_min :
  let run := can_create_order side amount_quote ref cooldown_time_min in
  (amount_quote == 0 → run w self = (Returned false, self)) ∧
  (latch side self = true → run w self = (Returned false, self)) ∧
  (∃ answer, outcome run w self = Returned answer) ∧
  same_but_calls self (exec run w self).
Proof.
  cbv zeta. unfold can_create_order, outcome, exec. unfold_M. split_and!.
  - intros Hz. apply Qeq_bool_iff in Hz. by rewrite Hz.
  - intros Hlatch. unfold latch in Hlatch.
    destruct (Qeq_bool amount_quote 0); [done|].
    destruct side; simpl in *; rewrite Hlatch; simpl; by rewrite ?andb_false_l.
  - destruct (Qeq_bool amount_quote 0); [by eexists|].
    destruct (_ && _); [by eexists|]. destruct (_ && _); [by eexists|].
    destruct (find_last_terminated_filled_order self side ref); simpl; [|by eexists].
    destruct (Qltb _ _); by eexists.
  - destruct (Qeq_bool amount_quote 0); [done|].
    destruct (_ && _); [done|]. destruct (_ && _); [done|].
    destruct (find_last_terminated_filled_order self side ref); simpl; [|done].
    destruct (Qltb _ _); unfold same_but_calls; simpl; by rewrite app_nil_r.
Qed.

Lemma can_create_order_refusals_witness :
  can_create_order BUY 0.00 "R" 5 accepting_world tracking_filled_sell
    = (Returned false, tracking_filled_sell) ∧
  can_create_order SELL 15 "R" 5 accepting_world creating_a_sell
    = (Returned false, creating_a_sell).
Proof.
  split.
  - destruct (can_create_order_refusals accepting_world tracking_filled_sell BUY 0.00 "R" 5)
      as (H & _). apply H. reflexivity.
  - destruct (can_create_order_refusals accepting_world creating_a_sell SELL 15 "R" 5)
      as (_ & H & _). apply H. reflexivity.
Defined.

(** ** Creating an order (pk_strategy.py) *)

(** The three ways [create_order] ends. *)
Lemma create_order_run w self side entry_price triple_barrier amount_quote ref :
  create_order side entry_price triple_barrier amount_quote ref w self =
    if Qeq_bool entry_price 0 then (Raised ArithmeticError, self)
    else
      let cmd := open_command self side entry_price triple_barrier amount_quote in
      match place_order w (S (calls self)) with
      | Some order_id =>
        (Returned tt,
         (if decide (side = SELL) then set_is_a_sell_order_being_created false
          else set_is_a_buy_order_being_created false)
           (set_tracked_orders
              (tracked_orders self
               ++ [opened_order self side entry_price triple_barrier amount_quote ref
                     order_id (now w (S (S (calls self))))])
              (called [] (called [cmd]
                 ((if decide (side = SELL) then set_is_a_sell_order_being_created true
                   else set_is_a_buy_order_being_created true) (called [] self))))))
      | None =>
        (Raised GatewayError,
         called [cmd]
           ((if decide (side = SELL) then set_is_a_sell_order_being_created true
             else set_is_a_buy_order_being_created true) (called [] self)))
      end.
Proof.
  unfold create_order, get_executor_config, create_individual_order, open_command,
    opened_order. unfold_M. simpl.
  destruct (Qeq_bool entry_price 0); [done|]. simpl.
  destruct side; simpl; by destruct (place_order w (S (calls self))).
Qed.






(** ** The views of the registry (pk_strategy.py) *)

Lemma filter_sides (l : list TrackedOrderDetails.t) :
  filter (λ order, TrackedOrderDetails.side order = SELL) l
  ++ filter (λ order, TrackedOrderDetails.side order = BUY) l ≡ₚ l.
Proof.
  rewrite (list_filter_iff (λ order, TrackedOrderDetails.side order = BUY)
             (λ order, ¬ TrackedOrderDetails.side order = SELL)).
  - apply filter_app_complement.
  - intros o. destruct (TrackedOrderDetails.side o); split; intros H; congruence.
Qed.

(** X13: the four views by side and fill partition the active orders: each
    active order of a ref is in exactly one of the unfilled sells, the filled
    sells, the unfilled buys and the filled buys, and these hold nothing
    else. *)
Theorem active_views_partition self ref :
  let unfilled := get_unfilled_tracked_orders_by_side self ref in
  let filled := get_filled_tracked_orders_by_side self ref in
  (filled.1 ++ unfilled.1) ++ (filled.2 ++ unfilled.2) ≡ₚ get_active_tracked_orders self ref.
Proof.
  cbv zeta. unfold get_unfilled_tracked_orders_by_side, get_filled_tracked_orders_by_side,
    get_active_tracked_orders_by_side. simpl.
  rewrite !filter_app_complement. apply filter_sides.
Qed.

Lemma filter_insert_delete {A} (P : A → Prop) `{!∀ x, Decision (P x)} (l : list A) j x :
  (j < length l)%nat → ¬ P x → filter P (<[j := x]> l) = filter P (delete j l).
Proof.
  revert j. induction l as [|y l IH]; intros j Hj Hx; simpl in *; [lia|].
  destruct j as [|j]; simpl.
  - by rewrite filter_cons_False.
  - rewrite !filter_cons, IH by (done || lia). done.
Qed.

(** X14: once [close_filled_order] has closed an order, at a time that is not
    0, the order is out of the active views: the active orders are those of
    before without the closed one. *)
Theorem closed_order_leaves_active_views w self o order_type close_type j id ref :
  tracked_orders self !! j = Some o →
  (∀ i o', (i < j)%nat → tracked_orders self !! i = Some o' →
           TrackedOrderDetails.order_id o' ≠ TrackedOrderDetails.order_id o) →
  place_order w (S (S (calls self))) = Some id →
  ¬ now w (S (S (S (calls self)))) == 0 →
  get_active_tracked_orders (exec (close_filled_order o order_type close_type) w self) ref
  = get_active_tracked_orders (set_tracked_orders (delete j (tracked_orders self)) self) ref.
Proof.
  intros Hj Hfirst Hplace Hnow.
  destruct (close_filled_order_returns w self o order_type close_type j id Hj Hfirst Hplace)
    as (cmd & _ & Hrun).
  unfold exec. rewrite Hrun. unfold get_active_tracked_orders. simpl.
  rewrite filter_insert_delete; [done | by eapply lookup_lt_Some |].
  unfold is_active, terminate. simpl. apply truthy_true in Hnow. rewrite Hnow.
  intros [_ H]. by apply H.
Qed.

Lemma closed_order_leaves_active_views_witness :
  get_active_tracked_orders
    (exec (close_filled_order filled_sell_order MARKET EARLY_STOP) accepting_world
       mixed_registry) None
  = [order_created_at 1000; filled_buy_order].
Proof.
  rewrite (closed_order_leaves_active_views accepting_world mixed_registry filled_sell_order
             MARKET EARLY_STOP 1 "o2" None).
  - reflexivity.
  - reflexivity.
  - intros [|i] o' Hi Ho'; [injection Ho' as <-; discriminate | lia].
  - reflexivity.
  - discriminate.
Defined.

(** ** Creation confirmations (pk_strategy.py) *)

(** X15: a creation event whose position action is close, or absent, changes
    nothing, even when its id is that of a tracked order; any other creation
    event sets the exchange order id of the first tracked order with its id
    and changes nothing else.  The sell and the buy handler do the same. *)
Theorem did_create_order_spec w self created_event :
  did_create_buy_order created_event w self = did_create_sell_order created_event w self ∧
  (is_close_position (OrderCreatedEvent.position created_event) = true →
   did_create_sell_order created_event w self = (Returned tt, self)) ∧
  (∀ j order,
     is_close_position (OrderCreatedEvent.position created_event) = false →
     tracked_orders self !! j = Some order →
     TrackedOrderDetails.order_id order = OrderCreatedEvent.order_id created_event →
     (∀ i o, (i < j)%nat → tracked_orders self !! i = Some o →
             TrackedOrderDetails.order_id o ≠ OrderCreatedEvent.order_id created_event) →
     did_create_sell_order created_event w self =
       (Returned tt,
        set_tracked_orders
          (<[j := TrackedOrderDetails.set_exchange_order_id
                    (OrderCreatedEvent.exchange_order_id created_event) order]>
             (tracked_orders self)) self)).
Proof.
  split_and!.
  - reflexivity.
  - intros Hclose. unfold did_create_sell_order. by rewrite Hclose.
  - intros j order Hopen Hj Hid Hfirst. unfold did_create_sell_order. rewrite Hopen.
    unfold_M. simpl.
    assert (Hfind : list_find (λ o, TrackedOrderDetails.order_id o
                                    = OrderCreatedEvent.order_id created_event)
                      (tracked_orders self) = Some (j, order)).
    { apply list_find_Some. split_and!; [done..|]. intros i o Hi Hlt. by apply (Hfirst i). }
    rewrite Hfind. simpl. by rewrite (alter_lookup_insert _ _ _ _ Hj).
Qed.

Lemma did_create_order_spec_witness :
  did_create_sell_order (confirmation_of_s1 (Some "CLOSE")) accepting_world
    tracking_filled_sell = (Returned tt, tracking_filled_sell) ∧
  did_create_sell_order (confirmation_of_s1 None) accepting_world
    tracking_filled_sell = (Returned tt, tracking_filled_sell) ∧
  TrackedOrderDetails.exchange_order_id
    <$> tracked_orders (exec (did_create_sell_order (confirmation_of_s1 (Some "OPEN")))
                          accepting_world tracking_filled_sell) = [Some "x5"].
Proof.
  split_and!.
  - apply did_create_order_spec. reflexivity.
  - apply did_create_order_spec. reflexivity.
  - destruct (did_create_order_spec accepting_world tracking_filled_sell
                (confirmation_of_s1 (Some "OPEN"))) as (_ & _ & H).
    unfold exec. rewrite (H 0%nat filled_sell_order); [reflexivity..|]. intros i o Hi. lia.
Defined.

(** ** Entry fills (pk_strategy.py) *)

(** X16: an entry fill adds its amount to the filled amount of the first
    tracked order with its id and records its time and price.  When the
    barrier of the order has a take-profit delta that is not zero and the limit
    take-profit type, the handler also places one limit order on the opposite
    side, for the amount of the fill, at the take-profit price computed from
    the price of the fill, with position action close, and appends one
    take-profit order that refers to the filled order.  Otherwise it places
    nothing and appends nothing. *)
Theorem entry_fill_spec w self filled_event j order :
  is_close_position (OrderFilledEvent.position filled_event) = false →
  tracked_orders self !! j = Some order →
  TrackedOrderDetails.order_id order = OrderFilledEvent.order_id filled_event →
  (∀ i o, (i < j)%nat → tracked_orders self !! i = Some o →
          TrackedOrderDetails.order_id o ≠ OrderFilledEvent.order_id filled_event) →
  let run := did_fill_order filled_event in
  let amount := OrderFilledEvent.amount filled_event in
  let filled :=
    TrackedOrderDetails.set_last_filled_price (Some (OrderFilledEvent.price filled_event))
      (TrackedOrderDetails.set_last_filled_at (Some (OrderFilledEvent.timestamp filled_event))
         (TrackedOrderDetails.set_filled_amount
            (TrackedOrderDetails.filled_amount order + amount) order)) in
  tracked_orders (exec run w self) = <[j := filled]> (tracked_orders self) ∧
  (wants_take_profit_limit_order (TrackedOrderDetails.triple_barrier order) = false →
   outcome run w self = Returned tt ∧
   take_profit_limit_orders (exec run w self) = take_profit_limit_orders self ∧
   commands (exec run w self) = commands self) ∧
  (∀ delta order_id,
     wants_take_profit_limit_order (TrackedOrderDetails.triple_barrier order) = true →
     take_profit_delta (TrackedOrderDetails.triple_barrier order) = Some delta →
     let price := compute_take_profit_price (TrackedOrderDetails.side order)
                    (OrderFilledEvent.price filled_event) delta in
     ¬ price == 0 →
     place_order w (S (calls self)) = Some order_id →
     outcome run w self = Returned tt ∧
     take_profit_limit_orders (exec run w self)
       = take_profit_limit_orders self
         ++ [TakeProfitLimitOrder.new order_id j amount price (now w (S (S (calls self))))] ∧
     commands (exec run w self)
       = commands self ++ [take_profit_command self order amount price]).
Proof.
  intros Hopen Hj Hid Hfirst. cbv zeta.
  assert (Hfind : list_find (λ o, TrackedOrderDetails.order_id o
                                  = OrderFilledEvent.order_id filled_event)
                    (tracked_orders self) = Some (j, order)).
  { apply list_find_Some. split_and!; [done..|]. intros i o Hi Hlt. by apply (Hfirst i). }
  assert (Hrun : did_fill_order filled_event w self =
            match take_profit_delta (TrackedOrderDetails.triple_barrier order) with
            | Some delta =>
              if truthy delta
                 && bool_decide (take_profit_order_type
                                   (TrackedOrderDetails.triple_barrier order) = LIMIT)
              then create_tp_limit_order j (OrderFilledEvent.amount filled_event)
                     (compute_take_profit_price (TrackedOrderDetails.side order)
                        (OrderFilledEvent.price filled_event) delta)
              else mret tt
            | None => mret tt
            end w (set_tracked_orders
                     (<[j := fill_tracked_order filled_event order]> (tracked_orders self))
                     self)).
  { unfold did_fill_order. rewrite Hopen.
    unfold mbind at 1, M_bind at 1, get at 1. rewrite Hfind.
    unfold mbind at 1, M_bind at 1, update_tracked_order, modify.
    by rewrite (alter_lookup_insert _ _ _ _ Hj). }
  unfold wants_take_profit_limit_order, outcome, exec. rewrite Hrun. clear Hrun.
  assert (Hjth : <[j := fill_tracked_order filled_event order]> (tracked_orders self) !! j
                 = Some (fill_tracked_order filled_event order)).
  { apply list_lookup_insert_eq. by eapply lookup_lt_Some. }
  split_and!.
  - destruct (take_profit_delta _) as [delta|]; [|done].
    destruct (_ && _); [|done].
    unfold create_tp_limit_order, deref, get_executor_config. unfold_M. simpl.
    rewrite Hjth. simpl.
    destruct (Qeq_bool _ 0); simpl; [done|].
    destruct (decide _); simpl; by destruct (place_order w (S (calls self))).
  - intros Hwants. destruct (take_profit_delta _) as [delta|] eqn:Hd; simpl in Hwants;
      [rewrite Hwants|]; by unfold_M.
  - intros delta order_id Hwants Hdelta Hprice Hplace.
    rewrite Hdelta in *. simpl in Hwants. rewrite Hwants.
    unfold create_tp_limit_order, deref, get_executor_config, take_profit_command.
    unfold_M. simpl. rewrite Hjth. simpl.
    rewrite (Qeq_bool_false _ Hprice). simpl.
    destruct (TrackedOrderDetails.side order); simpl; rewrite Hplace; simpl;
      by rewrite !app_nil_r.
Qed.

Lemma entry_fill_spec_witness :
  let with_limit := exec (did_fill_order (fill_of_u1 1)) accepting_world
                      (tracking_unfilled limit_barrier) in
  let with_market := exec (did_fill_order (fill_of_u1 1)) accepting_world
                       (tracking_unfilled market_barrier) in
  (TrackedOrderDetails.filled_amount <$> tracked_orders with_limit = [0 + 1] ∧
   commands with_limit = [Buy "hyperliquid_perpetual" "BTC-USD" 1 LIMIT
                              (100 * (1 - 0.03)) CLOSE] ∧
   length (take_profit_limit_orders with_limit) = 1%nat) ∧
  (commands with_market = [] ∧ take_profit_limit_orders with_market = []).
Proof.
  split.
  - destruct (entry_fill_spec accepting_world (tracking_unfilled limit_barrier)
                (fill_of_u1 1) 0 (unfilled_sell limit_barrier))
      as (Ht & _ & H); [reflexivity..| intros i o Hi; lia |].
    destruct (H 0.03 "o1") as (_ & Htp & Hc); [reflexivity | reflexivity | discriminate
                                               | reflexivity |].
    rewrite Ht, Htp, Hc. split_and!; reflexivity.
  - destruct (entry_fill_spec accepting_world (tracking_unfilled market_barrier)
                (fill_of_u1 1) 0 (unfilled_sell market_barrier))
      as (_ & H & _); [reflexivity..| intros i o Hi; lia |].
    destruct H as (_ & Htp & Hc); [reflexivity|]. by rewrite Htp, Hc.
Defined.

(** ** Cancellations (pk_strategy.py) *)

(** X17: the cancellation of a tracked order marks the first tracked order
    with that id as expired at the current time and keeps it in the registry;
    the cancellation of a take-profit order removes the first take-profit order
    with that id, reads no clock and terminates nothing. *)
Theorem did_cancel_order_spec w self cancelled_event :
  (∀ j order,
     tracked_orders self !! j = Some order →
     TrackedOrderDetails.order_id order = OrderCancelledEvent.order_id cancelled_event →
     (∀ i o, (i < j)%nat → tracked_orders self !! i = Some o →
             TrackedOrderDetails.order_id o ≠ OrderCancelledEvent.order_id cancelled_event) →
     (∀ tp, tp ∈ take_profit_limit_orders self →
            TakeProfitLimitOrder.order_id tp ≠ OrderCancelledEvent.order_id cancelled_event) →
     did_cancel_order cancelled_event w self =
       (Returned tt,
        set_tracked_orders
          (<[j := TrackedOrderDetails.set_close_type (Some EXPIRED)
                    (TrackedOrderDetails.set_terminated_at (Some (now w (calls self))) order)]>
             (tracked_orders self))
          (called [] self))) ∧
  (∀ i tp,
     take_profit_limit_orders self !! i = Some tp →
     TakeProfitLimitOrder.order_id tp = OrderCancelledEvent.order_id cancelled_event →
     (∀ k o, (k < i)%nat → take_profit_limit_orders self !! k = Some o →
             TakeProfitLimitOrder.order_id o ≠ OrderCancelledEvent.order_id cancelled_event) →
     (∀ order, order ∈ tracked_orders self →
               TrackedOrderDetails.order_id order
               ≠ OrderCancelledEvent.order_id cancelled_event) →
     did_cancel_order cancelled_event w self =
       (Returned tt,
        set_take_profit_limit_orders (delete i (take_profit_limit_orders self)) self)).
Proof.
  split.
  - intros j order Hj Hid Hfirst Hnone.
    assert (Hfind : list_find (λ o, TrackedOrderDetails.order_id o
                                    = OrderCancelledEvent.order_id cancelled_event)
                      (tracked_orders self) = Some (j, order)).
    { apply list_find_Some. split_and!; [done..|]. intros i o Hi Hlt. by apply (Hfirst i). }
    pose proof (list_find_take_profit_None _ _ Hnone) as Hfindtp.
    unfold did_cancel_order. unfold_M. simpl. rewrite Hfind. simpl. rewrite Hfindtp.
    by rewrite (alter_lookup_insert _ _ _ _ Hj).
  - intros i tp Hi Hid Hfirst Hnone.
    pose proof (list_find_first_take_profit _ _ _ _ Hi Hid Hfirst) as Hfind.
    pose proof (list_find_tracked_None _ _ Hnone) as Hfindt.
    unfold did_cancel_order. unfold_M. simpl. rewrite Hfindt. simpl. by rewrite Hfind.
Qed.

Lemma did_cancel_order_spec_witness :
  let cancelled_tp := exec (did_cancel_order (OrderCancelledEvent.mk "t1")) accepting_world
                        tracking_with_take_profit in
  let cancelled_order := exec (did_cancel_order (OrderCancelledEvent.mk "s1")) accepting_world
                           tracking_with_take_profit in
  (take_profit_limit_orders cancelled_tp = [] ∧
   tracked_orders cancelled_tp = tracked_orders tracking_with_take_profit) ∧
  (TrackedOrderDetails.close_type <$> tracked_orders cancelled_order = [Some EXPIRED] ∧
   take_profit_limit_orders cancelled_order = [resting_take_profit]).
Proof.
  split.
  - destruct (did_cancel_order_spec accepting_world tracking_with_take_profit
                (OrderCancelledEvent.mk "t1")) as [_ H].
    unfold exec. rewrite (H 0%nat resting_take_profit); [done | done | done | |].
    + intros k o Hk. lia.
    + intros o [->|[]%elem_of_nil]%elem_of_cons. discriminate.
  - destruct (did_cancel_order_spec accepting_world tracking_with_take_profit
                (OrderCancelledEvent.mk "s1")) as [H _].
    unfold exec. rewrite (H 0%nat filled_sell_order); [done | done | done | |].
    + intros k o Hk. lia.
    + intros o [->|[]%elem_of_nil]%elem_of_cons. discriminate.
Defined.

(** ** The expiry of unfilled orders (pk_strategy.py) *)

(** One pass of the expiry loop over a list of orders, with a clock that
    reads [t]. *)
Lemma check_unfilled_loop w t expiration (l : list TrackedOrderDetails.t) self :
  (∀ n, now w n = t) →
  ∃ self',
    for_each l (λ unfilled_order,
      current_timestamp ← get_market_data_provider_time;
      if has_unfilled_order_expired unfilled_order expiration current_timestamp
      then cancel_unfilled_order unfilled_order
      else mret tt) w self = (Returned tt, self') ∧
    commands self' = commands self
      ++ (cancel_command
          <$> filter (λ order, has_unfilled_order_expired order expiration t : Prop) l) ∧
    config self' = config self ∧
    is_a_sell_order_being_created self' = is_a_sell_order_being_created self ∧
    is_a_buy_order_being_created self' = is_a_buy_order_being_created self ∧
    tracked_orders self' = tracked_orders self ∧
    take_profit_limit_orders self' = take_profit_limit_orders self.
Proof.
  intros Hclock.
  set (body := λ unfilled_order : TrackedOrderDetails.t,
         current_timestamp ← get_market_data_provider_time;
         if has_unfilled_order_expired unfilled_order expiration current_timestamp
         then cancel_unfilled_order unfilled_order
         else mret tt).
  assert (Hbody : ∀ o s,
    body o w s
    = (Returned tt,
       if has_unfilled_order_expired o expiration t
       then called [cancel_command o] (called [] s) else called [] s)).
  { intros o s. unfold body, cancel_unfilled_order. unfold_M. rewrite Hclock.
    by destruct (has_unfilled_order_expired o expiration t). }
  clearbody body. revert self. induction l as [|o l IH]; intros self.
  - exists self. simpl. unfold_M. by rewrite app_nil_r.
  - simpl for_each. unfold mbind at 1, M_bind at 1. rewrite Hbody, filter_cons.
    destruct (has_unfilled_order_expired o expiration t) eqn:Hexp; simpl.
    + destruct (IH (called [cancel_command o] (called [] self)))
        as (self' & Hrun & Hc & Hrest).
      exists self'. rewrite Hrun, Hc. simpl. split; [done|].
      split; [|done]. by rewrite app_nil_r, <- app_assoc.
    + destruct (IH (called [] self)) as (self' & Hrun & Hc & Hrest).
      exists self'. rewrite Hrun, Hc. simpl. split; [done|].
      split; [|done]. by rewrite app_nil_r.
Qed.

(** X18: without a configured expiration [check_unfilled_orders] does nothing.
    With one, and a clock that reads [t] during the call, it sends one
    cancellation for each active unfilled order created more than the
    expiration before [t], sells first; it terminates no order itself and
    leaves both registries and the latches as they are. *)
Theorem check_unfilled_orders_spec w self :
  (ExcaliburConfig.unfilled_order_expiration (config self) = 0%Z →
   check_unfilled_orders w self = (Returned tt, self)) ∧
  (∀ t, (∀ n, now w n = t) →
     ExcaliburConfig.unfilled_order_expiration (config self) ≠ 0%Z →
     outcome check_unfilled_orders w self = Returned tt ∧
     commands (exec check_unfilled_orders w self)
       = commands self ++ (cancel_command <$> expired_unfilled_orders self t) ∧
     tracked_orders (exec check_unfilled_orders w self) = tracked_orders self ∧
     take_profit_limit_orders (exec check_unfilled_orders w self)
       = take_profit_limit_orders self ∧
     is_a_sell_order_being_created (exec check_unfilled_orders w self)
       = is_a_sell_order_being_created self ∧
     is_a_buy_order_being_created (exec check_unfilled_orders w self)
       = is_a_buy_order_being_created self).
Proof.
  split.
  - intros Hz. unfold check_unfilled_orders. unfold_M. by rewrite Hz.
  - intros t Hclock Hnz.
    destruct (get_unfilled_tracked_orders_by_side self None) as [sells buys] eqn:Hside.
    destruct (check_unfilled_loop w t
                (ExcaliburConfig.unfilled_order_expiration (config self))
                (sells ++ buys) self Hclock)
      as (self' & Hrun & Hc & _ & Hs & Hb & Ht & Htp).
    assert (Heq : check_unfilled_orders w self = (Returned tt, self')).
    { unfold check_unfilled_orders. unfold mbind at 1, M_bind at 1, get at 1.
      apply Z.eqb_neq in Hnz. rewrite Hnz, Hside. exact Hrun. }
    unfold outcome, exec, expired_unfilled_orders. rewrite Heq, Hside. simpl.
    by rewrite Hc.
Qed.

Lemma check_unfilled_orders_spec_witness :
  check_unfilled_orders accepting_world mixed_registry_no_expiration
  = (Returned tt, mixed_registry_no_expiration) ∧
  commands (exec check_unfilled_orders (clock_at 1061) (tracking_unfilled limit_barrier))
  = [Cancel "hyperliquid_perpetual" "BTC-USD" "u1"] ∧
  commands (exec check_unfilled_orders (clock_at 1060) (tracking_unfilled limit_barrier)) = [].
Proof.
  split_and!.
  - by apply (proj1 (check_unfilled_orders_spec accepting_world mixed_registry_no_expiration)).
  - by rewrite (proj1 (proj2 (proj2 (check_unfilled_orders_spec (clock_at 1061)
                                        (tracking_unfilled limit_barrier))
                                     1061 (λ _, eq_refl) ltac:(done)))).
  - by rewrite (proj1 (proj2 (proj2 (check_unfilled_orders_spec (clock_at 1060)
                                        (tracking_unfilled limit_barrier))
                                     1060 (λ _, eq_refl) ltac:(done)))).
Defined.

(** ** What a tick can do (pk_strategy.py) *)

Section Respects.
  Context (R : relation PkStrategy) `{!PreOrder R}.

Lemma respects_ret {A} (a : A) : respects R (mret a).
Proof. intros w self. reflexivity. Qed.

Lemma respects_raise {A} e : respects R (raise e : M A).
Proof. intros w self. reflexivity. Qed.

Lemma respects_bind {A B} (m : M A) (k : A → M B) :
  respects R m → (∀ a, respects R (k a)) → respects R (m ≫= k).
Proof.
  intros Hm Hk w self. specialize (Hm w self).
  unfold exec, mbind, M_bind in *.
  destruct (m w self) as [[a|e] self1]; simpl in *; [|done].
  etrans; [exact Hm | apply Hk].
Qed.

Lemma respects_get_bind {B} (k : PkStrategy → M B) :
  (∀ self, respects R (k self)) → respects R (get ≫= k).
Proof. intros Hk w self. apply (Hk self w self). Qed.

Lemma respects_for_each {A} (l : list A) (body : A → M unit) :
  (∀ x, respects R (body x)) → respects R (for_each l body).
Proof.
  intros Hbody. induction l as [|x l IH]; simpl.
  - apply respects_ret.
  - apply respects_bind; [apply Hbody | intros _; exact IH].
Qed.

Lemma respects_run (P : Operation → Prop) w ops self :
  (∀ op, P op → respects R (perform op)) → Forall P ops → R self (run w ops self).
Proof.
  intros Hop Hops. revert self.
  induction Hops as [|op ops Hp _ IH]; intros self; simpl; [reflexivity|].
  etrans; [apply (Hop op Hp w self) | apply IH].
Qed.
End Respects.

Create HintDb respects discriminated.

(** Goes through a method: binds, branches and loops; the calls to the
    collaborators and the assignments are left to the hints. *)
Ltac solve_respects :=
  repeat first
    [ assumption
    | match goal with
      | |- PreOrder _ => apply _
      | |- respects _ (mbind _ get) => apply respects_get_bind; intros ?
      | |- respects _ (mbind _ _) => apply respects_bind; [..|intros ?]
      | |- respects _ (for_each _ _) => apply respects_for_each; [..|intros ?]
      | |- respects _ (mret _) => apply respects_ret
      | |- respects _ (raise _) => apply respects_raise
      | |- respects _ (if ?c then _ else _) => destruct c
      | |- respects _ (match ?x with _ => _ end) => destruct x
      | |- respects _ _ => solve [auto with respects]
      | H : ∀ _, respects _ _ |- respects _ _ => apply H
      | H : ∀ _ _, respects _ _ |- respects _ _ => apply H
      | H : ∀ _ _ _, respects _ _ |- respects _ _ => apply H
      end ].

Lemma same_but_termination_refl o : same_but_termination o o.
Proof.
  exists (TrackedOrderDetails.terminated_at o), (TrackedOrderDetails.close_type o).
  by destruct o.
Qed.

Lemma same_but_termination_trans o1 o2 o3 :
  same_but_termination o1 o2 → same_but_termination o2 o3 → same_but_termination o1 o3.
Proof. intros (t1 & c1 & ->) (t2 & c2 & ->). by exists t2, c2. Qed.

Lemma same_but_termination_terminate t close_type o o' :
  same_but_termination o o' → same_but_termination o (terminate t close_type o').
Proof.
  intros H. apply (same_but_termination_trans _ o'); [done|].
  by exists (Some t), (Some close_type).
Qed.

#[local] Instance same_but_termination_preorder : PreOrder same_but_termination.
Proof.
  split; [intros o; apply same_but_termination_refl|].
  intros o1 o2 o3. apply same_but_termination_trans.
Qed.

#[local] Instance only_exits_preorder : PreOrder only_exits.
Proof.
  split.
  - intros self. split_and!; try done.
    exists []. by rewrite app_nil_r.
  - intros s1 s2 s3 ((i12 & Hc12 & Hx12) & Ht12 & Htp12 & Hs12 & Hb12 & Hcfg12)
                    ((i23 & Hc23 & Hx23) & Ht23 & Htp23 & Hs23 & Hb23 & Hcfg23).
    split_and!; try congruence.
    + exists (i12 ++ i23). split; [|by apply Forall_app].
      by rewrite Hc23, Hc12, app_assoc.
    + by trans (tracked_orders s2).
Qed.

(** A step that sends [cmds] and touches nothing but the tracked orders. *)
Lemma only_exits_step self self' cmds :
  commands self' = commands self ++ cmds →
  Forall is_exit_command cmds →
  Forall2 same_but_termination (tracked_orders self) (tracked_orders self') →
  take_profit_limit_orders self' = take_profit_limit_orders self →
  is_a_sell_order_being_created self' = is_a_sell_order_being_created self →
  is_a_buy_order_being_created self' = is_a_buy_order_being_created self →
  config self' = config self →
  only_exits self self'.
Proof. intros. split_and!; try done. by exists cmds. Qed.

Lemma only_exits_time : respects only_exits get_market_data_provider_time.
Proof.
  intros w self. by apply (only_exits_step _ _ []).
Qed.

Lemma only_exits_price price_type : respects only_exits (_get_best_ask_or_bid price_type).
Proof.
  intros w self. by apply (only_exits_step _ _ []).
Qed.

Lemma only_exits_cancel connector_name trading_pair order_id :
  respects only_exits (cancel connector_name trading_pair order_id).
Proof.
  intros w self.
  apply (only_exits_step _ _ [Cancel connector_name trading_pair order_id]); try done.
  by repeat constructor.
Qed.

Lemma only_exits_place cmd : is_exit_command cmd → respects only_exits (place cmd).
Proof.
  intros Hcmd w self. apply (only_exits_step _ _ [cmd]).
  all: unfold exec, place; destruct (place_order w (calls self)); simpl; try done.
  all: by repeat constructor.
Qed.

Lemma only_exits_terminate i t close_type :
  respects only_exits (update_tracked_order i (terminate t close_type)).
Proof.
  intros w self. apply (only_exits_step _ _ []); try done.
  - unfold exec, update_tracked_order, modify. simpl. by rewrite app_nil_r.
  - unfold exec, update_tracked_order, modify. simpl.
    apply Forall2_alter_r; [done|].
    intros o o' _ _. apply same_but_termination_terminate.
Qed.

#[local] Hint Resolve only_exits_time only_exits_price only_exits_cancel
  only_exits_terminate : respects.
#[local] Hint Extern 1 (respects only_exits (place _)) =>
  apply only_exits_place; reflexivity : respects.

Lemma only_exits_close_filled_order filled_order market_or_limit close_type :
  respects only_exits (close_filled_order filled_order market_or_limit close_type).
Proof.
  unfold close_filled_order, get_best_bid, get_best_ask, buy, sell.
  solve_respects.
Qed.

Lemma only_exits_cancel_take_profit_for_order filled_order :
  respects only_exits (cancel_take_profit_for_order filled_order).
Proof. unfold cancel_take_profit_for_order. solve_respects. Qed.

Lemma only_exits_check_orders : respects only_exits check_orders.
Proof.
  unfold check_orders, check_unfilled_orders, check_trading_orders, check_trading_order,
    cancel_unfilled_order, or_type_error, get_mid_price.
  pose proof only_exits_close_filled_order.
  pose proof only_exits_cancel_take_profit_for_order.
  solve_respects.
Qed.

(** X19: a tick opens nothing.  Every call that [check_orders] sends to the
    exchange is a cancellation or an order with the position action close; the
    tracked orders stay in place and change in their termination time and
    close type only; the take-profit orders, the latches and the configuration
    are left as they are. *)
Theorem check_orders_only_exits w self : only_exits self (exec check_orders w self).
Proof. apply only_exits_check_orders. Qed.

(** *** What a tick can raise *)

Lemma fails_at_gateway_only_ret {A} (a : A) : fails_at_gateway_only (mret a).
Proof. by intros w self e. Qed.

Lemma fails_at_gateway_only_bind {A B} (m : M A) (k : A → M B) :
  fails_at_gateway_only m → (∀ a, fails_at_gateway_only (k a)) →
  fails_at_gateway_only (m ≫= k).
Proof.
  intros Hm Hk w self e. specialize (Hm w self).
  unfold outcome, mbind, M_bind in *.
  destruct (m w self) as [[a|e'] self1]; simpl in *.
  - apply Hk.
  - intros [= <-]. by apply Hm.
Qed.

Lemma fails_at_gateway_only_get_bind {B} (k : PkStrategy → M B) :
  (∀ self, fails_at_gateway_only (k self)) → fails_at_gateway_only (get ≫= k).
Proof. intros Hk w self. apply (Hk self w self). Qed.

Lemma fails_at_gateway_only_for_each {A} (l : list A) (body : A → M unit) :
  (∀ x, x ∈ l → fails_at_gateway_only (body x)) → fails_at_gateway_only (for_each l body).
Proof.
  induction l as [|x l IH]; intros Hbody; simpl.
  - apply fails_at_gateway_only_ret.
  - apply fails_at_gateway_only_bind; [apply Hbody; left |].
    intros _. apply IH. intros y Hy. apply Hbody. by right.
Qed.

Lemma fails_at_gateway_only_time : fails_at_gateway_only get_market_data_provider_time.
Proof. by intros w self e. Qed.

Lemma fails_at_gateway_only_price price_type :
  fails_at_gateway_only (_get_best_ask_or_bid price_type).
Proof. by intros w self e. Qed.

Lemma fails_at_gateway_only_cancel connector_name trading_pair order_id :
  fails_at_gateway_only (cancel connector_name trading_pair order_id).
Proof. by intros w self e. Qed.

Lemma fails_at_gateway_only_update i f : fails_at_gateway_only (update_tracked_order i f).
Proof. by intros w self e. Qed.

Lemma fails_at_gateway_only_place cmd : fails_at_gateway_only (place cmd).
Proof.
  intros w self e. unfold outcome, place.
  destruct (place_order w (calls self)) eqn:Hplace; [done|].
  intros [= <-]. split; [done|]. by exists (calls self).
Qed.

Create HintDb gateway discriminated.

#[local] Hint Resolve fails_at_gateway_only_ret fails_at_gateway_only_time
  fails_at_gateway_only_price fails_at_gateway_only_cancel fails_at_gateway_only_update
  fails_at_gateway_only_place : gateway.

Ltac solve_gateway :=
  repeat first
    [ assumption
    | match goal with
      | |- fails_at_gateway_only (mbind _ get) =>
        apply fails_at_gateway_only_get_bind; intros ?
      | |- fails_at_gateway_only (mbind _ _) =>
        apply fails_at_gateway_only_bind; [|intros ?]
      | |- fails_at_gateway_only (for_each _ _) =>
        apply fails_at_gateway_only_for_each; intros ? ?
      | |- fails_at_gateway_only (if ?c then _ else _) => destruct c
      | |- fails_at_gateway_only (match ?x with _ => _ end) => destruct x
      | |- fails_at_gateway_only _ => solve [auto with gateway]
      | H : ∀ _, fails_at_gateway_only _ |- fails_at_gateway_only _ => apply H
      | H : ∀ _ _, fails_at_gateway_only _ |- fails_at_gateway_only _ => apply H
      | H : ∀ _ _ _, fails_at_gateway_only _ |- fails_at_gateway_only _ => apply H
      end ].

Lemma fails_at_gateway_only_close_filled_order filled_order market_or_limit close_type :
  fails_at_gateway_only (close_filled_order filled_order market_or_limit close_type).
Proof.
  unfold close_filled_order, get_best_bid, get_best_ask, buy, sell. solve_gateway.
Qed.

Lemma fails_at_gateway_only_cancel_take_profit_for_order filled_order :
  fails_at_gateway_only (cancel_take_profit_for_order filled_order).
Proof. unfold cancel_take_profit_for_order. solve_gateway. Qed.

(** The time limit of an order that has a fill time is computed. *)
Lemma has_filled_order_reached_time_limit_filled o t :
  truthy_opt (TrackedOrderDetails.last_filled_at o) →
  is_Some (has_filled_order_reached_time_limit o t).
Proof.
  unfold has_filled_order_reached_time_limit. intros Hfilled.
  destruct (time_limit _) as [limit|]; [|by eexists].
  destruct (limit =? 0)%Z; [by eexists|].
  destruct (TrackedOrderDetails.last_filled_at o); [by eexists | done].
Qed.

Lemma fails_at_gateway_only_check_trading_order current_price filled_order :
  truthy_opt (TrackedOrderDetails.last_filled_at filled_order) →
  fails_at_gateway_only (check_trading_order current_price filled_order).
Proof.
  intros Hfilled. unfold check_trading_order.
  pose proof fails_at_gateway_only_close_filled_order.
  pose proof fails_at_gateway_only_cancel_take_profit_for_order.
  assert (∀ t, fails_at_gateway_only
                 (or_type_error (has_filled_order_reached_time_limit filled_order t))).
  { intros t. destruct (has_filled_order_reached_time_limit_filled filled_order t Hfilled)
      as [b ->]. apply fails_at_gateway_only_ret. }
  solve_gateway.
Qed.

Lemma fails_at_gateway_only_check_orders : fails_at_gateway_only check_orders.
Proof.
  unfold check_orders, check_unfilled_orders, check_trading_orders, cancel_unfilled_order,
    get_mid_price.
  apply fails_at_gateway_only_bind.
  - solve_gateway.
  - intros _. apply fails_at_gateway_only_bind; [solve_gateway|]. intros current_price.
    apply fails_at_gateway_only_get_bind. intros self.
    unfold get_filled_tracked_orders_by_side.
    destruct (get_active_tracked_orders_by_side self None) as [sells buys].
    apply fails_at_gateway_only_for_each. intros o Ho.
    apply fails_at_gateway_only_check_trading_order.
    by apply elem_of_app in Ho as [[Ho _]%list_elem_of_filter | [Ho _]%list_elem_of_filter].
Qed.

(** X20: a tick raises only what the exchange raises.  When [check_orders]
    raises, the exception is that of a refused order: the time limit of every
    order it examines can be computed, because only orders with a fill time
    are examined. *)
Theorem check_orders_raises w self e :
  outcome check_orders w self = Raised e →
  e = GatewayError ∧ ∃ n, place_order w n = None.
Proof. apply fails_at_gateway_only_check_orders. Qed.

Lemma check_orders_raises_witness :
  outcome check_orders rejecting_stressed_world tracking_with_take_profit
  = Raised GatewayError ∧
  ∃ n, place_order rejecting_stressed_world n = None.
Proof.
  assert (H : outcome check_orders rejecting_stressed_world tracking_with_take_profit
              = Raised GatewayError) by by vm_compute.
  split; [exact H|].
  exact (proj2 (check_orders_raises rejecting_stressed_world tracking_with_take_profit
                  GatewayError H)).
Defined.

(** ** What stays on a tracked order (pk_strategy.py) *)

Lemma same_identity_refl o : same_identity o o.
Proof. by repeat split. Qed.

#[local] Instance keeps_orders_preorder : PreOrder keeps_orders.
Proof.
  split.
  - intros self. split; [done|]. intros j o Hj. exists o.
    split_and!; [done | apply same_identity_refl | done].
  - intros s1 s2 s3 [Hc12 H12] [Hc23 H23]. split; [congruence|].
    intros j o Hj.
    destruct (H12 j o Hj) as (o2 & Hj2 & Hid2 & Hf2).
    destruct (H23 j o2 Hj2) as (o3 & Hj3 & Hid3 & Hf3).
    exists o3. split_and!; [done | | auto].
    unfold same_identity in *. destruct_and!. split_and!; congruence.
Qed.

Lemma keeps_orders_same {A} (m : M A) :
  (∀ w self, tracked_orders (exec m w self) = tracked_orders self ∧
             config (exec m w self) = config self) →
  respects keeps_orders m.
Proof.
  intros H w self. destruct (H w self) as [Ht Hc]. split; [done|].
  intros j o Hj. exists o. rewrite Ht.
  split_and!; [done | apply same_identity_refl | done].
Qed.

Lemma keeps_orders_time : respects keeps_orders get_market_data_provider_time.
Proof. by apply keeps_orders_same. Qed.

Lemma keeps_orders_price price_type : respects keeps_orders (_get_best_ask_or_bid price_type).
Proof. by apply keeps_orders_same. Qed.

Lemma keeps_orders_place cmd : respects keeps_orders (place cmd).
Proof.
  apply keeps_orders_same. intros w self. unfold place, exec.
  by destruct (place_order w (calls self)).
Qed.

Lemma keeps_orders_cancel connector_name trading_pair order_id :
  respects keeps_orders (cancel connector_name trading_pair order_id).
Proof. by apply keeps_orders_same. Qed.

Lemma keeps_orders_deref r : respects keeps_orders (deref r).
Proof.
  apply keeps_orders_same. intros w self. unfold deref, exec.
  by destruct (tracked_orders self !! r).
Qed.

Lemma keeps_orders_modify f :
  (∀ self, tracked_orders (f self) = tracked_orders self ∧ config (f self) = config self) →
  respects keeps_orders (modify f).
Proof. intros Hf. apply keeps_orders_same. intros w self. apply Hf. Qed.

Lemma keeps_orders_update i f :
  keeps_order f → respects keeps_orders (update_tracked_order i f).
Proof.
  intros Hf w self. split; [done|]. intros j o Hj.
  unfold update_tracked_order, modify, exec. simpl.
  destruct (decide (i = j)) as [->|Hne].
  - exists (f o). rewrite list_lookup_alter_eq, Hj. destruct (Hf o). by split_and!.
  - exists o. rewrite list_lookup_alter_ne by done.
    split_and!; [done | apply same_identity_refl | done].
Qed.

Lemma keeps_orders_append o : respects keeps_orders (append_tracked_order o).
Proof.
  intros w self. split; [done|]. intros j o' Hj.
  unfold append_tracked_order, modify, exec. simpl.
  exists o'. split_and!; [by apply lookup_app_l_Some | apply same_identity_refl | done].
Qed.

Lemma keeps_order_terminate t close_type : keeps_order (terminate t close_type).
Proof. intros o. split; [by repeat split | done]. Qed.

Lemma keeps_order_set_exchange_order_id x :
  keeps_order (TrackedOrderDetails.set_exchange_order_id x).
Proof. intros o. split; [by repeat split | done]. Qed.

Lemma keeps_order_fill ev : keeps_order (fill_tracked_order ev).
Proof. intros o. split; [by repeat split |]. intros _. by eexists. Qed.

Lemma keeps_order_reduce ev : keeps_order (reduce_tracked_order ev).
Proof.
  intros o. unfold reduce_tracked_order.
  destruct (Qeq_bool _ 0); (split; [by repeat split | done]).
Qed.

#[local] Hint Resolve keeps_orders_time keeps_orders_price keeps_orders_place
  keeps_orders_cancel keeps_orders_deref keeps_orders_update keeps_orders_append
  keeps_order_terminate keeps_order_set_exchange_order_id keeps_order_fill
  keeps_order_reduce : respects.
#[local] Hint Extern 1 (respects keeps_orders (modify _)) =>
  apply keeps_orders_modify; intros ?; split; reflexivity : respects.

Lemma keeps_orders_get_executor_config side entry_price amount_quote :
  respects keeps_orders (get_executor_config side entry_price amount_quote).
Proof. unfold get_executor_config. solve_respects. Qed.

Lemma keeps_orders_create_tp_limit_order tracked_order amount entry_price :
  respects keeps_orders (create_tp_limit_order tracked_order amount entry_price).
Proof.
  unfold create_tp_limit_order, append_take_profit_limit_order, buy, sell.
  pose proof keeps_orders_get_executor_config. solve_respects.
Qed.

Lemma keeps_orders_close_filled_order filled_order market_or_limit close_type :
  respects keeps_orders (close_filled_order filled_order market_or_limit close_type).
Proof.
  unfold close_filled_order, get_best_bid, get_best_ask, buy, sell. solve_respects.
Qed.

Lemma keeps_orders_cancel_take_profit_for_order filled_order :
  respects keeps_orders (cancel_take_profit_for_order filled_order).
Proof. unfold cancel_take_profit_for_order. solve_respects. Qed.

Lemma keeps_orders_perform op : respects keeps_orders (perform op).
Proof.
  pose proof keeps_orders_get_executor_config.
  pose proof keeps_orders_create_tp_limit_order.
  pose proof keeps_orders_close_filled_order.
  pose proof keeps_orders_cancel_take_profit_for_order.
  destruct op; simpl;
    unfold create_order, create_individual_order, can_create_order, close_filled_orders,
      cancel_unfilled_order, did_create_sell_order, did_create_buy_order, did_fill_order,
      did_cancel_order, check_orders, check_unfilled_orders, check_trading_orders,
      check_trading_order, or_type_error, update_take_profit_limit_order, get_mid_price,
      cancel_unfilled_order, buy, sell;
    solve_respects.
Qed.

(** X21: over every sequence of operations the configuration is the same and
    a tracked order keeps what it was created with: connector, trading pair,
    side, order id, amount, entry price, triple barrier, ref and creation
    time; a fill time that is set stays set. *)
Theorem tracked_order_identity w ops self j order :
  tracked_orders self !! j = Some order →
  config (run w ops self) = config self ∧
  ∃ order', tracked_orders (run w ops self) !! j = Some order' ∧
            same_identity order order' ∧
            (is_Some (TrackedOrderDetails.last_filled_at order) →
             is_Some (TrackedOrderDetails.last_filled_at order')).
Proof.
  intros Hj.
  destruct (respects_run keeps_orders (λ _, True) w ops self) as [Hc Ht].
  - intros op _. apply keeps_orders_perform.
  - by apply Forall_true.
  - split; [done|]. by apply Ht.
Qed.

Lemma tracked_order_identity_witness :
  ∃ order', tracked_orders (run falling_world stop_loss_story tracking_filled_sell) !! 0%nat
            = Some order' ∧
            same_identity filled_sell_order order'.
Proof.
  destruct (tracked_order_identity falling_world stop_loss_story tracking_filled_sell 0
              filled_sell_order eq_refl) as (_ & o' & Ho' & Hid & _).
  by exists o'.
Defined.

(** ** The latches outside [create_order] (pk_strategy.py) *)

#[local] Instance same_latch_preorder side : PreOrder (same_latch side).
Proof.
  split; [by intros self|]. intros s1 s2 s3 H12 H23. unfold same_latch in *. congruence.
Qed.

Lemma same_latch_same side {A} (m : M A) :
  (∀ w self, is_a_sell_order_being_created (exec m w self) = is_a_sell_order_being_created self ∧
             is_a_buy_order_being_created (exec m w self) = is_a_buy_order_being_created self) →
  respects (same_latch side) m.
Proof.
  intros H w self. destruct (H w self) as [Hs Hb]. unfold same_latch, latch.
  by destruct (decide (side = SELL)).
Qed.

Lemma same_latch_time side : respects (same_latch side) get_market_data_provider_time.
Proof. by apply same_latch_same. Qed.

Lemma same_latch_price side price_type :
  respects (same_latch side) (_get_best_ask_or_bid price_type).
Proof. by apply same_latch_same. Qed.

Lemma same_latch_place side cmd : respects (same_latch side) (place cmd).
Proof.
  apply same_latch_same. intros w self. unfold place, exec.
  by destruct (place_order w (calls self)).
Qed.

Lemma same_latch_cancel side connector_name trading_pair order_id :
  respects (same_latch side) (cancel connector_name trading_pair order_id).
Proof. by apply same_latch_same. Qed.

Lemma same_latch_deref side r : respects (same_latch side) (deref r).
Proof.
  apply same_latch_same. intros w self. unfold deref, exec.
  by destruct (tracked_orders self !! r).
Qed.

Lemma same_latch_modify side f :
  (∀ self, is_a_sell_order_being_created (f self) = is_a_sell_order_being_created self ∧
           is_a_buy_order_being_created (f self) = is_a_buy_order_being_created self) →
  respects (same_latch side) (modify f).
Proof. intros Hf. apply same_latch_same. intros w self. apply Hf. Qed.

#[local] Hint Resolve same_latch_time same_latch_price same_latch_place same_latch_cancel
  same_latch_deref : respects.
#[local] Hint Extern 1 (respects (same_latch _) (modify _)) =>
  apply same_latch_modify; intros ?; split; reflexivity : respects.

Lemma same_latch_create_order side side' entry_price triple_barrier amount_quote ref :
  side' ≠ side →
  respects (same_latch side) (create_order side' entry_price triple_barrier amount_quote ref).
Proof.
  intros Hne w self. unfold same_latch, exec. rewrite create_order_run.
  destruct (Qeq_bool entry_price 0); [done|].
  destruct (place_order w (S (calls self))); by destruct side, side'.
Qed.

Lemma same_latch_perform side op : ¬ creates side op → respects (same_latch side) (perform op).
Proof.
  intros Hop. destruct op;
    [apply same_latch_create_order; by intros ->|..];
    simpl;
    unfold can_create_order, close_filled_orders, close_filled_order,
      cancel_take_profit_for_order,
      cancel_unfilled_order, did_create_sell_order, did_create_buy_order, did_fill_order,
      create_tp_limit_order, get_executor_config, append_take_profit_limit_order,
      did_cancel_order, check_orders, check_unfilled_orders, check_trading_orders,
      check_trading_order, close_filled_order, cancel_take_profit_for_order,
      or_type_error, update_take_profit_limit_order, update_tracked_order,
      get_mid_price, get_best_bid, get_best_ask, cancel_unfilled_order, buy, sell;
    solve_respects.
Qed.

(** X22: only [create_order] writes the latches.  A latch that is set, as an
    exchange call that raised leaves it, stays set over every sequence of
    operations without a [create_order] for that side, and [can_create_order]
    for that side answers false after all of them, whatever the amount, the
    ref and the cooldown. *)
Theorem latch_stays_set w ops self side amount_quote ref cooldown_time_min :
  latch side self = true →
  Forall (λ op, ¬ creates side op) ops →
  latch side (run w ops self) = true ∧
  outcome (can_create_order side amount_quote ref cooldown_time_min) w (run w ops self)
  = Returned false.
Proof.
  intros Hset Hops.
  assert (Hlatch : latch side (run w ops self) = true).
  { rewrite <- Hset.
    apply (respects_run (same_latch side) (λ op, ¬ creates side op) w ops self);
      [|done].
    intros op. apply same_latch_perform. }
  split; [done|].
  unfold latch in Hlatch. unfold can_create_order, outcome.
  unfold mbind at 1, M_bind at 1, get at 1.
  destruct (Qeq_bool amount_quote 0); [done|].
  destruct side; simpl in *; by rewrite Hlatch.
Qed.

Lemma latch_stays_set_witness :
  is_a_sell_order_being_created (run accepting_world life_goes_on after_refused_sell) = true ∧
  outcome (can_create_order SELL 15 "R" 0) accepting_world
    (run accepting_world life_goes_on after_refused_sell) = Returned false.
Proof.
  apply (latch_stays_set accepting_world life_goes_on after_refused_sell SELL 15 "R" 0).
  - reflexivity.
  - unfold life_goes_on. repeat constructor; simpl; try tauto. discriminate.
Defined.

(** ** The savings strategy (savings.py) *)

Lemma foldl_Qplus_shift (l : list Q) a : foldl Qplus a l == a + foldl Qplus 0 l.
Proof.
  revert a. induction l as [|x l IH]; intros a; simpl; [lra|].
  rewrite (IH (a + x)), (IH (0 + x)). lra.
Qed.




Lemma total_amount_positive (orders : list TrackedOrderDetails.t) :
  orders ≠ [] →
  Forall (λ order, 0 < TrackedOrderDetails.filled_amount order) orders →
  0 < total_amount orders.
Proof.
  unfold total_amount, py_sum. intros Hne Hall.
  assert (Hge : ∀ l, Forall (λ order, 0 < TrackedOrderDetails.filled_amount order) l →
                     0 <= foldl Qplus 0 (TrackedOrderDetails.filled_amount <$> l)).
  { induction 1 as [|o l Ho _ IH]; simpl; [lra|].
    rewrite foldl_Qplus_shift. change (list_fmap _ _ ?f ?l) with (f <$> l). lra. }
  destruct Hall as [|o l Ho Hl]; [done|]. simpl.
  rewrite foldl_Qplus_shift. change (list_fmap _ _ ?f ?l) with (f <$> l).
  specialize (Hge l Hl). lra.
Qed.

(** Over orders that all have a fill price, the cost is summed. *)
Lemma mapM_costs (orders : list TrackedOrderDetails.t) :
  Forall (λ order, is_Some (TrackedOrderDetails.last_filled_price order)) orders →
  mapM (λ order, Qmult (TrackedOrderDetails.filled_amount order)
                 <$> TrackedOrderDetails.last_filled_price order) orders
  = Some ((λ order, TrackedOrderDetails.filled_amount order
                    * default 0 (TrackedOrderDetails.last_filled_price order)) <$> orders).
Proof.
  intros Hall. apply mapM_Some_2.
  induction Hall as [|o l [p Hp] _ IH]; [constructor|].
  rewrite fmap_cons. constructor; [|done]. by rewrite Hp.
Qed.

Lemma compute_avg_position_price_weighted (orders : list TrackedOrderDetails.t) :
  orders ≠ [] →
  Forall (λ order, 0 < TrackedOrderDetails.filled_amount order) orders →
  Forall (λ order, is_Some (TrackedOrderDetails.last_filled_price order)) orders →
  compute_avg_position_price orders = inr (total_cost orders / total_amount orders) ∧
  0 < total_amount orders.
Proof.
  intros Hne Hpos Hprice. pose proof (total_amount_positive orders Hne Hpos) as HA.
  split; [|done]. unfold compute_avg_position_price. rewrite (mapM_costs orders Hprice).
  fold (total_amount orders). fold (total_cost orders).
  by rewrite Qeq_bool_false by lra.
Qed.

Lemma get_current_close_run w self close :
  current_close self = Some close → get_current_close w self = (Done close, self).
Proof.
  unfold current_close, get_current_close, mbind, Method_bind, this. simpl.
  destruct (ExcaliburStrategy.processed_data self) as [close_series|]; [|done]. simpl.
  by intros ->.
Qed.

(** X24: for a position of buys that all have a positive filled amount and a
    fill price, with candles that have a last close, the take profit of the
    savings strategy is reached exactly when the position is worth, at the
    last close, more than what it has cost plus [tp_pct] percent; the check
    changes nothing. *)
Theorem has_avg_position_reached_tp_spec w self filled_buy_orders close :
  current_close self = Some close →
  filled_buy_orders ≠ [] →
  Forall (λ order, 0 < TrackedOrderDetails.filled_amount order) filled_buy_orders →
  Forall (λ order, is_Some (TrackedOrderDetails.last_filled_price order)) filled_buy_orders →
  ∃ has_reached_tp,
    has_avg_position_reached_tp BUY filled_buy_orders w self = (Done has_reached_tp, self) ∧
    (has_reached_tp = true ↔
     total_cost filled_buy_orders
     * (1 + OrderSettings.tp_pct (ExcaliburStrategy.order_settings self) / 100)
     < close * total_amount filled_buy_orders).
Proof.
  intros Hclose Hne Hpos Hprice.
  destruct (compute_avg_position_price_weighted filled_buy_orders Hne Hpos Hprice)
    as [Havg HA].
  unfold has_avg_position_reached_tp. rewrite Havg.
  unfold own, mbind, Method_bind, mret, Method_ret, this.
  rewrite (get_current_close_run w self close Hclose).
  eexists. split; [done|]. rewrite Qltb_lt.
  unfold compute_take_profit_price. simpl.
  set (A := total_amount filled_buy_orders) in *.
  set (C := total_cost filled_buy_orders).
  set (t := OrderSettings.tp_pct _ / 100).
  rewrite <- (Qmult_lt_r _ _ A HA).
  assert (Heq : C / A * (1 + t) * A == C * (1 + t)) by (field; lra).
  by rewrite Heq.
Qed.

Lemma has_avg_position_reached_tp_spec_witness :
  has_avg_position_reached_tp BUY savings_buys accepting_world
    (savings_at (init default_config) [97; 98] 96 2)
  = (Done true, savings_at (init default_config) [97; 98] 96 2) ∧
  has_avg_position_reached_tp BUY savings_buys accepting_world
    (savings_at (init default_config) [99; 97.97] 96 2)
  = (Done false, savings_at (init default_config) [99; 97.97] 96 2).
Proof.
  split.
  - destruct (has_avg_position_reached_tp_spec accepting_world
                (savings_at (init default_config) [97; 98] 96 2) savings_buys 98)
      as (b & Hrun & Hb); [done | done | by repeat constructor | |].
    + repeat constructor; by eexists.
    + rewrite Hrun. f_equal. f_equal. by apply Hb.
  - destruct (has_avg_position_reached_tp_spec accepting_world
                (savings_at (init default_config) [99; 97.97] 96 2) savings_buys 97.97)
      as (b & Hrun & Hb); [done | done | by repeat constructor | |].
    + repeat constructor; by eexists.
    + rewrite Hrun. f_equal. f_equal. destruct b; [|done].
      by destruct (proj1 Hb eq_refl).
Defined.











(** *** Taking the profit of the savings *)

Lemma only_exits_close_filled_orders filled_orders market_or_limit close_type :
  respects only_exits (close_filled_orders filled_orders market_or_limit close_type).
Proof.
  unfold close_filled_orders.
  pose proof only_exits_close_filled_order.
  pose proof only_exits_cancel_take_profit_for_order.
  solve_respects.
Qed.

Lemma fails_at_gateway_only_close_filled_orders filled_orders market_or_limit close_type :
  fails_at_gateway_only (close_filled_orders filled_orders market_or_limit close_type).
Proof.
  unfold close_filled_orders.
  pose proof fails_at_gateway_only_close_filled_order.
  pose proof fails_at_gateway_only_cancel_take_profit_for_order.
  solve_gateway.
Qed.

(** A batch that returns has placed one closing order for each order of the
    list. *)
Lemma close_filled_orders_submissions w filled_orders market_or_limit close_type self :
  outcome (close_filled_orders filled_orders market_or_limit close_type) w self = Returned tt →
  submissions (commands (exec (close_filled_orders filled_orders market_or_limit close_type)
                           w self))
  = (submissions (commands self) + length filled_orders)%nat.
Proof.
  unfold close_filled_orders.
  set (body := λ filled_order : TrackedOrderDetails.t,
         close_filled_order filled_order market_or_limit close_type;;
         cancel_take_profit_for_order filled_order).
  revert self. induction filled_orders as [|o l IH]; intros self.
  - intros _. unfold exec. simpl. lia.
  - destruct (close_filled_order_commands w self o market_or_limit close_type)
      as (cmd & Hcmd & Hc).
    unfold exec in Hc.
    destruct (close_filled_order o market_or_limit close_type w self)
      as [[[]|e] self1] eqn:H1.
    + destruct (cancel_take_profit_for_order_returns w self1 o) as (self2 & H2 & Hc2 & _).
      assert (Hrun : for_each (o :: l) body w self = for_each l body w self2).
      { simpl. unfold mbind at 1, M_bind at 1.
        change (body o) with (close_filled_order o market_or_limit close_type;;
                              cancel_take_profit_for_order o).
        unfold mbind at 1, M_bind at 1. by rewrite H1, H2. }
      unfold outcome, exec in *. rewrite Hrun. intros Hret.
      rewrite (IH self2 Hret), Hc2. simpl in Hc. rewrite Hc.
      rewrite !submissions_app, submissions_cancel_commands.
      rewrite (submissions_close_command o market_or_limit cmd []) by done.
      unfold submissions at 2. simpl. lia.
    + assert (Hrun : for_each (o :: l) body w self = (Raised e, self1)).
      { simpl. unfold mbind at 1, M_bind at 1.
        change (body o) with (close_filled_order o market_or_limit close_type;;
                              cancel_take_profit_for_order o).
        unfold mbind at 1, M_bind at 1. by rewrite H1. }
      unfold outcome. by rewrite Hrun.
Qed.

(** The take-profit test changes nothing, and answers true only with candles
    that have a last close. *)
Lemma has_avg_position_reached_tp_state w self side filled_buy_orders :
  (has_avg_position_reached_tp side filled_buy_orders w self).2 = self ∧
  ((has_avg_position_reached_tp side filled_buy_orders w self).1 = Done true →
   is_Some (current_close self)).
Proof.
  unfold has_avg_position_reached_tp, get_current_close, current_close, own.
  unfold mbind, Method_bind, mret, Method_ret, this, throw.
  destruct (compute_avg_position_price filled_buy_orders) as [e|avg]; simpl; [done|].
  destruct (ExcaliburStrategy.processed_data self) as [close_series|]; simpl; [|done].
  destruct (last close_series) as [close|]; simpl; [|done].
  split; [done|]. by eexists.
Qed.

(** [stop_actions_proposal_savings] by its cases. *)
Lemma stop_actions_proposal_savings_run w self :
  let filled_buy_orders :=
    (get_filled_tracked_orders_by_side (ExcaliburStrategy.pk self) (Some ORDER_REF)).2 in
  stop_actions_proposal_savings w self
  = if bool_decide (0 < length filled_buy_orders)%nat then
      match (has_avg_position_reached_tp BUY filled_buy_orders w self).1 with
      | Done true =>
        (get_current_close;;
         inherited (close_filled_orders filled_buy_orders MARKET TAKE_PROFIT);;
         reset_context) w self
      | Done false => (Done tt, self)
      | Failed e => (Failed e, self)
      end
    else (Done tt, self).
Proof.
  intros filled_buy_orders.
  pose proof (proj1 (has_avg_position_reached_tp_state w self BUY filled_buy_orders))
    as Hstate.
  unfold stop_actions_proposal_savings, filled_buy_orders in *.
  unfold mbind at 1, Method_bind at 1, this at 1.
  destruct (get_filled_tracked_orders_by_side _ _) as [sells buys]. simpl in *.
  destruct (bool_decide (0 < length buys)%nat); [|done].
  unfold mbind at 1, Method_bind at 1.
  destruct (has_avg_position_reached_tp BUY buys w self) as [[[|]|e] self1];
    simpl in Hstate; by subst self1.
Qed.

(** The closing of the savings, with candles that have a last close. *)
Lemma close_savings_run w self filled_buy_orders close :
  current_close self = Some close →
  let run := (get_current_close;;
              inherited (close_filled_orders filled_buy_orders MARKET TAKE_PROFIT);;
              reset_context) w self in
  only_exits (ExcaliburStrategy.pk self) (ExcaliburStrategy.pk run.2) ∧
  match run.1 with
  | Done _ =>
    submissions (commands (ExcaliburStrategy.pk run.2))
    = (submissions (commands (ExcaliburStrategy.pk self)) + length filled_buy_orders)%nat ∧
    ExcaliburStrategy.saved_last_dca_price run.2 = Some close ∧
    ExcaliburStrategy.buy_counter run.2 = Some 0%Z
  | Failed e =>
    e = Inherited GatewayError ∧
    (∃ n, place_order w n = None) ∧
    ExcaliburStrategy.saved_last_dca_price run.2
    = ExcaliburStrategy.saved_last_dca_price self ∧
    ExcaliburStrategy.buy_counter run.2 = ExcaliburStrategy.buy_counter self
  end.
Proof.
  intros Hc run.
  assert (Hrun : run = (get_current_close;;
                        inherited (close_filled_orders filled_buy_orders MARKET TAKE_PROFIT);;
                        reset_context) w self) by done.
  clearbody run.
  unfold mbind at 1, Method_bind at 1 in Hrun.
  rewrite (get_current_close_run w self close Hc) in Hrun.
  unfold mbind at 1, Method_bind at 1, inherited at 1 in Hrun.
  pose proof (only_exits_close_filled_orders filled_buy_orders MARKET TAKE_PROFIT w
                (ExcaliburStrategy.pk self)) as Hexits.
  pose proof (fails_at_gateway_only_close_filled_orders filled_buy_orders MARKET TAKE_PROFIT
                w (ExcaliburStrategy.pk self)) as Hfails.
  pose proof (close_filled_orders_submissions w filled_buy_orders MARKET TAKE_PROFIT
                (ExcaliburStrategy.pk self)) as Hsub.
  unfold exec, outcome in Hexits, Hfails, Hsub.
  destruct (close_filled_orders filled_buy_orders MARKET TAKE_PROFIT w
              (ExcaliburStrategy.pk self)) as [[[]|e] pk2]; simpl in *.
  - unfold reset_context, save_last_dca_price in Hrun.
    unfold mbind at 1, Method_bind at 1 in Hrun.
    unfold mbind at 1, Method_bind at 1 in Hrun.
    erewrite get_current_close_run in Hrun by exact Hc. simpl in Hrun.
    subst run. simpl. split_and!; [done | by apply Hsub | done | done].
  - destruct (Hfails e eq_refl) as [-> Hnone]. subst run. by split_and!.
Qed.

(** X28: [stop_actions_proposal_savings] does nothing when no buy of the
    savings is filled or when their take profit is not reached, and passes on
    the exception of the test.  When the take profit is reached it sends only
    closing orders and cancellations; if it returns, it has placed one closing
    order for each filled buy, saved the last close as the last price and set
    the counter of buys to zero; if it raises, the exchange has refused a
    closing order and the saved price and the counter are as they were. *)
Theorem stop_actions_proposal_savings_spec w self :
  let run := stop_actions_proposal_savings w self in
  let filled_buy_orders :=
    (get_filled_tracked_orders_by_side (ExcaliburStrategy.pk self) (Some ORDER_REF)).2 in
  let has_reached_tp := (has_avg_position_reached_tp BUY filled_buy_orders w self).1 in
  (filled_buy_orders = [] ∨ has_reached_tp = Done false → run = (Done tt, self)) ∧
  (filled_buy_orders ≠ [] → ∀ e, has_reached_tp = Failed e → run = (Failed e, self)) ∧
  (filled_buy_orders ≠ [] → has_reached_tp = Done true →
   only_exits (ExcaliburStrategy.pk self) (ExcaliburStrategy.pk run.2) ∧
   match run.1 with
   | Done _ =>
     submissions (commands (ExcaliburStrategy.pk run.2))
     = (submissions (commands (ExcaliburStrategy.pk self)) + length filled_buy_orders)%nat ∧
     ExcaliburStrategy.saved_last_dca_price run.2 = current_close self ∧
     ExcaliburStrategy.buy_counter run.2 = Some 0%Z
   | Failed e =>
     e = Inherited GatewayError ∧
     (∃ n, place_order w n = None) ∧
     ExcaliburStrategy.saved_last_dca_price run.2
     = ExcaliburStrategy.saved_last_dca_price self ∧
     ExcaliburStrategy.buy_counter run.2 = ExcaliburStrategy.buy_counter self
   end).
Proof.
  intros run filled_buy_orders has_reached_tp.
  assert (Hrun : run = if bool_decide (0 < length filled_buy_orders)%nat then
                         match has_reached_tp with
                         | Done true =>
                           (get_current_close;;
                            inherited (close_filled_orders filled_buy_orders MARKET TAKE_PROFIT);;
                            reset_context) w self
                         | Done false => (Done tt, self)
                         | Failed e => (Failed e, self)
                         end
                       else (Done tt, self))
    by apply stop_actions_proposal_savings_run.
  pose proof (proj2 (has_avg_position_reached_tp_state w self BUY filled_buy_orders))
    as Hclose.
  fold has_reached_tp in Hclose.
  clearbody run has_reached_tp.
  assert (Hlen : filled_buy_orders ≠ [] → bool_decide (0 < length filled_buy_orders)%nat = true).
  { intros Hne. apply bool_decide_eq_true_2. destruct filled_buy_orders; [done | simpl; lia]. }
  split_and!.
  - intros [Hnil | Hfalse]; subst run; [by rewrite Hnil|].
    rewrite Hfalse. by destruct (bool_decide _).
  - intros Hne e He. subst run. by rewrite (Hlen Hne), He.
  - intros Hne Htrue. rewrite (Hlen Hne), Htrue in Hrun.
    destruct (Hclose Htrue) as [close Hc]. subst run. rewrite Hc.
    apply (close_savings_run w self filled_buy_orders close Hc).
Qed.

Lemma stop_actions_proposal_savings_spec_witness :
  let self := savings_at holding_savings_buys [97; 98] 96 2 in
  let run := stop_actions_proposal_savings accepting_world self in
  submissions (commands (ExcaliburStrategy.pk run.2)) = 2%nat ∧
  ExcaliburStrategy.saved_last_dca_price run.2 = Some 98 ∧
  ExcaliburStrategy.buy_counter run.2 = Some 0%Z.
Proof.
  intros self run.
  destruct (proj2 (proj2 (stop_actions_proposal_savings_spec accepting_world self)))
    as [_ Hrun]; [done | by vm_compute |].
  fold run in Hrun.
  assert (Hdone : run.1 = Done tt) by by vm_compute.
  rewrite Hdone in Hrun. exact Hrun.
Defined.

Lemma compute_avg_position_price_raises filled_buy_orders e :
  compute_avg_position_price filled_buy_orders = inl e →
  e = Raises.TypeError ∨ e = Raises.ArithmeticError.
Proof.
  unfold compute_avg_position_price.
  destruct (mapM _ filled_buy_orders); [|intros [= <-]; by left].
  destruct (Qeq_bool _ 0); [|done]. intros [= <-]. by right.
Qed.

Lemma has_avg_position_reached_tp_raises w self side filled_buy_orders close e :
  current_close self = Some close →
  (has_avg_position_reached_tp side filled_buy_orders w self).1 = Failed e →
  e = Own Raises.TypeError ∨ e = Own Raises.ArithmeticError.
Proof.
  intros Hc. unfold has_avg_position_reached_tp.
  unfold mbind at 1, Method_bind at 1, own at 1.
  destruct (compute_avg_position_price filled_buy_orders) as [e'|avg] eqn:Havg.
  - intros [= <-].
    by destruct (compute_avg_position_price_raises _ _ Havg) as [-> | ->]; [left | right].
  - unfold mbind, Method_bind, mret, Method_ret, this. simpl.
    by rewrite (get_current_close_run w self close Hc).
Qed.

(** With candles that have a last close, the savings part of the stop
    proposal sends only exits, and raises only what the exchange or the
    average raises. *)
Lemma stop_actions_proposal_savings_safe w self close :
  current_close self = Some close →
  only_exits (ExcaliburStrategy.pk self)
    (ExcaliburStrategy.pk (stop_actions_proposal_savings w self).2) ∧
  ∀ e, (stop_actions_proposal_savings w self).1 = Failed e →
       e = Inherited GatewayError ∨ e = Own Raises.TypeError ∨ e = Own Raises.ArithmeticError.
Proof.
  intros Hc. rewrite stop_actions_proposal_savings_run. cbv zeta.
  set (filled_buy_orders := (get_filled_tracked_orders_by_side _ _).2).
  pose proof (has_avg_position_reached_tp_raises w self BUY filled_buy_orders close) as Hraises.
  destruct (bool_decide _); [|split; [reflexivity | done]].
  destruct (has_avg_position_reached_tp BUY filled_buy_orders w self).1 as [[|]|e'].
  - destruct (close_savings_run w self filled_buy_orders close Hc) as [Hexits Hrun].
    split; [done|]. intros e He. rewrite He in Hrun. destruct Hrun as [-> _]. by left.
  - split; [reflexivity | done].
  - split; [reflexivity|]. simpl. intros e [= <-]. right. by apply Hraises.
Qed.

(** X29: without candles [stop_actions_proposal] does nothing: it does not
    run the tick of the base class, so no order is expired or closed.  With
    candles it runs the tick and then the take profit of the savings; in every
    case the calls it sends are cancellations and closing orders, and what it
    raises is the refusal of an order by the exchange or the error of the
    average position price, never a missing candle or attribute. *)
Theorem stop_actions_proposal_spec w self :
  let run := stop_actions_proposal w self in
  (processed_data_num_rows self = 0%nat → run = (Done [], self)) ∧
  only_exits (ExcaliburStrategy.pk self) (ExcaliburStrategy.pk run.2) ∧
  (∀ e, run.1 = Failed e →
        e = Inherited GatewayError ∨ e = Own Raises.TypeError ∨ e = Own Raises.ArithmeticError).
Proof.
  intros run.
  assert (Hrun : run = if bool_decide (processed_data_num_rows self = 0%nat)
                       then (Done [], self)
                       else (inherited check_orders;;
                             stop_actions_proposal_savings;; mret []) w self).
  { unfold run, stop_actions_proposal. unfold mbind at 1, Method_bind at 1, this at 1.
    by destruct (bool_decide _). }
  clearbody run.
  destruct (decide (processed_data_num_rows self = 0%nat)) as [Hrows|Hrows].
  { rewrite bool_decide_eq_true_2 in Hrun by done. subst run.
    split_and!; [done | reflexivity | done]. }
  rewrite bool_decide_eq_false_2 in Hrun by done.
  split; [done|].
  assert (Hclose : ∃ close, current_close self = Some close).
  { unfold processed_data_num_rows, current_close in *.
    destruct (ExcaliburStrategy.processed_data self) as [close_series|]; [|done]. simpl.
    destruct (last close_series) as [close|] eqn:Hlast; [by eexists|].
    apply last_None in Hlast. by subst close_series. }
  destruct Hclose as [close Hc].
  unfold mbind at 1, Method_bind at 1, inherited at 1 in Hrun.
  pose proof (only_exits_check_orders w (ExcaliburStrategy.pk self)) as Htick.
  pose proof (fails_at_gateway_only_check_orders w (ExcaliburStrategy.pk self)) as Hfails.
  unfold exec, outcome in Htick, Hfails.
  destruct (check_orders w (ExcaliburStrategy.pk self)) as [[[]|e'] pk1]; simpl in *.
  - destruct (stop_actions_proposal_savings_safe w (ExcaliburStrategy.set_pk pk1 self) close Hc)
      as [Hexits Hraises].
    unfold mbind at 1, Method_bind at 1 in Hrun. simpl in Hexits.
    destruct (stop_actions_proposal_savings w (ExcaliburStrategy.set_pk pk1 self))
      as [[[]|e''] self2]; simpl in *; subst run; simpl.
    + split; [by etrans|done].
    + split; [by etrans|]. intros e [= <-]. by apply Hraises.
  - subst run. simpl. split; [done|]. intros e [= <-].
    destruct (Hfails e' eq_refl) as [-> _]. by left.
Qed.

Lemma stop_actions_proposal_spec_witness :
  let without_candles :=
    ExcaliburStrategy.mk tracking_with_take_profit default_order_settings (Some [])
      (Some 100) (Some 1%Z) in
  let with_candles := savings_at tracking_with_take_profit [103] 100 1 in
  stop_actions_proposal stressed_world without_candles = (Done [], without_candles) ∧
  (stop_actions_proposal rejecting_stressed_world with_candles).1
  = Failed (Inherited GatewayError) ∧
  only_exits tracking_with_take_profit
    (ExcaliburStrategy.pk (stop_actions_proposal rejecting_stressed_world with_candles).2).
Proof.
  intros without_candles with_candles. split_and!.
  - by apply (proj1 (stop_actions_proposal_spec stressed_world without_candles)).
  - destruct (stop_actions_proposal rejecting_stressed_world with_candles).1
      as [a|e] eqn:Hrun; [by vm_compute in Hrun|].
    destruct (proj2 (proj2 (stop_actions_proposal_spec rejecting_stressed_world with_candles))
                e Hrun) as [-> | [-> | ->]]; [done|by vm_compute in Hrun..].
  - apply (stop_actions_proposal_spec rejecting_stressed_world with_candles).
Defined.
